(** * eraflazz: transaction lifecycle, smart routing and retry controller

    A shallow embedding of the Go sources of the prepaid top-up dispatcher:

    - [pkg/utils]                    phone normalisation and validation;
    - [internal/domain]              users, suppliers, product mappings,
                                     transactions, mutations and their methods;
    - [internal/repository/postgres] the SQL statements of the repositories,
                                     as operations on in-memory tables;
    - [internal/usecase]             smart routing, the retry controller and the
                                     transaction use case.

    Conventions.
    - Go [int] and [time.Duration] are 64-bit: they are integers of [Z] and
      every arithmetic result goes through [wrap64].
    - Go [float64] is IEEE-754 binary64, round to nearest even: the type
      [spec_float] of the standard library with [prec = 53], [emax = 1024].
      Decimal literals of the source are the correctly rounded quotients of
      their numerator and denominator, as the Go compiler rounds constants.
      Operations are rounded one by one (no fused multiply-add).
    - Go strings are byte strings: [string] of the standard library.
    - The world outside the process (clock, [crypto/rand], the iteration order
      of Go maps, supplier adapters) is read from oracles carried by [World];
      cursors into the oracles advance as the code consumes them.
    - Repositories follow their SQL statements on lists of rows; connection
      failures of the database and of the queue are not modelled, primary and
      unique keys are. *)

From Stdlib Require Import ZArith List String Ascii Bool Lia SpecFloat.
From Stdlib Require Import Permutation DecimalString.
Import ListNotations.

Local Open Scope string_scope.
Local Open Scope Z_scope.

(* ================================================================== *)
(** ** Machine integers *)

Module GoInt.

Definition min_int64 : Z := - 2 ^ 63.
Definition max_int64 : Z := 2 ^ 63 - 1.

(** Two's complement wrap-around of a 64-bit signed integer. *)
Definition wrap64 (z : Z) : Z := (z + 2 ^ 63) mod 2 ^ 64 - 2 ^ 63.

Definition in_int64 (z : Z) : Prop := min_int64 <= z <= max_int64.

Definition add (a b : Z) : Z := wrap64 (a + b).
Definition sub (a b : Z) : Z := wrap64 (a - b).
Definition mul (a b : Z) : Z := wrap64 (a * b).

(** [1 << n] on an [int]; the callers pass [n >= 0] (Go panics on a
    negative count, which is outside the model). *)
Definition shl1 (n : Z) : Z := wrap64 (2 ^ n).

(** Truncated division of Go. *)
Definition quot (a b : Z) : Z := wrap64 (Z.quot a b).

End GoInt.

(* ================================================================== *)
(** ** binary64 *)

Module F64.

Definition prec : Z := 53.
Definition emax : Z := 1024.

Definition t : Type := spec_float.

Definition add : t -> t -> t := SFadd prec emax.
Definition sub : t -> t -> t := SFsub prec emax.
Definition mul : t -> t -> t := SFmul prec emax.
Definition div : t -> t -> t := SFdiv prec emax.

(** [float64(n)] for an integer [n]. *)
Definition of_int (n : Z) : t := binary_normalize prec emax n 0 false.

(** A decimal literal [num/den] of the source, correctly rounded. *)
Definition lit (num den : Z) : t := div (of_int num) (of_int den).

Definition zero : t := S754_zero false.

Definition ltb (a b : t) : bool := SFltb a b.
Definition leb (a b : t) : bool := SFleb a b.
Definition gtb (a b : t) : bool := SFltb b a.
Definition geb (a b : t) : bool := SFleb b a.
Definition eqb (a b : t) : bool := SFeqb a b.

(** The integer part of a finite float, rounded toward zero. *)
Definition trunc (x : t) : option Z :=
  match x with
  | S754_zero _ => Some 0
  | S754_finite s m e =>
      let a := match e with
               | Z0 => Zpos m
               | Zpos _ => Zpos m * 2 ^ e
               | Zneg _ => Zpos m / 2 ^ (- e)
               end in
      Some (if s then - a else a)
  | _ => None
  end.

(** [int(x)] and [time.Duration(x)]: truncation; for NaN, infinities and
    values outside int64 the amd64 conversion yields the minimal integer. *)
Definition to_int (x : t) : Z :=
  match trunc x with
  | Some z => if (GoInt.min_int64 <=? z) && (z <=? GoInt.max_int64)
              then z else GoInt.min_int64
  | None => GoInt.min_int64
  end.

End F64.

(* ================================================================== *)
(** ** pkg/utils *)

Module utils.

(** The class [\d] of the regular expressions of Go: ASCII digits. *)
Definition is_digit (c : ascii) : bool :=
  let n := nat_of_ascii c in (48 <=? n)%nat && (n <=? 57)%nat.

Fixpoint keep (p : ascii -> bool) (s : string) : string :=
  match s with
  | EmptyString => EmptyString
  | String c r => if p c then String c (keep p r) else keep p r
  end.

(** [strings.HasPrefix s p]. *)
Fixpoint HasPrefix (s p : string) {struct p} : bool :=
  match p with
  | EmptyString => true
  | String a p' =>
      match s with
      | EmptyString => false
      | String b s' => Ascii.eqb a b && HasPrefix s' p'
      end
  end.

(** The slice [s[n:]]. *)
Fixpoint drop (n : nat) (s : string) : string :=
  match n, s with
  | O, _ => s
  | S n', String _ r => drop n' r
  | S _, EmptyString => EmptyString
  end.

(** ParsePhoneNumber: [regexp `[^\d]`] replaced by the empty string, then
    a leading 0 replaced by 62. *)
Definition ParsePhoneNumber (phone : string) : string :=
  let phone := keep is_digit phone in
  if HasPrefix phone "0" then ("62" ++ drop 1 phone)%string else phone.

Definition ValidatePhoneNumber (phone : string) : bool :=
  let normalized := ParsePhoneNumber phone in
  if negb (HasPrefix normalized "62") then false
  else
    let digits := drop 2 normalized in
    (9 <=? String.length digits)%nat && (String.length digits <=? 13)%nat.

(** The alphabet of GenerateRandomString. *)
Definition charset : string :=
  "abcdefghijklmnopqrstuvwxyzABCDEFGHIJKLMNOPQRSTUVWXYZ0123456789".

(** [GenerateRandomString(1)[0]] as a number, for the draw [n] of
    [rand.Int(rand.Reader, len(charset))]. *)
Definition random_byte (n : nat) : Z :=
  match String.get (n mod String.length charset) charset with
  | Some c => Z.of_nat (nat_of_ascii c)
  | None => 0
  end.

End utils.

(* ================================================================== *)
(** ** internal/domain *)

Module domain.

(** The transaction statuses (the constants [StatusPending] ...; the column
    [transactions.status] admits no other value). *)
Inductive status : Type :=
| StatusPending
| StatusProcessing
| StatusSuccess
| StatusFailed
| StatusRefund
| StatusTimeout.

Definition status_eqb (a b : status) : bool :=
  match a, b with
  | StatusPending, StatusPending
  | StatusProcessing, StatusProcessing
  | StatusSuccess, StatusSuccess
  | StatusFailed, StatusFailed
  | StatusRefund, StatusRefund
  | StatusTimeout, StatusTimeout => true
  | _, _ => false
  end.

(** [MutationTypeDebit] is money in, [MutationTypeCredit] is money out. *)
Inductive mutation_type : Type :=
| MutationTypeDebit
| MutationTypeCredit.

Definition mutation_type_eqb (a b : mutation_type) : bool :=
  match a, b with
  | MutationTypeDebit, MutationTypeDebit
  | MutationTypeCredit, MutationTypeCredit => true
  | _, _ => false
  end.

Definition ReferenceTypeTransaction : string := "TRANSACTION".

Inductive stock_status : Type :=
| StockStatusAvailable
| StockStatusOutOfStock
| StockStatusUnknown.

Definition LevelReseller : Z := 1.
Definition LevelAgent : Z := 2.
Definition LevelMaster : Z := 3.
Definition LevelAdmin : Z := 4.

Definition MinSuccessRateThreshold : F64.t := F64.of_int 50.

(** Instants are nanoseconds since the epoch, durations nanoseconds. *)
Definition Millisecond : Z := 1000000.
Definition Second : Z := 1000 * Millisecond.
Definition Minute : Z := 60 * Second.
Definition Hour : Z := 60 * Minute.

(** *** Transaction (the metadata fields user_ip, user_agent and
    api_endpoint, which no use case reads or writes, are left out) *)
Module Transaction.

Record t : Type := Build {
  ID : string;
  TrxCode : string;
  UserID : string;
  ProductID : string;
  SupplierID : option string;
  DestinationNumber : string;
  ProductCode : string;
  HPP : F64.t;
  SellingPrice : F64.t;
  AdminFee : F64.t;
  Profit : F64.t;
  Status : status;
  SerialNumber : option string;
  SupplierMessage : option string;
  SupplierTrxID : option string;
  RoutingAttempts : Z;
  FinalSupplierID : option string;
  CreatedAt : Z;
  UpdatedAt : Z;
  ProcessedAt : option Z;
  CompletedAt : option Z;
  Notes : option string
}.

Definition set_SupplierID (v : option string) (r : t) : t :=
  Build (ID r) (TrxCode r) (UserID r) (ProductID r) v (DestinationNumber r)
    (ProductCode r) (HPP r) (SellingPrice r) (AdminFee r) (Profit r)
    (Status r) (SerialNumber r) (SupplierMessage r) (SupplierTrxID r)
    (RoutingAttempts r) (FinalSupplierID r) (CreatedAt r) (UpdatedAt r)
    (ProcessedAt r) (CompletedAt r) (Notes r).

Definition set_Status (v : status) (r : t) : t :=
  Build (ID r) (TrxCode r) (UserID r) (ProductID r) (SupplierID r)
    (DestinationNumber r) (ProductCode r) (HPP r) (SellingPrice r)
    (AdminFee r) (Profit r) v (SerialNumber r) (SupplierMessage r)
    (SupplierTrxID r) (RoutingAttempts r) (FinalSupplierID r) (CreatedAt r)
    (UpdatedAt r) (ProcessedAt r) (CompletedAt r) (Notes r).

Definition set_SerialNumber (v : option string) (r : t) : t :=
  Build (ID r) (TrxCode r) (UserID r) (ProductID r) (SupplierID r)
    (DestinationNumber r) (ProductCode r) (HPP r) (SellingPrice r)
    (AdminFee r) (Profit r) (Status r) v (SupplierMessage r)
    (SupplierTrxID r) (RoutingAttempts r) (FinalSupplierID r) (CreatedAt r)
    (UpdatedAt r) (ProcessedAt r) (CompletedAt r) (Notes r).

Definition set_SupplierMessage (v : option string) (r : t) : t :=
  Build (ID r) (TrxCode r) (UserID r) (ProductID r) (SupplierID r)
    (DestinationNumber r) (ProductCode r) (HPP r) (SellingPrice r)
    (AdminFee r) (Profit r) (Status r) (SerialNumber r) v (SupplierTrxID r)
    (RoutingAttempts r) (FinalSupplierID r) (CreatedAt r) (UpdatedAt r)
    (ProcessedAt r) (CompletedAt r) (Notes r).

Definition set_SupplierTrxID (v : option string) (r : t) : t :=
  Build (ID r) (TrxCode r) (UserID r) (ProductID r) (SupplierID r)
    (DestinationNumber r) (ProductCode r) (HPP r) (SellingPrice r)
    (AdminFee r) (Profit r) (Status r) (SerialNumber r) (SupplierMessage r)
    v (RoutingAttempts r) (FinalSupplierID r) (CreatedAt r) (UpdatedAt r)
    (ProcessedAt r) (CompletedAt r) (Notes r).

Definition set_RoutingAttempts (v : Z) (r : t) : t :=
  Build (ID r) (TrxCode r) (UserID r) (ProductID r) (SupplierID r)
    (DestinationNumber r) (ProductCode r) (HPP r) (SellingPrice r)
    (AdminFee r) (Profit r) (Status r) (SerialNumber r) (SupplierMessage r)
    (SupplierTrxID r) v (FinalSupplierID r) (CreatedAt r) (UpdatedAt r)
    (ProcessedAt r) (CompletedAt r) (Notes r).

Definition set_FinalSupplierID (v : option string) (r : t) : t :=
  Build (ID r) (TrxCode r) (UserID r) (ProductID r) (SupplierID r)
    (DestinationNumber r) (ProductCode r) (HPP r) (SellingPrice r)
    (AdminFee r) (Profit r) (Status r) (SerialNumber r) (SupplierMessage r)
    (SupplierTrxID r) (RoutingAttempts r) v (CreatedAt r) (UpdatedAt r)
    (ProcessedAt r) (CompletedAt r) (Notes r).

Definition set_UpdatedAt (v : Z) (r : t) : t :=
  Build (ID r) (TrxCode r) (UserID r) (ProductID r) (SupplierID r)
    (DestinationNumber r) (ProductCode r) (HPP r) (SellingPrice r)
    (AdminFee r) (Profit r) (Status r) (SerialNumber r) (SupplierMessage r)
    (SupplierTrxID r) (RoutingAttempts r) (FinalSupplierID r) (CreatedAt r)
    v (ProcessedAt r) (CompletedAt r) (Notes r).

Definition set_ProcessedAt (v : option Z) (r : t) : t :=
  Build (ID r) (TrxCode r) (UserID r) (ProductID r) (SupplierID r)
    (DestinationNumber r) (ProductCode r) (HPP r) (SellingPrice r)
    (AdminFee r) (Profit r) (Status r) (SerialNumber r) (SupplierMessage r)
    (SupplierTrxID r) (RoutingAttempts r) (FinalSupplierID r) (CreatedAt r)
    (UpdatedAt r) v (CompletedAt r) (Notes r).

Definition set_CompletedAt (v : option Z) (r : t) : t :=
  Build (ID r) (TrxCode r) (UserID r) (ProductID r) (SupplierID r)
    (DestinationNumber r) (ProductCode r) (HPP r) (SellingPrice r)
    (AdminFee r) (Profit r) (Status r) (SerialNumber r) (SupplierMessage r)
    (SupplierTrxID r) (RoutingAttempts r) (FinalSupplierID r) (CreatedAt r)
    (UpdatedAt r) (ProcessedAt r) v (Notes r).

Definition set_Notes (v : option string) (r : t) : t :=
  Build (ID r) (TrxCode r) (UserID r) (ProductID r) (SupplierID r)
    (DestinationNumber r) (ProductCode r) (HPP r) (SellingPrice r)
    (AdminFee r) (Profit r) (Status r) (SerialNumber r) (SupplierMessage r)
    (SupplierTrxID r) (RoutingAttempts r) (FinalSupplierID r) (CreatedAt r)
    (UpdatedAt r) (ProcessedAt r) (CompletedAt r) v.

(** IsFinalStatus *)
Definition IsFinalStatus (t : t) : bool :=
  status_eqb (Status t) StatusSuccess || status_eqb (Status t) StatusFailed
  || status_eqb (Status t) StatusRefund || status_eqb (Status t) StatusTimeout.

(** CanRetry *)
Definition CanRetry (t : t) : bool :=
  status_eqb (Status t) StatusFailed && (RoutingAttempts t <? 3).

(** CalculateProfit *)
Definition CalculateProfit (t : t) : F64.t :=
  F64.sub (F64.sub (SellingPrice t) (HPP t)) (AdminFee t).

(** IsExpired, at the instant [now] *)
Definition IsExpired (now : Z) (t : t) (timeoutMinutes : Z) : bool :=
  if negb (status_eqb (Status t) StatusPending)
     && negb (status_eqb (Status t) StatusProcessing)
  then false
  else
    let expiryTime :=
      GoInt.add (CreatedAt t) (GoInt.mul timeoutMinutes Minute) in
    expiryTime <? now.

End Transaction.

(** *** Mutation *)
Module Mutation.

Record t : Type := Build {
  ID : string;
  UserID : string;
  Type_ : mutation_type;
  Amount : F64.t;
  BalanceBefore : F64.t;
  BalanceAfter : F64.t;
  ReferenceType : option string;
  ReferenceID : option string;
  Description : string;
  Notes : option string;
  CreatedBy : option string;
  CreatedAt : Z
}.

End Mutation.

(** *** User (credentials, profile and timestamps are left out) *)
Module User.

Record t : Type := Build {
  ID : string;
  Username : string;
  Email : string;
  Level : Z;
  IsActive : bool;
  IsVerified : bool;
  Balance : F64.t;
  CreditLimit : F64.t;
  MarkupPercentage : F64.t;
  AllowDebt : bool;
  MaxDailyTransaction : F64.t
}.

Definition set_Balance (v : F64.t) (r : t) : t :=
  Build (ID r) (Username r) (Email r) (Level r) (IsActive r) (IsVerified r)
    v (CreditLimit r) (MarkupPercentage r) (AllowDebt r)
    (MaxDailyTransaction r).

(** GetEffectivePrice *)
Definition GetEffectivePrice (u : t) (basePrice : F64.t) : F64.t :=
  if Level u =? LevelAdmin then basePrice
  else
    F64.mul basePrice
      (F64.add (F64.of_int 1)
         (F64.div (MarkupPercentage u) (F64.of_int 100))).

(** HasSufficientBalance *)
Definition HasSufficientBalance (u : t) (amount : F64.t) : bool :=
  if AllowDebt u then F64.geb (F64.add (Balance u) (CreditLimit u)) amount
  else F64.geb (Balance u) amount.

End User.

(** *** Product (the fields read by CreateTransaction) *)
Module Product.

Record t : Type := Build {
  ID : string;
  Code : string;
  Name : string;
  BasePrice : F64.t;
  SellingPrice : F64.t;
  MinPrice : F64.t;
  IsActive : bool;
  MinTransactionAmount : F64.t;
  MaxTransactionAmount : F64.t
}.

End Product.

(** *** ProductMapping *)
Module ProductMapping.

Record t : Type := Build {
  ID : string;
  ProductID : string;
  SupplierID : string;
  SupplierProductCode : string;
  SupplierPrice : F64.t;
  AdditionalFee : F64.t;
  Priority : Z;
  IsActive : bool;
  StockStatus : stock_status;
  SuccessCount : Z;
  FailureCount : Z
}.

(** GetEffectivePrice *)
Definition GetEffectivePrice (pm : t) : F64.t :=
  F64.add (SupplierPrice pm) (AdditionalFee pm).

End ProductMapping.

(** *** Supplier (the API credentials are left out) *)
Module Supplier.

Record t : Type := Build {
  ID : string;
  Name : string;
  Code : string;
  IsActive : bool;
  Priority : Z;
  TimeoutSeconds : Z;
  RetryAttempts : Z;
  Balance : F64.t;
  MinBalanceThreshold : F64.t;
  SuccessRate : F64.t;
  AvgResponseTimeMs : Z;
  TotalTransactions : Z;
  FailedTransactions : Z;
  LastCheckedAt : option Z;
  LastSuccessAt : option Z
}.







(** IsHealthy *)
Definition IsHealthy (s : t) : bool :=
  if negb (IsActive s) then false
  else if F64.ltb (SuccessRate s) MinSuccessRateThreshold then false
  else if F64.ltb (Balance s) (MinBalanceThreshold s) then false
  else true.


End Supplier.

(** *** SupplierRequest, SupplierResponse *)
Record SupplierRequest : Type := Build_SupplierRequest {
  req_ProductCode : string;
  req_DestinationNumber : string;
  req_RefID : string
}.

Record SupplierResponse : Type := Build_SupplierResponse {
  Success : bool;
  Message : string;
  TrxID : string;
  SerialNumber : string;
  StatusCode : Z;
  ResponseTime : Z
}.

End domain.

(* ================================================================== *)
(** ** Results, the world and its oracles *)

(** A Go pair [(value, error)]: errors carry their message. *)
Inductive result (A : Type) : Type :=
| Ok (a : A)
| Err (msg : string).
Arguments Ok {A} a.
Arguments Err {A} msg.

Definition is_ok {A : Type} (r : result A) : bool :=
  match r with Ok _ => true | Err _ => false end.

(** What [adapter.TopUp] hands back: a response without error, or an error
    with the response (if any) that came with it. *)
Inductive TopUpResult : Type :=
| TopUpReply (response : domain.SupplierResponse)
| TopUpError (err : string) (response : option domain.SupplierResponse).

(** An adapter answers a request and takes some time to do so. *)
Definition SupplierAdapter : Type :=
  domain.SupplierRequest -> TopUpResult * Z.

(** The lines of the retry controller kept from the logger. *)
Inductive LogLine : Type :=
| LogExecutingRetryAttempt (supplier_code : string) (attempt : Z)
| LogWaitingBeforeRetry (attempt : Z) (delay : Z).

(** The outside of the process: each function is read at the cursor of the
    world. *)
Record Oracle : Type := Build_Oracle {
  rand_draw : nat -> nat;          (* crypto/rand, [rand.Int] *)
  uuid_draw : nat -> string;       (* uuid.New().String() *)
  trx_code_draw : nat -> string;   (* utils.GenerateTrxCode() *)
  map_order : nat -> list nat      (* iteration order of a Go map *)
}.

(** The collaborators a use case is wired with; any of them may be nil. *)
Record Wiring : Type := Build_Wiring {
  queueRepo : bool;
  mutationRepo : bool;
  smartRoutingUC : bool;
  retryUC : bool;
  adapterFactory : option (string -> option SupplierAdapter)
}.

Record World : Type := Build_World {
  users : list domain.User.t;
  products : list domain.Product.t;
  suppliers : list domain.Supplier.t;
  product_mappings : list domain.ProductMapping.t;
  transactions : list domain.Transaction.t;
  mutations : list domain.Mutation.t;
  transaction_queue : list string;
  log : list LogLine;
  clock : Z;
  cursor : nat
}.

Definition set_users v (w : World) : World :=
  Build_World v (products w) (suppliers w) (product_mappings w)
    (transactions w) (mutations w) (transaction_queue w) (log w) (clock w)
    (cursor w).

Definition set_suppliers v (w : World) : World :=
  Build_World (users w) (products w) v (product_mappings w)
    (transactions w) (mutations w) (transaction_queue w) (log w) (clock w)
    (cursor w).

Definition set_transactions v (w : World) : World :=
  Build_World (users w) (products w) (suppliers w) (product_mappings w)
    v (mutations w) (transaction_queue w) (log w) (clock w) (cursor w).

Definition set_mutations v (w : World) : World :=
  Build_World (users w) (products w) (suppliers w) (product_mappings w)
    (transactions w) v (transaction_queue w) (log w) (clock w) (cursor w).

Definition set_transaction_queue v (w : World) : World :=
  Build_World (users w) (products w) (suppliers w) (product_mappings w)
    (transactions w) (mutations w) v (log w) (clock w) (cursor w).

Definition set_log v (w : World) : World :=
  Build_World (users w) (products w) (suppliers w) (product_mappings w)
    (transactions w) (mutations w) (transaction_queue w) v (clock w)
    (cursor w).

Definition set_clock v (w : World) : World :=
  Build_World (users w) (products w) (suppliers w) (product_mappings w)
    (transactions w) (mutations w) (transaction_queue w) (log w) v
    (cursor w).

Definition set_cursor v (w : World) : World :=
  Build_World (users w) (products w) (suppliers w) (product_mappings w)
    (transactions w) (mutations w) (transaction_queue w) (log w) (clock w) v.

(** *** The state monad of the use cases *)

Definition M (A : Type) : Type := World -> A * World.

Definition ret {A : Type} (a : A) : M A := fun w => (a, w).

Definition bind {A B : Type} (m : M A) (k : A -> M B) : M B :=
  fun w => let (a, w') := m w in k a w'.

Declare Scope go_scope.
Delimit Scope go_scope with go.
Notation "x <- m ;; k" := (bind m (fun x => k))
  (at level 61, m at next level, right associativity) : go_scope.
Notation "m ;;; k" := (bind m (fun _ => k))
  (at level 61, right associativity) : go_scope.
Local Open Scope go_scope.

Definition get : M World := fun w => (w, w).
Definition modify (f : World -> World) : M unit := fun w => (tt, f w).

(** [time.Now()], [time.Sleep(d)]. *)
Definition time_Now : M Z := fun w => (clock w, w).
Definition time_Sleep (d : Z) : M unit :=
  modify (fun w => set_clock (clock w + Z.max 0 d) w).

(** One draw from an oracle. *)
Definition draw {A : Type} (f : nat -> A) : M A :=
  fun w => (f (cursor w), set_cursor (S (cursor w)) w).

Definition logger (l : LogLine) : M unit :=
  modify (fun w => set_log (log w ++ [l]) w).

(* ================================================================== *)
(** ** internal/repository: the SQL statements on lists of rows *)

Module postgres.
Import domain.

(** [UPDATE table SET ... WHERE key = k]: every matching row is rewritten;
    the number of rows affected is the number of matches. *)
Definition update_where {A : Type} (p : A -> bool) (f : A -> A)
    (rows : list A) : list A :=
  map (fun r => if p r then f r else r) rows.

Definition rows_affected {A : Type} (p : A -> bool) (rows : list A) : nat :=
  List.length (filter p rows).

(** *** userRepository *)
Module userRepository.

Definition GetByID (id : string) : M (result User.t) :=
  w <- get ;;
  match find (fun u => String.eqb (User.ID u) id) (users w) with
  | Some u => ret (Ok u)
  | None => ret (Err "user not found")
  end.

(** UPDATE users SET balance = $2 WHERE id = $1 *)
Definition UpdateBalance (id : string) (newBalance : F64.t)
    : M (result unit) :=
  w <- get ;;
  let p := fun u => String.eqb (User.ID u) id in
  modify (set_users (update_where p (User.set_Balance newBalance) (users w))) ;;;
  if (rows_affected p (users w) =? 0)%nat
  then ret (Err "user not found")
  else ret (Ok tt).

End userRepository.

(** *** productRepository *)
Module productRepository.

Definition GetByCode (code : string) : M (result Product.t) :=
  w <- get ;;
  match find (fun p => String.eqb (Product.Code p) code) (products w) with
  | Some p => ret (Ok p)
  | None => ret (Err "product not found")
  end.

End productRepository.

(** *** supplierRepository *)
Module supplierRepository.

Definition GetByID (id : string) : M (result Supplier.t) :=
  w <- get ;;
  match find (fun s => String.eqb (Supplier.ID s) id) (suppliers w) with
  | Some s => ret (Ok s)
  | None => ret (Err "supplier not found")
  end.

(** Rounding of a numeric quotient [n/d], [d > 0], to the nearest
    integer, ties away from zero (the rounding of numeric casts and of
    assignments to a column of smaller scale). *)
Definition round_div (n d : Z) : Z :=
  if 0 <=? n then (2 * n + d) / (2 * d)
  else - ((2 * (- n) + d) / (2 * d)).

Definition in_int4 (z : Z) : bool :=
  (- 2 ^ 31 <=? z) && (z <=? 2 ^ 31 - 1).

(** The new values of the metrics columns, computed from the old ones as
    the SET clauses of UpdateMetrics do:
    - total_transactions + 1;
    - failed_transactions, plus one unless success;
    - success_rate, a DECIMAL(5,2), here in hundredths of a percent;
    - avg_response_time_ms. *)
Definition new_total (s : Supplier.t) : Z := Supplier.TotalTransactions s + 1.

Definition new_failed (s : Supplier.t) (success : bool) : Z :=
  if success then Supplier.FailedTransactions s
  else Supplier.FailedTransactions s + 1.

Definition new_success_rate_hundredths (s : Supplier.t) (success : bool)
    : Z :=
  if 0 <? new_total s
  then round_div ((new_total s - new_failed s success) * 100 * 100)
                 (new_total s)
  else 100 * 100.

Definition new_avg_response_time_ms (s : Supplier.t) (responseTimeMs : Z)
    : Z :=
  if Supplier.AvgResponseTimeMs s =? 0 then responseTimeMs
  else round_div (Supplier.AvgResponseTimeMs s * 7 + responseTimeMs * 3) 10.

(** A DECIMAL(5,2) read back into a float64 field. *)
Definition scan_decimal2 (hundredths : Z) : F64.t := F64.lit hundredths 100.

(** The row after the UPDATE; [None] when a value does not fit its
    column and the statement fails. *)
Definition updated_row (now : Z) (success : bool) (responseTimeMs : Z)
    (s : Supplier.t) : option Supplier.t :=
  let total := new_total s in
  let failed := new_failed s success in
  let rate := new_success_rate_hundredths s success in
  let avg := new_avg_response_time_ms s responseTimeMs in
  if in_int4 total && in_int4 failed && in_int4 avg
     && (Z.abs rate <? 1000 * 100)
  then
    Some (Supplier.Build (Supplier.ID s) (Supplier.Name s)
            (Supplier.Code s) (Supplier.IsActive s) (Supplier.Priority s)
            (Supplier.TimeoutSeconds s) (Supplier.RetryAttempts s)
            (Supplier.Balance s) (Supplier.MinBalanceThreshold s)
            (scan_decimal2 rate) avg total failed (Some now)
            (if success then Some now else Supplier.LastSuccessAt s))
  else None.

(** UpdateMetrics *)
Definition UpdateMetrics (id : string) (success : bool)
    (responseTimeMs : Z) : M (result unit) :=
  now <- time_Now ;;
  w <- get ;;
  let p := fun s => String.eqb (Supplier.ID s) id in
  let hit := filter p (suppliers w) in
  if forallb (fun s => match updated_row now success responseTimeMs s with
                       | Some _ => true
                       | None => false
                       end) hit
  then
    modify (set_suppliers
              (update_where p
                 (fun s => match updated_row now success responseTimeMs s with
                           | Some s' => s'
                           | None => s
                           end) (suppliers w))) ;;;
    if (List.length hit =? 0)%nat then ret (Err "supplier not found")
    else ret (Ok tt)
  else ret (Err "failed to update supplier metrics").

End supplierRepository.

(** *** productMappingRepository *)
Module productMappingRepository.

(** The key of ORDER BY priority ASC, supplier_price ASC. *)
Definition before (a b : ProductMapping.t) : bool :=
  (ProductMapping.Priority a <? ProductMapping.Priority b)
  || ((ProductMapping.Priority a =? ProductMapping.Priority b)
      && F64.ltb (ProductMapping.SupplierPrice a)
                 (ProductMapping.SupplierPrice b)).

Fixpoint insert_by (x : ProductMapping.t) (l : list ProductMapping.t)
    : list ProductMapping.t :=
  match l with
  | [] => [x]
  | y :: r => if before x y then x :: l else y :: insert_by x r
  end.

(** Rows with equal keys stay in the order of the table, one of the
    orders ORDER BY may return. *)
Definition order_by (l : list ProductMapping.t) : list ProductMapping.t :=
  fold_right insert_by [] l.

(** GetActiveMappings *)
Definition GetActiveMappings (productID : string)
    : M (result (list ProductMapping.t)) :=
  w <- get ;;
  ret (Ok (order_by
             (filter (fun m => String.eqb (ProductMapping.ProductID m) productID
                               && ProductMapping.IsActive m)
                     (product_mappings w)))).

End productMappingRepository.

(** *** transactionRepository *)
Module transactionRepository.

Definition has_id (id : string) (t : Transaction.t) : bool :=
  String.eqb (Transaction.ID t) id.

(** Create: the INSERT names the columns below; routing_attempts,
    created_at and updated_at take their defaults, profit is generated.
    The primary key and the unique trx_code reject duplicates. *)
Definition Create (t : Transaction.t) : M (result unit) :=
  now <- time_Now ;;
  w <- get ;;
  if existsb (fun r => String.eqb (Transaction.ID r) (Transaction.ID t)
                       || String.eqb (Transaction.TrxCode r)
                                     (Transaction.TrxCode t))
             (transactions w)
  then ret (Err "failed to create transaction")
  else
    let row :=
      Transaction.Build (Transaction.ID t) (Transaction.TrxCode t)
        (Transaction.UserID t) (Transaction.ProductID t)
        (Transaction.SupplierID t) (Transaction.DestinationNumber t)
        (Transaction.ProductCode t) (Transaction.HPP t)
        (Transaction.SellingPrice t) (Transaction.AdminFee t)
        (Transaction.CalculateProfit t) (Transaction.Status t)
        None None None 0 None now now None None (Transaction.Notes t) in
    modify (set_transactions (transactions w ++ [row])) ;;;
    ret (Ok tt).

Definition GetByID (id : string) : M (result Transaction.t) :=
  w <- get ;;
  match find (has_id id) (transactions w) with
  | Some t => ret (Ok t)
  | None => ret (Err "transaction not found")
  end.

(** The columns the UPDATE of [Update] assigns; the trigger stamps
    updated_at. *)
Definition write_columns (now : Z) (t row : Transaction.t)
    : Transaction.t :=
  Transaction.Build (Transaction.ID row) (Transaction.TrxCode row)
    (Transaction.UserID row) (Transaction.ProductID row)
    (Transaction.SupplierID t) (Transaction.DestinationNumber row)
    (Transaction.ProductCode row) (Transaction.HPP row)
    (Transaction.SellingPrice row) (Transaction.AdminFee row)
    (Transaction.Profit row) (Transaction.Status t)
    (Transaction.SerialNumber t) (Transaction.SupplierMessage t)
    (Transaction.SupplierTrxID t) (Transaction.RoutingAttempts t)
    (Transaction.FinalSupplierID t) (Transaction.CreatedAt row) now
    (Transaction.ProcessedAt t) (Transaction.CompletedAt t)
    (Transaction.Notes t).

Definition Update (t : Transaction.t) : M (result unit) :=
  now <- time_Now ;;
  w <- get ;;
  let p := has_id (Transaction.ID t) in
  modify (set_transactions
            (update_where p (write_columns now t) (transactions w))) ;;;
  if (rows_affected p (transactions w) =? 0)%nat
  then ret (Err "transaction not found")
  else ret (Ok tt).

(** UPDATE transactions SET status = $2, updated_at = $3 WHERE id = $1 *)
Definition UpdateStatus (id : string) (s : status) : M (result unit) :=
  now <- time_Now ;;
  w <- get ;;
  let p := has_id id in
  modify (set_transactions
            (update_where p
               (fun r => Transaction.set_UpdatedAt now
                           (Transaction.set_Status s r))
               (transactions w))) ;;;
  if (rows_affected p (transactions w) =? 0)%nat
  then ret (Err "transaction not found")
  else ret (Ok tt).

Definition GetByStatus (s : status) : M (result (list Transaction.t)) :=
  w <- get ;;
  ret (Ok (filter (fun t => status_eqb (Transaction.Status t) s)
                  (transactions w))).

Definition GetPendingTransactions : M (result (list Transaction.t)) :=
  GetByStatus StatusPending.

End transactionRepository.

(** *** mutationRepository *)
Module mutationRepository.

(** Create: an INSERT; the primary key rejects a duplicate id. *)
Definition Create (m : Mutation.t) : M (result unit) :=
  w <- get ;;
  if existsb (fun r => String.eqb (Mutation.ID r) (Mutation.ID m))
             (mutations w)
  then ret (Err "failed to create mutation")
  else
    modify (set_mutations (mutations w ++ [m])) ;;;
    ret (Ok tt).

End mutationRepository.

End postgres.

Module redis.

(** EnqueueTransaction: LPUSH transaction_queue id *)
Definition EnqueueTransaction (transactionID : string) : M (result unit) :=
  w <- get ;;
  modify (set_transaction_queue (transactionID :: transaction_queue w)) ;;;
  ret (Ok tt).

(** DequeueTransaction: BRPOP transaction_queue; the empty string when the
    queue stays empty. *)
Definition DequeueTransaction : M (result string) :=
  w <- get ;;
  match rev (transaction_queue w) with
  | [] => ret (Ok "")
  | id :: r =>
      modify (set_transaction_queue (rev r)) ;;;
      ret (Ok id)
  end.

End redis.

(* ================================================================== *)
(** ** Go maps and sort.Slice *)

Module gomap.

Definition t : Type := list (string * F64.t).

Fixpoint lookup (k : string) (m : t) : option F64.t :=
  match m with
  | [] => None
  | (k', v) :: r => if String.eqb k' k then Some v else lookup k r
  end.

(** [m[k]]: the zero value when the key is absent. *)
Definition get (m : t) (k : string) : F64.t :=
  match lookup k m with
  | Some v => v
  | None => F64.zero
  end.

(** [m[k] = v] *)
Fixpoint set (k : string) (v : F64.t) (m : t) : t :=
  match m with
  | [] => [(k, v)]
  | (k', v') :: r =>
      if String.eqb k' k then (k, v) :: r else (k', v') :: set k v r
  end.

(** The element at position [i] taken out of a list. *)
Fixpoint take_out {A : Type} (i : nat) (l : list A) : option (A * list A) :=
  match l, i with
  | [], _ => None
  | x :: r, O => Some (x, r)
  | x :: r, S i' =>
      match take_out i' r with
      | Some (y, r') => Some (y, x :: r')
      | None => None
      end
  end.

(** The order in which [range m] visits the entries: each entry once, in
    an order the language leaves open. The order is decoded from a list of
    draws, every list of draws giving an order. *)
Fixpoint visit {A : Type} (n : nat) (draws : list nat) (l : list A)
    : list A :=
  match n with
  | O => []
  | S n' =>
      match take_out (hd O draws mod Nat.max 1 (List.length l)) l with
      | Some (x, r) => x :: visit n' (tl draws) r
      | None => []
      end
  end.

Definition range {A : Type} (draws : list nat) (l : list A) : list A :=
  visit (List.length l) draws l.

End gomap.

Module sort.

(** The insertion sort of package sort, which [sort.Slice] runs on slices
    of at most 12 elements:
    [for i := a+1; i < b; i++ {
       for j := i; j > a && less(j, j-1); j-- { swap(j, j-1) } }].
    The sorted prefix is kept in reverse, nearest neighbour first. *)
Section Insertion.
Context {A : Type}.
Variable less : A -> A -> bool.

(** The inner loop: [x] moves left while it is less than its
    neighbour; [left] is the prefix in reverse. *)
Fixpoint sink (x : A) (left : list A) : list A :=
  match left with
  | [] => [x]
  | y :: r => if less x y then y :: sink x r else x :: left
  end.

Fixpoint insertionSort (left : list A) (right : list A) : list A :=
  match right with
  | [] => rev left
  | x :: r => insertionSort (sink x left) r
  end.

Definition Slice (l : list A) : list A := insertionSort [] l.

End Insertion.

End sort.

(* ================================================================== *)
(** ** internal/usecase: smart routing *)

Module smart_routing.
Import domain postgres.

Record RoutingCriteria : Type := Build_RoutingCriteria {
  PriorityOnly : bool;
  PreferCheapest : bool;
  PreferFastest : bool;
  PreferReliable : bool;
  MaxSuppliers : Z;
  MinSuccessRate : F64.t
}.

Record SupplierScore : Type := Build_SupplierScore {
  Supplier : Supplier.t;
  TotalScore : F64.t;
  Confidence : F64.t;
  Reason : string;
  Breakdown : gomap.t
}.

Record RoutingResult : Type := Build_RoutingResult {
  SelectedSupplier : Supplier.t;
  SelectedMapping : option ProductMapping.t;
  ResultConfidence : F64.t;
  ResultReason : string;
  Alternatives : list Supplier.t
}.

(** calculateRecentPerformanceScore *)
Definition calculateRecentPerformanceScore (mapping : ProductMapping.t)
    : F64.t :=
  let totalAttempts :=
    GoInt.add (ProductMapping.SuccessCount mapping)
              (ProductMapping.FailureCount mapping) in
  if totalAttempts =? 0 then F64.lit 5 10
  else
    let recentSuccessRate :=
      F64.div (F64.of_int (ProductMapping.SuccessCount mapping))
              (F64.of_int totalAttempts) in
    if (10 <=? totalAttempts) && F64.geb recentSuccessRate (F64.lit 95 100)
    then F64.of_int 1
    else recentSuccessRate.

(** calculateConfidence *)
Definition calculateConfidence (breakdown : gomap.t)
    (supplier : Supplier.t) (mapping : ProductMapping.t) : F64.t :=
  let confidence := F64.lit 5 10 in
  let confidence :=
    if F64.geb (Supplier.SuccessRate supplier) (F64.of_int 95)
    then F64.add confidence (F64.lit 2 10)
    else if F64.geb (Supplier.SuccessRate supplier) (F64.of_int 90)
    then F64.add confidence (F64.lit 1 10)
    else confidence in
  let totalTransactions := Supplier.TotalTransactions supplier in
  let confidence :=
    if 1000 <=? totalTransactions then F64.add confidence (F64.lit 2 10)
    else if 100 <=? totalTransactions then F64.add confidence (F64.lit 1 10)
    else confidence in
  let confidence :=
    if F64.geb (gomap.get breakdown "recent_performance") (F64.lit 9 10)
    then F64.add confidence (F64.lit 1 10)
    else confidence in
  let confidence :=
    match ProductMapping.StockStatus mapping with
    | StockStatusUnknown => F64.sub confidence (F64.lit 1 10)
    | _ => confidence
    end in
  let confidence :=
    if F64.gtb confidence (F64.of_int 1) then F64.of_int 1 else confidence in
  let confidence :=
    if F64.ltb confidence F64.zero then F64.zero else confidence in
  confidence.

(** The loop that joins the reasons: [", "] between them, [" and "]
    before the last. *)
Fixpoint join_reasons (result : string) (rest : list string) : string :=
  match rest with
  | [] => result
  | [r] => (result ++ " and " ++ r)%string
  | r :: rest' => join_reasons (result ++ ", " ++ r)%string rest'
  end.

(** generateReason *)
Definition generateReason (breakdown : gomap.t) (criteria : RoutingCriteria)
    : string :=
  let reasons : list string := [] in
  let reasons :=
    if F64.geb (gomap.get breakdown "priority") (F64.lit 8 10)
    then (reasons ++ ["highest priority"])%list else reasons in
  let reasons :=
    if F64.geb (gomap.get breakdown "success_rate") (F64.lit 9 10)
    then (reasons ++ ["excellent success rate"])%list
    else if F64.geb (gomap.get breakdown "success_rate") (F64.lit 8 10)
    then (reasons ++ ["good success rate"])%list else reasons in
  let reasons :=
    if F64.geb (gomap.get breakdown "response_time") (F64.lit 8 10)
    then (reasons ++ ["fast response"])%list else reasons in
  let reasons :=
    if PreferCheapest criteria
       && F64.geb (gomap.get breakdown "price") (F64.lit 9 10)
    then (reasons ++ ["best price"])%list else reasons in
  let reasons :=
    if F64.geb (gomap.get breakdown "stock") (F64.lit 8 10)
    then (reasons ++ ["stock available"])%list else reasons in
  match firstn 3 reasons with
  | [] => "selected by algorithm"
  | r :: rest => join_reasons r rest
  end.

(** The weights of the factors. *)
Definition weights_of (criteria : RoutingCriteria) : gomap.t :=
  if PriorityOnly criteria then [("priority", F64.of_int 1)]
  else
    let weights : gomap.t :=
      [("priority", F64.lit 3 10); ("success_rate", F64.lit 3 10);
       ("response_time", F64.lit 2 10); ("price", F64.lit 1 10);
       ("stock", F64.lit 5 100); ("recent_performance", F64.lit 5 100)] in
    let weights :=
      if PreferCheapest criteria
      then gomap.set "priority" (F64.lit 2 10)
             (gomap.set "price" (F64.lit 3 10) weights)
      else weights in
    let weights :=
      if PreferFastest criteria
      then gomap.set "priority" (F64.lit 2 10)
             (gomap.set "response_time" (F64.lit 4 10) weights)
      else weights in
    let weights :=
      if PreferReliable criteria
      then gomap.set "priority" (F64.lit 2 10)
             (gomap.set "success_rate" (F64.lit 5 10) weights)
      else weights in
    weights.

(** [for factor, factorScore := range breakdown { ... totalScore += ... }],
    the entries taken in the order [visited]. *)
Fixpoint sum_weighted (weights : gomap.t) (visited : list (string * F64.t))
    (totalScore : F64.t) : F64.t :=
  match visited with
  | [] => totalScore
  | (factor, factorScore) :: rest =>
      match gomap.lookup factor weights with
      | Some weight =>
          sum_weighted weights rest
            (F64.add totalScore (F64.mul factorScore weight))
      | None => sum_weighted weights rest totalScore
      end
  end.

(** The minimum supplier price among the active mappings, starting from
    the price of the supplier's own mapping. *)
Fixpoint min_price (mappings : list ProductMapping.t) (minPrice : F64.t)
    : F64.t :=
  match mappings with
  | [] => minPrice
  | m :: rest =>
      if F64.ltb (ProductMapping.SupplierPrice m) minPrice
         && ProductMapping.IsActive m
      then min_price rest (ProductMapping.SupplierPrice m)
      else min_price rest minPrice
  end.

(** calculateSupplierScore; [draws] fixes the order in which the range
    over the breakdown map visits the factors. *)
Definition calculateSupplierScore (draws : list nat)
    (supplier : Supplier.t) (mappings : list ProductMapping.t)
    (criteria : RoutingCriteria) : SupplierScore :=
  match find (fun m => String.eqb (ProductMapping.SupplierID m)
                                  (Supplier.ID supplier)) mappings with
  | None =>
      Build_SupplierScore supplier F64.zero F64.zero "No mapping found" []
  | Some mapping =>
      let priorityScore :=
        F64.div (F64.of_int 1) (F64.of_int (Supplier.Priority supplier)) in
      let breakdown := gomap.set "priority" priorityScore [] in
      let successRateScore :=
        F64.div (Supplier.SuccessRate supplier) (F64.of_int 100) in
      let breakdown := gomap.set "success_rate" successRateScore breakdown in
      let responseTimeScore :=
        if 0 <? Supplier.AvgResponseTimeMs supplier
        then F64.div (F64.of_int 10000)
                     (F64.of_int (Supplier.AvgResponseTimeMs supplier))
        else F64.of_int 1 in
      let breakdown := gomap.set "response_time" responseTimeScore breakdown in
      let priceScore :=
        if PreferCheapest criteria
           && F64.gtb (ProductMapping.SupplierPrice mapping) F64.zero
        then F64.div (min_price mappings (ProductMapping.SupplierPrice mapping))
                     (ProductMapping.SupplierPrice mapping)
        else F64.of_int 1 in
      let breakdown := gomap.set "price" priceScore breakdown in
      let stockScore :=
        match ProductMapping.StockStatus mapping with
        | StockStatusOutOfStock => F64.zero
        | StockStatusUnknown => F64.lit 5 10
        | StockStatusAvailable => F64.of_int 1
        end in
      let breakdown := gomap.set "stock" stockScore breakdown in
      let recentPerformanceScore := calculateRecentPerformanceScore mapping in
      let breakdown :=
        gomap.set "recent_performance" recentPerformanceScore breakdown in
      let weights := weights_of criteria in
      let totalScore :=
        sum_weighted weights (gomap.range draws breakdown) F64.zero in
      let confidence := calculateConfidence breakdown supplier mapping in
      Build_SupplierScore supplier totalScore confidence
        (generateReason breakdown criteria) breakdown
  end.

(** The criteria applied when the caller passes nil. *)
Definition default_criteria : RoutingCriteria :=
  Build_RoutingCriteria false true false true 5 (F64.of_int 50).

(** The suppliers of the mappings that can be read and are healthy. *)
Fixpoint healthy_suppliers (mappings : list ProductMapping.t)
    : M (list Supplier.t) :=
  match mappings with
  | [] => ret []
  | mapping :: rest =>
      r <- supplierRepository.GetByID (ProductMapping.SupplierID mapping) ;;
      match r with
      | Err _ => healthy_suppliers rest
      | Ok supplier =>
          if negb (Supplier.IsHealthy supplier) then healthy_suppliers rest
          else
            suppliers <- healthy_suppliers rest ;;
            ret (supplier :: suppliers)
      end
  end.

Section WithOracle.
Variable o : Oracle.

Fixpoint score_all (suppliers : list Supplier.t)
    (mappings : list ProductMapping.t) (criteria : RoutingCriteria)
    : M (list SupplierScore) :=
  match suppliers with
  | [] => ret []
  | supplier :: rest =>
      draws <- draw (map_order o) ;;
      let score := calculateSupplierScore draws supplier mappings criteria in
      scores <- score_all rest mappings criteria ;;
      ret (score :: scores)
  end.

(** The comparison handed to sort.Slice. *)
Definition less (a b : SupplierScore) : bool :=
  F64.gtb (TotalScore a) (TotalScore b).

(** GetBestSupplier *)
Definition GetBestSupplier (productID : string)
    (criteria : option RoutingCriteria) : M (result RoutingResult) :=
  r <- productMappingRepository.GetActiveMappings productID ;;
  match r with
  | Err e => ret (Err ("failed to get product mappings: " ++ e))
  | Ok mappings =>
      if (List.length mappings =? 0)%nat
      then ret (Err "no active mappings found for product")
      else
        suppliers <- healthy_suppliers mappings ;;
        if (List.length suppliers =? 0)%nat
        then ret (Err "no healthy suppliers available")
        else
          let criteria :=
            match criteria with
            | Some c => c
            | None => default_criteria
            end in
          scores <- score_all suppliers mappings criteria ;;
          let scores := sort.Slice less scores in
          match scores with
          | [] => ret (Err "no healthy suppliers available")
          | bestScore :: others =>
              let bestSupplier := Supplier bestScore in
              let bestMapping :=
                find (fun m => String.eqb (ProductMapping.SupplierID m)
                                          (Supplier.ID bestSupplier))
                     mappings in
              let alternatives :=
                map Supplier
                  (firstn (Z.to_nat (GoInt.sub (MaxSuppliers criteria) 1 - 1))
                          others) in
              ret (Ok (Build_RoutingResult bestSupplier bestMapping
                         (Confidence bestScore) (Reason bestScore)
                         alternatives))
          end
  end.

(** UpdateSupplierMetrics *)
Definition UpdateSupplierMetrics (supplierID : string) (success : bool)
    (responseTimeMs : Z) : M (result unit) :=
  supplierRepository.UpdateMetrics supplierID success responseTimeMs.

End WithOracle.

End smart_routing.

(* ================================================================== *)
(** ** internal/usecase: the retry controller *)

Module retry.
Import domain postgres.

Record RetryConfig : Type := Build_RetryConfig {
  MaxAttempts : Z;
  InitialDelay : Z;
  MaxDelay : Z;
  BackoffMultiplier : F64.t;
  TimeoutPerAttempt : Z;
  EnableJitter : bool
}.

(** DefaultRetryConfig *)
Definition DefaultRetryConfig : RetryConfig :=
  Build_RetryConfig 3 (2 * Second) (30 * Second) (F64.of_int 2)
    (30 * Second) true.

Module RetryAttempt.
Record t : Type := Build {
  AttemptNumber : Z;
  SupplierID : string;
  SupplierCode : string;
  StartTime : Z;
  EndTime : Z;
  Duration : Z;
  Success : bool;
  Error : option string;
  ResponseTimeMs : Z;
  Reason : string
}.
End RetryAttempt.

Module RetryResult.
Record t : Type := Build {
  Success : bool;
  AttemptsMade : Z;
  TotalDuration : Z;
  FinalSupplierID : string;
  FinalError : option string;
  AttemptHistory : list RetryAttempt.t;
  RefundIssued : bool;
  RefundAmount : F64.t
}.
End RetryResult.

(** [%d] *)
Definition itoa (z : Z) : string := NilZero.string_of_int (Z.to_int z).

(** [d.Milliseconds()] *)
Definition Milliseconds (d : Z) : Z := Z.quot d Millisecond.

(** canRetryTransaction *)
Definition canRetryTransaction (transaction : Transaction.t)
    (config : RetryConfig) : M bool :=
  if negb (status_eqb (Transaction.Status transaction) StatusFailed)
     && negb (status_eqb (Transaction.Status transaction) StatusTimeout)
  then ret false
  else if MaxAttempts config <=? Transaction.RoutingAttempts transaction
  then ret false
  else
    let maxAge := 24 * Hour in
    now <- time_Now ;;
    if maxAge <? GoInt.sub now (Transaction.CreatedAt transaction)
    then ret false
    else ret true.

(** calculateRetryDelay *)
Definition calculateRetryDelay (o : Oracle) (attempt : Z)
    (config : RetryConfig) : M Z :=
  let multiplier := GoInt.shl1 (GoInt.sub attempt 1) in
  let delay :=
    F64.to_int
      (F64.mul (F64.mul (F64.of_int (InitialDelay config))
                        (F64.of_int multiplier))
               (BackoffMultiplier config)) in
  let delay := if MaxDelay config <? delay then MaxDelay config else delay in
  if EnableJitter config
  then
    n <- draw (rand_draw o) ;;
    let jitter :=
      F64.to_int
        (F64.mul (F64.mul (F64.of_int delay) (F64.lit 1 10))
                 (F64.div (F64.of_int (utils.random_byte n))
                          (F64.of_int 255))) in
    ret (GoInt.add delay jitter)
  else ret delay.

(** simulateSupplierCall: success, response time in ms, error *)
Definition simulateSupplierCall (o : Oracle) (supplier : Supplier.t)
    (transaction : Transaction.t) (timeout : Z)
    : M (bool * Z * option string) :=
  let delay := GoInt.mul (Supplier.AvgResponseTimeMs supplier) Millisecond in
  let delay := if delay =? 0 then 2 * Second else delay in
  n <- draw (rand_draw o) ;;
  let delay :=
    GoInt.add delay
      (GoInt.mul (GoInt.mul (utils.random_byte n) 100) Millisecond) in
  if timeout <? delay
  then ret (false, Milliseconds timeout, Some "timeout")
  else
    time_Sleep delay ;;;
    let successChance :=
      F64.div (Supplier.SuccessRate supplier) (F64.of_int 100) in
    n' <- draw (rand_draw o) ;;
    let random :=
      F64.div (F64.of_int (utils.random_byte n')) (F64.of_int 255) in
    if F64.ltb random successChance
    then ret (true, Milliseconds delay, None)
    else ret (false, Milliseconds delay, Some "supplier error").

Section WithOracle.
Variable o : Oracle.

(** getFailoverSuppliers *)
Definition getFailoverSuppliers (productID : string) (maxCount : Z)
    : M (result (list Supplier.t)) :=
  r <- smart_routing.GetBestSupplier o productID
         (Some (smart_routing.Build_RoutingCriteria
                  false false false true maxCount (F64.of_int 50))) ;;
  match r with
  | Err e => ret (Err e)
  | Ok result =>
      ret (Ok (smart_routing.SelectedSupplier result
               :: smart_routing.Alternatives result))
  end.

(** executeRetryAttempt: the attempt and the transaction as the call
    leaves it *)
Definition executeRetryAttempt (transaction : Transaction.t)
    (supplier : Supplier.t) (attemptNumber : Z) (config : RetryConfig)
    : M (RetryAttempt.t * Transaction.t) :=
  startTime <- time_Now ;;
  let reason := ("Retry attempt " ++ itoa attemptNumber)%string in
  logger (LogExecutingRetryAttempt (Supplier.Code supplier) attemptNumber) ;;;
  let transaction :=
    Transaction.set_SupplierID (Some (Supplier.ID supplier)) transaction in
  let transaction := Transaction.set_Status StatusProcessing transaction in
  now <- time_Now ;;
  let transaction := Transaction.set_ProcessedAt (Some now) transaction in
  err <- transactionRepository.Update transaction ;;
  match err with
  | Err e =>
      endTime <- time_Now ;;
      ret (RetryAttempt.Build attemptNumber (Supplier.ID supplier)
             (Supplier.Code supplier) startTime endTime
             (GoInt.sub endTime startTime) false
             (Some ("failed to update transaction: " ++ e)%string) 0 reason,
           transaction)
  | Ok _ =>
      call <- simulateSupplierCall o supplier transaction
                (TimeoutPerAttempt config) ;;
      let '(success, responseTimeMs, err) := call in
      endTime <- time_Now ;;
      let attempt :=
        RetryAttempt.Build attemptNumber (Supplier.ID supplier)
          (Supplier.Code supplier) startTime endTime
          (GoInt.sub endTime startTime) success err responseTimeMs reason in
      if success
      then
        serialNumber <- draw (uuid_draw o) ;;
        let transaction := Transaction.set_Status StatusSuccess transaction in
        let transaction :=
          Transaction.set_SerialNumber (Some serialNumber) transaction in
        let transaction :=
          Transaction.set_SupplierMessage
            (Some "Transaction successful via retry") transaction in
        let transaction :=
          Transaction.set_FinalSupplierID (Some (Supplier.ID supplier))
            transaction in
        completedAt <- time_Now ;;
        let transaction :=
          Transaction.set_CompletedAt (Some completedAt) transaction in
        transactionRepository.Update transaction ;;;
        smart_routing.UpdateSupplierMetrics (Supplier.ID supplier) true
          responseTimeMs ;;;
        ret (attempt, transaction)
      else
        let msg :=
          ("Retry attempt " ++ itoa attemptNumber ++ " failed: "
           ++ match err with Some e => e | None => "<nil>" end)%string in
        let transaction := Transaction.set_Status StatusFailed transaction in
        let transaction :=
          Transaction.set_SupplierMessage (Some msg) transaction in
        completedAt <- time_Now ;;
        let transaction :=
          Transaction.set_CompletedAt (Some completedAt) transaction in
        transactionRepository.Update transaction ;;;
        ret (attempt, transaction)
  end.

(** issueRefund: the status becomes REFUND; the balance refund itself is
    a TODO of the source ("This should create a mutation and update user
    balance") and nothing stands for it. *)
Definition issueRefund (transaction : Transaction.t)
    : M (result unit * Transaction.t) :=
  let transaction := Transaction.set_Status StatusRefund transaction in
  let transaction :=
    Transaction.set_SupplierMessage
      (Some "Auto refund after retry failure") transaction in
  now <- time_Now ;;
  let transaction := Transaction.set_CompletedAt (Some now) transaction in
  err <- transactionRepository.Update transaction ;;
  match err with
  | Err e =>
      ret (Err ("failed to update transaction for refund: " ++ e)%string,
           transaction)
  | Ok _ => ret (Ok tt, transaction)
  end.

(** How the attempt loop of RetryTransaction ends: by the return of the
    successful attempt, or by falling out of the loop. *)
Inductive loop_exit : Type :=
| Returned (result : RetryResult.t)
| Exhausted (transaction : Transaction.t) (result : RetryResult.t).

(** [for attempt := 1; attempt <= config.MaxAttempts; attempt++]: the
    loop from [attempt] on, [remaining] being [suppliers[attempt-1:]]
    (empty when [attempt > len(suppliers)]). *)
Fixpoint attempt_loop (config : RetryConfig) (startTime : Z)
    (remaining : list Supplier.t) (attempt : Z)
    (transaction : Transaction.t) (result : RetryResult.t)
    : M loop_exit :=
  if attempt <=? MaxAttempts config
  then
    match remaining with
    | [] => ret (Exhausted transaction result)
    | supplier :: remaining' =>
        r <- executeRetryAttempt transaction supplier attempt config ;;
        let '(attemptResult, transaction) := r in
        let result :=
          RetryResult.Build (RetryResult.Success result) attempt
            (RetryResult.TotalDuration result)
            (RetryResult.FinalSupplierID result)
            (RetryResult.FinalError result)
            (RetryResult.AttemptHistory result ++ [attemptResult])
            (RetryResult.RefundIssued result)
            (RetryResult.RefundAmount result) in
        let transaction :=
          Transaction.set_RoutingAttempts attempt transaction in
        transactionRepository.Update transaction ;;;
        if RetryAttempt.Success attemptResult
        then
          now <- time_Now ;;
          ret (Returned
                 (RetryResult.Build true (RetryResult.AttemptsMade result)
                    (GoInt.sub now startTime) (Supplier.ID supplier)
                    (RetryResult.FinalError result)
                    (RetryResult.AttemptHistory result)
                    (RetryResult.RefundIssued result)
                    (RetryResult.RefundAmount result)))
        else
          smart_routing.UpdateSupplierMetrics (Supplier.ID supplier) false
            (Milliseconds (RetryAttempt.Duration attemptResult)) ;;;
          (if attempt <? MaxAttempts config
           then
             delay <- calculateRetryDelay o attempt config ;;
             logger (LogWaitingBeforeRetry attempt delay) ;;;
             time_Sleep delay
           else ret tt) ;;;
          attempt_loop config startTime remaining' (GoInt.add attempt 1)
            transaction result
    end
  else ret (Exhausted transaction result).

(** RetryTransaction *)
Definition RetryTransaction (transactionID : string)
    (config : option RetryConfig) : M (result RetryResult.t) :=
  let config :=
    match config with
    | Some c => c
    | None => DefaultRetryConfig
    end in
  r <- transactionRepository.GetByID transactionID ;;
  match r with
  | Err e => ret (Err ("transaction not found: " ++ e)%string)
  | Ok transaction =>
      can <- canRetryTransaction transaction config ;;
      if negb can
      then
        ret (Ok (RetryResult.Build false
                   (Transaction.RoutingAttempts transaction) 0 ""
                   (Some "transaction cannot be retried") []
                   (status_eqb (Transaction.Status transaction) StatusRefund)
                   F64.zero))
      else
        startTime <- time_Now ;;
        let result :=
          RetryResult.Build false 0 0 "" None [] false
            (Transaction.SellingPrice transaction) in
        s <- getFailoverSuppliers (Transaction.ProductID transaction)
               (MaxAttempts config) ;;
        match s with
        | Err e =>
            ret (Ok (RetryResult.Build false 0 0 ""
                       (Some ("failed to get suppliers: " ++ e)%string) []
                       false (Transaction.SellingPrice transaction)))
        | Ok suppliers =>
            if (List.length suppliers =? 0)%nat
            then
              ret (Ok (RetryResult.Build false 0 0 ""
                         (Some "no suppliers available for retry") []
                         false (Transaction.SellingPrice transaction)))
            else
              exit <- attempt_loop config startTime suppliers 1
                        transaction result ;;
              match exit with
              | Returned result => ret (Ok result)
              | Exhausted transaction result =>
                  now <- time_Now ;;
                  r <- issueRefund transaction ;;
                  let '(refundErr, _) := r in
                  ret (Ok (RetryResult.Build (RetryResult.Success result)
                             (RetryResult.AttemptsMade result)
                             (GoInt.sub now startTime)
                             (RetryResult.FinalSupplierID result)
                             (Some "all retry attempts failed")
                             (RetryResult.AttemptHistory result)
                             (is_ok refundErr)
                             (RetryResult.RefundAmount result)))
              end
        end
  end.

(** ProcessFailedTransactions: the loop over the failed transactions *)
Fixpoint retry_each (config : RetryConfig)
    (failedTransactions : list Transaction.t)
    : M (list RetryResult.t) :=
  match failedTransactions with
  | [] => ret []
  | transaction :: rest =>
      can <- canRetryTransaction transaction config ;;
      if can
      then
        r <- RetryTransaction (Transaction.ID transaction) (Some config) ;;
        results <- retry_each config rest ;;
        match r with
        | Err _ => ret results
        | Ok result => ret (result :: results)
        end
      else retry_each config rest
  end.

Definition ProcessFailedTransactions (config : RetryConfig)
    : M (result (list RetryResult.t)) :=
  r <- transactionRepository.GetByStatus StatusFailed ;;
  match r with
  | Err e => ret (Err ("failed to get failed transactions: " ++ e)%string)
  | Ok failedTransactions =>
      results <- retry_each config failedTransactions ;;
      ret (Ok results)
  end.

End WithOracle.

End retry.

(* ================================================================== *)
(** ** internal/usecase: the transaction use case *)

Module transaction_uc.
Import domain postgres.

Section WithWiring.
Variable o : Oracle.
Variable uc : Wiring.

(** CreateTransaction *)
Definition CreateTransaction (userID productCode destinationNumber : string)
    : M (result Transaction.t) :=
  if String.eqb userID "" || String.eqb productCode ""
     || String.eqb destinationNumber ""
  then ret (Err "missing required fields")
  else if negb (utils.ValidatePhoneNumber destinationNumber)
  then ret (Err "invalid phone number format")
  else
    r <- userRepository.GetByID userID ;;
    match r with
    | Err e => ret (Err ("user not found: " ++ e)%string)
    | Ok user =>
        if negb (User.IsActive user)
        then ret (Err "user account is not active")
        else
          r <- productRepository.GetByCode productCode ;;
          match r with
          | Err e => ret (Err ("product not found: " ++ e)%string)
          | Ok product =>
              if negb (Product.IsActive product)
              then ret (Err "product is not available")
              else
                let basePrice := Product.BasePrice product in
                let sellingPrice := User.GetEffectivePrice user basePrice in
                if F64.ltb sellingPrice (Product.MinPrice product)
                   || F64.gtb sellingPrice
                        (Product.MaxTransactionAmount product)
                then ret (Err "price out of allowed range")
                else if negb (User.HasSufficientBalance user sellingPrice)
                then ret (Err "insufficient balance")
                else
                  id <- draw (uuid_draw o) ;;
                  trxCode <- draw (trx_code_draw o) ;;
                  now <- time_Now ;;
                  let transaction :=
                    Transaction.Build id trxCode userID (Product.ID product)
                      None (utils.ParsePhoneNumber destinationNumber)
                      productCode basePrice sellingPrice F64.zero F64.zero
                      StatusPending None None None 0 None now now None None
                      None in
                  err <- transactionRepository.Create transaction ;;
                  match err with
                  | Err e =>
                      ret (Err ("failed to create transaction: " ++ e)%string)
                  | Ok _ =>
                      (if queueRepo uc
                       then
                         redis.EnqueueTransaction (Transaction.ID transaction) ;;;
                         ret tt
                       else ret tt) ;;;
                      ret (Ok transaction)
                  end
          end
    end.

(** createBalanceMutation *)
Definition createBalanceMutation (userID : string)
    (mutationType : mutation_type) (amount balanceBefore balanceAfter : F64.t)
    (description : string) (referenceType referenceID : option string)
    : M (result unit) :=
  if negb (mutationRepo uc)
  then ret (Err "mutation repository is not configured")
  else
    id <- draw (uuid_draw o) ;;
    now <- time_Now ;;
    let mutation :=
      Mutation.Build id userID mutationType amount balanceBefore
        balanceAfter referenceType referenceID description None None now in
    err <- mutationRepository.Create mutation ;;
    match err with
    | Err e => ret (Err ("failed to create mutation: " ++ e)%string)
    | Ok _ => ret (Ok tt)
    end.

(** refundTransaction *)
Definition refundTransaction (transaction : Transaction.t)
    : M (result unit) :=
  r <- userRepository.GetByID (Transaction.UserID transaction) ;;
  match r with
  | Err e => ret (Err ("failed to get user for refund: " ++ e)%string)
  | Ok user =>
      err <- createBalanceMutation (User.ID user) MutationTypeDebit
               (Transaction.SellingPrice transaction) (User.Balance user)
               (F64.add (User.Balance user)
                        (Transaction.SellingPrice transaction))
               ("Refund transaksi gagal " ++ Transaction.TrxCode transaction)
               (Some ReferenceTypeTransaction)
               (Some (Transaction.ID transaction)) ;;
      match err with
      | Err e => ret (Err ("failed to create refund mutation: " ++ e)%string)
      | Ok _ =>
          let newBalance :=
            F64.add (User.Balance user)
                    (Transaction.SellingPrice transaction) in
          userRepository.UpdateBalance (User.ID user) newBalance ;;;
          let transaction :=
            Transaction.set_Status StatusRefund transaction in
          let transaction :=
            Transaction.set_SupplierMessage
              (Some "Transaction refunded due to failure") transaction in
          now <- time_Now ;;
          let transaction :=
            Transaction.set_CompletedAt (Some now) transaction in
          transactionRepository.Update transaction ;;;
          ret (Ok tt)
      end
  end.

(** handleSupplierFailure *)
Definition handleSupplierFailure (transaction : Transaction.t)
    (reason : string) : M (result unit) :=
  let transaction := Transaction.set_Status StatusFailed transaction in
  let transaction :=
    Transaction.set_SupplierMessage (Some reason) transaction in
  now <- time_Now ;;
  let transaction := Transaction.set_CompletedAt (Some now) transaction in
  transactionRepository.Update transaction ;;;
  settled <-
    (if retryUC uc
     then
       r <- retry.RetryTransaction o (Transaction.ID transaction) None ;;
       match r with
       | Ok result =>
           ret (retry.RetryResult.Success result
                || retry.RetryResult.RefundIssued result)
       | Err _ => ret false
       end
     else ret false) ;;
  if settled then ret (Ok tt)
  else
    err <- refundTransaction transaction ;;
    match err with
    | Err e =>
        ret (Err ("failed to refund transaction after supplier failure: "
                  ++ e)%string)
    | Ok _ => ret (Err ("supplier failure: " ++ reason)%string)
    end.

(** selectSupplier *)
Definition selectSupplier (transaction : Transaction.t)
    : M (result (Supplier.t * ProductMapping.t)) :=
  if negb (smartRoutingUC uc)
  then ret (Err "smart routing is not configured")
  else
    r <- smart_routing.GetBestSupplier o
           (Transaction.ProductID transaction) None ;;
    match r with
    | Err e => ret (Err e)
    | Ok result =>
        match smart_routing.SelectedMapping result with
        | None =>
            ret (Err ("no supplier available for product "
                      ++ Transaction.ProductID transaction)%string)
        | Some mapping =>
            ret (Ok (smart_routing.SelectedSupplier result, mapping))
        end
    end.

(** executeSupplierTransaction *)
Definition executeSupplierTransaction (transaction : Transaction.t)
    (supplier : Supplier.t) (mapping : ProductMapping.t)
    : M (result unit) :=
  match adapterFactory uc with
  | None =>
      handleSupplierFailure transaction
        "supplier adapter factory not configured"
  | Some GetAdapter =>
      match GetAdapter (Supplier.Code supplier) with
      | None =>
          handleSupplierFailure transaction
            ("adapter for " ++ Supplier.Code supplier ++ " not found")%string
      | Some adapter =>
          let request :=
            Build_SupplierRequest
              (ProductMapping.SupplierProductCode mapping)
              (Transaction.DestinationNumber transaction)
              (Transaction.TrxCode transaction) in
          let '(answer, duration) := adapter request in
          time_Sleep duration ;;;
          let success :=
            match answer with
            | TopUpReply response => Success response
            | TopUpError _ _ => false
            end in
          let responseTime := retry.Milliseconds (Z.max 0 duration) in
          let responseTime :=
            match answer with
            | TopUpReply response
            | TopUpError _ (Some response) =>
                if 0 <? ResponseTime response then ResponseTime response
                else responseTime
            | TopUpError _ None => responseTime
            end in
          (if smartRoutingUC uc
           then
             smart_routing.UpdateSupplierMetrics (Supplier.ID supplier)
               success responseTime ;;;
             ret tt
           else ret tt) ;;;
          match answer with
          | TopUpError err _ =>
              handleSupplierFailure transaction
                ("supplier error: " ++ err)%string
          | TopUpReply response =>
              if negb (Success response)
              then
                let msg :=
                  if String.eqb (Message response) ""
                  then "supplier returned failure"
                  else Message response in
                handleSupplierFailure transaction msg
              else
                let serial :=
                  if String.eqb (SerialNumber response) ""
                  then TrxID response else SerialNumber response in
                let transaction :=
                  if negb (String.eqb serial "")
                  then Transaction.set_SerialNumber (Some serial) transaction
                  else transaction in
                let transaction :=
                  if negb (String.eqb (Message response) "")
                  then Transaction.set_SupplierMessage
                         (Some (Message response)) transaction
                  else transaction in
                let transaction :=
                  if negb (String.eqb (TrxID response) "")
                  then Transaction.set_SupplierTrxID
                         (Some (TrxID response)) transaction
                  else transaction in
                let transaction :=
                  Transaction.set_Status StatusSuccess transaction in
                let transaction :=
                  Transaction.set_FinalSupplierID
                    (Some (Supplier.ID supplier)) transaction in
                now <- time_Now ;;
                let transaction :=
                  Transaction.set_CompletedAt (Some now) transaction in
                err <- transactionRepository.Update transaction ;;
                match err with
                | Err e =>
                    ret (Err ("failed to update successful transaction: "
                              ++ e)%string)
                | Ok _ => ret (Ok tt)
                end
          end
      end
  end.

(** ProcessTransaction *)
Definition ProcessTransaction (transactionID : string) : M (result unit) :=
  r <- transactionRepository.GetByID transactionID ;;
  match r with
  | Err e => ret (Err ("transaction not found: " ++ e)%string)
  | Ok transaction =>
      if negb (status_eqb (Transaction.Status transaction) StatusPending)
      then ret (Err "transaction is not in pending status")
      else
        now <- time_Now ;;
        let transaction :=
          Transaction.set_ProcessedAt (Some now) transaction in
        err <- transactionRepository.UpdateStatus transactionID
                 StatusProcessing ;;
        match err with
        | Err e =>
            ret (Err ("failed to update processing status: " ++ e)%string)
        | Ok _ =>
            r <- userRepository.GetByID (Transaction.UserID transaction) ;;
            match r with
            | Err e => ret (Err ("failed to get user: " ++ e)%string)
            | Ok user =>
                if negb (User.HasSufficientBalance user
                           (Transaction.SellingPrice transaction))
                then
                  let transaction :=
                    Transaction.set_Status StatusFailed transaction in
                  let transaction :=
                    Transaction.set_SupplierMessage
                      (Some "Insufficient balance") transaction in
                  transactionRepository.Update transaction ;;;
                  ret (Err "insufficient balance")
                else
                  sel <- selectSupplier transaction ;;
                  match sel with
                  | Err e =>
                      handleSupplierFailure transaction
                        ("routing error: " ++ e)%string
                  | Ok (selectedSupplier, selectedMapping) =>
                      let transaction :=
                        Transaction.set_SupplierID
                          (Some (Supplier.ID selectedSupplier)) transaction in
                      err <- createBalanceMutation (User.ID user)
                               MutationTypeCredit
                               (Transaction.SellingPrice transaction)
                               (User.Balance user)
                               (F64.sub (User.Balance user)
                                  (Transaction.SellingPrice transaction))
                               ("Pembelian "
                                ++ Transaction.ProductCode transaction
                                ++ " "
                                ++ Transaction.DestinationNumber transaction)
                               (Some ReferenceTypeTransaction)
                               (Some (Transaction.ID transaction)) ;;
                      match err with
                      | Err e =>
                          ret (Err ("failed to create balance mutation: "
                                    ++ e)%string)
                      | Ok _ =>
                          let newBalance :=
                            F64.sub (User.Balance user)
                              (Transaction.SellingPrice transaction) in
                          userRepository.UpdateBalance (User.ID user)
                            newBalance ;;;
                          executeSupplierTransaction transaction
                            selectedSupplier selectedMapping
                      end
                  end
            end
        end
  end.

(** ProcessPendingTransactions *)
Fixpoint process_each (pendingTransactions : list Transaction.t)
    : M unit :=
  match pendingTransactions with
  | [] => ret tt
  | transaction :: rest =>
      ProcessTransaction (Transaction.ID transaction) ;;;
      process_each rest
  end.

Definition ProcessPendingTransactions : M (result unit) :=
  r <- transactionRepository.GetPendingTransactions ;;
  match r with
  | Err e => ret (Err ("failed to get pending transactions: " ++ e)%string)
  | Ok pendingTransactions =>
      process_each pendingTransactions ;;;
      ret (Ok tt)
  end.

(** RetryFailedTransaction *)
Definition RetryFailedTransaction (transactionID : string)
    : M (result unit) :=
  r <- transactionRepository.GetByID transactionID ;;
  match r with
  | Err e => ret (Err ("transaction not found: " ++ e)%string)
  | Ok transaction =>
      if negb (Transaction.CanRetry transaction)
      then ret (Err "transaction cannot be retried")
      else
        let transaction :=
          Transaction.set_RoutingAttempts
            (GoInt.add (Transaction.RoutingAttempts transaction) 1)
            transaction in
        err <- transactionRepository.Update transaction ;;
        match err with
        | Err e =>
            ret (Err ("failed to increment routing attempts: " ++ e)%string)
        | Ok _ =>
            err <- transactionRepository.UpdateStatus transactionID
                     StatusPending ;;
            match err with
            | Err e =>
                ret (Err ("failed to reset transaction status: " ++ e)%string)
            | Ok _ => ProcessTransaction transactionID
            end
        end
  end.

(** CancelTransaction *)
Definition CancelTransaction (transactionID : string) : M (result unit) :=
  r <- transactionRepository.GetByID transactionID ;;
  match r with
  | Err e => ret (Err ("transaction not found: " ++ e)%string)
  | Ok transaction =>
      if negb (status_eqb (Transaction.Status transaction) StatusPending)
      then ret (Err "cannot cancel transaction in this status")
      else
        let transaction :=
          Transaction.set_Status StatusFailed transaction in
        let transaction :=
          Transaction.set_SupplierMessage
            (Some "Transaction cancelled by user") transaction in
        err <- transactionRepository.Update transaction ;;
        match err with
        | Err e => ret (Err ("failed to cancel transaction: " ++ e)%string)
        | Ok _ =>
            (if status_eqb (Transaction.Status transaction) StatusProcessing
             then refundTransaction transaction ;;; ret tt
             else ret tt) ;;;
            ret (Ok tt)
        end
  end.

(** RefundTransaction *)
Definition RefundTransaction (transactionID : string) : M (result unit) :=
  r <- transactionRepository.GetByID transactionID ;;
  match r with
  | Err e => ret (Err ("transaction not found: " ++ e)%string)
  | Ok transaction => refundTransaction transaction
  end.

End WithWiring.

End transaction_uc.

(* ================================================================== *)
(** ** The operations of the system and what the claims observe *)

Module system.
Import domain postgres.

(** The entry points of the transaction use case and of the retry
    controller. *)
Inductive operation : Type :=
| CreateTransaction (userID productCode destinationNumber : string)
| ProcessTransaction (transactionID : string)
| RetryFailedTransaction (transactionID : string)
| CancelTransaction (transactionID : string)
| RefundTransaction (transactionID : string)
| RetryTransaction (transactionID : string)
    (config : option retry.RetryConfig).

Definition run (o : Oracle) (uc : Wiring) (op : operation) (w : World)
    : World :=
  match op with
  | CreateTransaction userID productCode destinationNumber =>
      snd (transaction_uc.CreateTransaction o uc userID productCode
             destinationNumber w)
  | ProcessTransaction id => snd (transaction_uc.ProcessTransaction o uc id w)
  | RetryFailedTransaction id =>
      snd (transaction_uc.RetryFailedTransaction o uc id w)
  | CancelTransaction id => snd (transaction_uc.CancelTransaction o uc id w)
  | RefundTransaction id => snd (transaction_uc.RefundTransaction o uc id w)
  | RetryTransaction id config => snd (retry.RetryTransaction o id config w)
  end.

Definition run_all (o : Oracle) (uc : Wiring) (ops : list operation)
    (w : World) : World :=
  fold_left (fun w op => run o uc op w) ops w.

(** The row of a transaction, its status and its attempt counter. *)
Definition row_of (w : World) (id : string) : option Transaction.t :=
  find (transactionRepository.has_id id) (transactions w).

Definition status_of (w : World) (id : string) : option status :=
  option_map Transaction.Status (row_of w id).

Definition routing_attempts_of (w : World) (id : string) : option Z :=
  option_map Transaction.RoutingAttempts (row_of w id).

(** The mutations of a kind that reference a transaction. *)
Definition mutations_of (w : World) (kind : mutation_type) (id : string)
    : list Mutation.t :=
  filter (fun m => mutation_type_eqb (Mutation.Type_ m) kind
                   && match Mutation.ReferenceID m with
                      | Some r => String.eqb r id
                      | None => false
                      end)
         (mutations w).

(** The operations that, for a transaction [id] in status [s], are not
    RefundTransaction on [id] and not RetryTransaction on [id] while [s] is
    TIMEOUT. *)
Definition spares (id : string) (s : status) (op : operation) : bool :=
  match op with
  | RefundTransaction id' => negb (String.eqb id' id)
  | RetryTransaction id' _ =>
      negb (String.eqb id' id) || negb (status_eqb s StatusTimeout)
  | _ => true
  end.

Definition terminal (s : status) : bool :=
  status_eqb s StatusSuccess || status_eqb s StatusRefund
  || status_eqb s StatusTimeout.


(** The suppliers of the lines "Executing retry attempt", in order. *)
Fixpoint attempted (l : list LogLine) : list string :=
  match l with
  | [] => []
  | LogExecutingRetryAttempt code _ :: r => code :: attempted r
  | _ :: r => attempted r
  end.



(** Modelled from the claim's words: the spending power of a user,
    balance plus credit limit when debt is allowed, balance alone
    otherwise. *)
Definition spending_power (u : User.t) : F64.t :=
  if User.AllowDebt u then F64.add (User.Balance u) (User.CreditLimit u)
  else User.Balance u.

(** The checks of CreateTransaction that come before the balance check. *)
Definition passes_validation (userID productCode destinationNumber : string)
    (user : User.t) (product : Product.t) : bool :=
  negb (String.eqb userID "") && negb (String.eqb productCode "")
  && negb (String.eqb destinationNumber "")
  && utils.ValidatePhoneNumber destinationNumber
  && User.IsActive user && Product.IsActive product
  && negb (F64.ltb (User.GetEffectivePrice user (Product.BasePrice product))
                   (Product.MinPrice product))
  && negb (F64.gtb (User.GetEffectivePrice user (Product.BasePrice product))
                   (Product.MaxTransactionAmount product)).

End system.

(* ================================================================== *)
(** ** Predicates on strings used by the statements *)

Module text.

(** Every character of the string is an ASCII digit. *)
Fixpoint digits_only (s : string) : bool :=
  match s with
  | EmptyString => true
  | String c r => utils.is_digit c && digits_only r
  end.

End text.

(* ================================================================== *)
(** ** Order of the elements of a list *)

Module order.

(** [before x y l]: an occurrence of [x] comes before one of [y] in [l]. *)
Inductive before {A : Type} (x y : A) : list A -> Prop :=
| before_here (l : list A) : In y l -> before x y (x :: l)
| before_skip (a : A) (l : list A) : before x y l -> before x y (a :: l).


(** The sorted prefix of the insertion sort, nearest neighbour first: no
    element is less than the one on its left. *)
Inductive settled {A : Type} (less : A -> A -> bool) : list A -> Prop :=
| settled_nil : settled less []
| settled_one (a : A) : settled less [a]
| settled_cons (a b : A) (l : list A) :
    less a b = false -> settled less (b :: l) -> settled less (a :: b :: l).

End order.

(* ================================================================== *)
(** ** What a computation leaves untouched *)

Module footprint.

(** A computation, from every world, ends in a world related to the first
    by [R] with a result satisfying [Q]. *)
Definition respects (R : World -> World -> Prop) {A : Type} (m : M A)
    (Q : A -> Prop) : Prop :=
  forall w, R w (snd (m w)) /\ Q (fst (m w)).

(** The row of transaction [id], if there is one, is the same afterwards. *)
Definition keeps_row (id : string) (w w' : World) : Prop :=
  forall t, system.row_of w id = Some t -> system.row_of w' id = Some t.

(** The ledger and the balances are the same afterwards. *)
Definition keeps_ledger (w w' : World) : Prop :=
  mutations w' = mutations w /\ users w' = users w.


End footprint.

(* ================================================================== *)
(** ** Concrete worlds *)

Module scenario.
Import domain.

(** An outside world whose every draw is the first: the random character is
    always "a", maps are visited in insertion order. *)
Definition oracle0 : Oracle :=
  Build_Oracle (fun _ => O)
    (fun n => ("uuid-" ++ retry.itoa (Z.of_nat n))%string)
    (fun n => ("TRX-20240101-" ++ retry.itoa (Z.of_nat n))%string)
    (fun _ => []).

(** A healthy supplier: success rate 99 %, 1000 transactions of which 10
    failed, a balance above its threshold. *)
Definition supplier (id : string) (priority avgResponseTimeMs : Z)
    : Supplier.t :=
  Supplier.Build id id id true priority 30 3 (F64.of_int 1000000) F64.zero
    (F64.of_int 99) avgResponseTimeMs 1000 10 None None.

(** An active mapping of product P1 to a supplier. *)
Definition mapping (supplierID : string) (price priority : Z)
    : ProductMapping.t :=
  ProductMapping.Build ("m-" ++ supplierID) "P1" supplierID
    ("code-" ++ supplierID) (F64.of_int price) F64.zero priority true
    StockStatusAvailable 0 0.

(** An active agent without markup nor credit. *)
Definition user (balance : Z) : User.t :=
  User.Build "U1" "u1" "u1@example.org" LevelAgent true true
    (F64.of_int balance) F64.zero F64.zero false F64.zero.

(** Product T10: base price 10 000, sold between 9 000 and [maxAmount]. *)
Definition product (maxAmount : Z) : Product.t :=
  Product.Build "P1" "T10" "Pulsa 10" (F64.of_int 10000) (F64.of_int 10000)
    (F64.of_int 9000) true F64.zero (F64.of_int maxAmount).

(** A transaction of user U1 for product P1 at 10 000. *)
Definition transaction (id : string) (s : status) (routingAttempts : Z)
    : Transaction.t :=
  Transaction.Build id ("TRX-" ++ id) "U1" "P1" None "628123456789" "T10"
    (F64.of_int 10000) (F64.of_int 10000) F64.zero F64.zero s None None None
    routingAttempts None 0 0 None None None.

(** An adapter that answers every request with a business failure after
    one second. *)
Definition refusing_adapter : SupplierAdapter :=
  fun _ =>
    (TopUpReply (Build_SupplierResponse false "rejected" "" "" 400 0),
     1000 * Millisecond).

(** Everything wired; the registry knows the adapter of supplier S1 only. *)
Definition wiring : Wiring :=
  Build_Wiring true true true true
    (Some (fun code => if String.eqb code "S1" then Some refusing_adapter
                       else None)).

Definition world (u : User.t) (p : Product.t) (ss : list Supplier.t)
    (ms : list ProductMapping.t) (ts : list Transaction.t) : World :=
  Build_World [u] [p] ss ms ts [] [] [] 0 O.

(** Two suppliers whose simulated calls always time out (30 s on average),
    and a pending transaction T1. *)
Definition slow_world : World :=
  world (user 50000) (product 1000000)
    [supplier "S1" 1 30000; supplier "S2" 2 30000]
    [mapping "S1" 9800 1; mapping "S2" 9900 2]
    [transaction "T1" StatusPending 0].

(** One fast supplier, a user without balance, and a pending transaction. *)
Definition broke_world : World :=
  world (user 0) (product 1000000) [supplier "S1" 1 1000]
    [mapping "S1" 9800 1] [transaction "T1" StatusPending 0].

(** One fast supplier and a transaction in TIMEOUT. *)
Definition timeout_world : World :=
  world (user 50000) (product 1000000) [supplier "S1" 1 1000]
    [mapping "S1" 9800 1] [transaction "T1" StatusTimeout 0].




(** Suppliers B and A, alike in everything but their ids; the mapping of B
    comes first. *)
Definition tie_world : World :=
  world (user 50000) (product 1000000)
    [supplier "A" 1 1000; supplier "B" 1 1000]
    [mapping "B" 9800 1; mapping "A" 9800 2] [].

(** An outside world in which the second map is visited in another order
    than the first: priority, success_rate, price, stock,
    recent_performance, response_time. *)
Definition oracle1 : Oracle :=
  Build_Oracle (fun _ => O) (uuid_draw oracle0) (trx_code_draw oracle0)
    (fun n => match n with
              | 1%nat => [0; 0; 1; 1; 1]%nat
              | _ => []
              end).



End scenario.

(* ================================================================== *)
(** * The rest of the packages *)

(** ** Package strings of the Go library, as far as the sources use it *)

Module strings.

(** [strings.ReplaceAll s old new] for a non-empty [old] (every call of the
    sources passes a constant): the non-overlapping occurrences of [old]
    are replaced from the left. [skip] counts the bytes of the current
    occurrence still to pass over. *)
Fixpoint replace_from (skip : nat) (old new s : string) : string :=
  match s with
  | EmptyString => EmptyString
  | String c r =>
      match skip with
      | S k => replace_from k old new r
      | O =>
          if utils.HasPrefix s old
          then (new ++ replace_from (String.length old - 1) old new r)%string
          else String c (replace_from 0 old new r)
      end
  end.

Definition ReplaceAll (s old new : string) : string :=
  replace_from 0 old new s.

(** [strings.Contains s substr] *)
Fixpoint Contains (s substr : string) : bool :=
  utils.HasPrefix s substr
  || match s with
     | EmptyString => false
     | String _ r => Contains r substr
     end.

End strings.

(** ** pkg/utils: strings, passwords, random strings *)

Module utils_go.

(** The double quote and the backslash. *)
Definition dquote : string := String (ascii_of_nat 34) EmptyString.
Definition backslash : string := String (ascii_of_nat 92) EmptyString.

(** SanitizeString *)
Definition SanitizeString (s : string) : string :=
  let s := strings.ReplaceAll s "'" "''" in
  let s := strings.ReplaceAll s dquote (backslash ++ dquote) in
  let s := strings.ReplaceAll s backslash (backslash ++ backslash) in
  let s := strings.ReplaceAll s ";" "" in
  let s := strings.ReplaceAll s "--" "" in
  s.

(** A string without quote, double quote, backslash, semicolon and dash. *)
Definition plain (s : string) : bool :=
  negb (strings.Contains s "'") && negb (strings.Contains s dquote)
  && negb (strings.Contains s backslash) && negb (strings.Contains s ";")
  && negb (strings.Contains s "-").

(** TruncateString: [None] is the panic of the slice expression
    [s[:length]] when [length] is negative. *)
Definition TruncateString (s : string) (length : Z) : option string :=
  if Z.of_nat (String.length s) <=? length then Some s
  else if length <? 0 then None
  else Some (substring 0 (Z.to_nat length) s ++ "...")%string.

(** Contains *)
Fixpoint Contains (slice : list string) (item : string) : bool :=
  match slice with
  | [] => false
  | s :: rest => if String.eqb s item then true else Contains rest item
  end.

(** A [map[string]bool]: the last binding of a key is the one in force,
    an absent key reads [false]. *)
Fixpoint keys_get (keys : list (string * bool)) (k : string) : bool :=
  match keys with
  | [] => false
  | (k', v) :: r => if String.eqb k' k then v else keys_get r k
  end.

(** RemoveDuplicate: the loop over the slice *)
Fixpoint remove_loop (keys : list (string * bool)) (result : list string)
    (slice : list string) : list string :=
  match slice with
  | [] => result
  | item :: rest =>
      if negb (keys_get keys item)
      then remove_loop ((item, true) :: keys) (result ++ [item])%list rest
      else remove_loop keys result rest
  end.

Definition RemoveDuplicate (slice : list string) : list string :=
  remove_loop [] [] slice.

(** HashPassword, VerifyPassword: [fmt.Sprintf("hashed_%s", password)] *)
Definition HashPassword (password : string) : string :=
  ("hashed_" ++ password)%string.

Definition VerifyPassword (password hash : string) : bool :=
  String.eqb hash ("hashed_" ++ password)%string.

(** The byte [charset[n]] of GenerateRandomString for the draw [n] of
    [rand.Int(rand.Reader, len(charset))]. *)
Definition charset_at (n : nat) : ascii :=
  match String.get (n mod String.length utils.charset) utils.charset with
  | Some c => c
  | None => zero
  end.

(** GenerateRandomString: the loop [for i := range b] *)
Fixpoint fill (o : Oracle) (n : nat) : M string :=
  match n with
  | O => ret EmptyString
  | S k =>
      d <- draw (rand_draw o) ;;
      rest <- fill o k ;;
      ret (String (charset_at d) rest)
  end.

(** GenerateRandomString: [None] is the panic of [make([]byte, length)]
    for a negative length. *)
Definition GenerateRandomString (o : Oracle) (length : Z)
    : M (option string) :=
  if length <? 0 then ret None
  else
    s <- fill o (Z.to_nat length) ;;
    ret (Some s).

(** GenerateAPIKey *)
Definition GenerateAPIKey (o : Oracle) : M (option string) :=
  GenerateRandomString o 32.

(** Every byte of the string satisfies [p]. *)
Fixpoint every (p : ascii -> bool) (s : string) : bool :=
  match s with
  | EmptyString => true
  | String c r => p c && every p r
  end.

(** The characters [a-zA-Z0-9]. *)
Definition is_alphanumeric (c : ascii) : bool :=
  let n := nat_of_ascii c in
  ((97 <=? n) && (n <=? 122) || (65 <=? n) && (n <=? 90)
   || (48 <=? n) && (n <=? 57))%nat.

End utils_go.

(** ** The queue, used as the worker uses it *)

Module queue.

(** The ids enqueued one after the other. *)
Fixpoint enqueue_each (ids : list string) : M unit :=
  match ids with
  | [] => ret tt
  | id :: rest => redis.EnqueueTransaction id ;;; enqueue_each rest
  end.

(** [n] calls of DequeueTransaction, with what they return. *)
Fixpoint dequeue_times (n : nat) : M (list (result string)) :=
  match n with
  | O => ret []
  | S k =>
      r <- redis.DequeueTransaction ;;
      rest <- dequeue_times k ;;
      ret (r :: rest)
  end.

End queue.

(** ** internal/usecase: the fallback list of smart routing *)

Module fallback.
Import domain.

(** GetFallbackSuppliers: the loop over the alternatives *)
Fixpoint add_alternatives (excludeSupplierID : string) (maxCount : Z)
    (fallbacks : list Supplier.t) (alternatives : list Supplier.t)
    : list Supplier.t :=
  match alternatives with
  | [] => fallbacks
  | alt :: rest =>
      if negb (String.eqb (Supplier.ID alt) excludeSupplierID)
         && (Z.of_nat (List.length fallbacks) <? maxCount)
      then add_alternatives excludeSupplierID maxCount
             (fallbacks ++ [alt])%list rest
      else add_alternatives excludeSupplierID maxCount fallbacks rest
  end.

(** GetFallbackSuppliers *)
Definition GetFallbackSuppliers (o : Oracle) (productID : string)
    (excludeSupplierID : string) (maxCount : Z)
    : M (result (list Supplier.t)) :=
  r <- smart_routing.GetBestSupplier o productID
         (Some (smart_routing.Build_RoutingCriteria false false false false
                  (GoInt.add maxCount 1) F64.zero)) ;;
  match r with
  | Err e => ret (Err e)
  | Ok result =>
      let fallbacks :=
        if negb (String.eqb
                   (Supplier.ID (smart_routing.SelectedSupplier result))
                   excludeSupplierID)
        then [smart_routing.SelectedSupplier result]
        else [] in
      ret (Ok (add_alternatives excludeSupplierID maxCount fallbacks
                 (smart_routing.Alternatives result)))
  end.

End fallback.

(** ** Statistics of the use cases *)

Module statistics.
Import domain postgres.

(** ORDER BY created_at DESC; rows of equal created_at stay in the order
    of the table, one of the orders the statement may return. *)
Fixpoint insert_newest (x : Transaction.t) (l : list Transaction.t)
    : list Transaction.t :=
  match l with
  | [] => [x]
  | y :: r =>
      if Transaction.CreatedAt y <=? Transaction.CreatedAt x then x :: l
      else y :: insert_newest x r
  end.

(** transactionRepository.GetTransactionsByDateRange:
    WHERE created_at BETWEEN $1 AND $2 ORDER BY created_at DESC *)
Definition GetTransactionsByDateRange (startDate endDate : Z)
    : M (result (list Transaction.t)) :=
  w <- get ;;
  ret (Ok (fold_right insert_newest []
             (filter (fun t => (startDate <=? Transaction.CreatedAt t)
                               && (Transaction.CreatedAt t <=? endDate))
                     (transactions w)))).

Record TransactionStats : Type := Build_TransactionStats {
  TotalTransactions : Z;
  SuccessCount : Z;
  FailedCount : Z;
  PendingCount : Z;
  TotalRevenue : F64.t;
  TotalProfit : F64.t;
  AverageAmount : F64.t
}.

(** GetTransactionStats: one round of the loop; the state is the struct
    and the local [totalAmount]. *)
Definition tally (userID : string) (acc : TransactionStats * F64.t)
    (trx : Transaction.t) : TransactionStats * F64.t :=
  let (stats, totalAmount) := acc in
  if String.eqb (Transaction.UserID trx) userID
  then
    let total := GoInt.add (TotalTransactions stats) 1 in
    let totalAmount := F64.add totalAmount (Transaction.SellingPrice trx) in
    match Transaction.Status trx with
    | StatusSuccess =>
        (Build_TransactionStats total (GoInt.add (SuccessCount stats) 1)
           (FailedCount stats) (PendingCount stats)
           (F64.add (TotalRevenue stats) (Transaction.SellingPrice trx))
           (F64.add (TotalProfit stats) (Transaction.Profit trx))
           (AverageAmount stats), totalAmount)
    | StatusFailed =>
        (Build_TransactionStats total (SuccessCount stats)
           (GoInt.add (FailedCount stats) 1) (PendingCount stats)
           (TotalRevenue stats) (TotalProfit stats) (AverageAmount stats),
         totalAmount)
    | StatusPending =>
        (Build_TransactionStats total (SuccessCount stats)
           (FailedCount stats) (GoInt.add (PendingCount stats) 1)
           (TotalRevenue stats) (TotalProfit stats) (AverageAmount stats),
         totalAmount)
    | _ =>
        (Build_TransactionStats total (SuccessCount stats)
           (FailedCount stats) (PendingCount stats)
           (TotalRevenue stats) (TotalProfit stats) (AverageAmount stats),
         totalAmount)
    end
  else acc.

(** GetTransactionStats *)
Definition GetTransactionStats (userID : string) (startDate endDate : Z)
    : M (result TransactionStats) :=
  r <- GetTransactionsByDateRange startDate endDate ;;
  match r with
  | Err e => ret (Err ("failed to get transactions: " ++ e)%string)
  | Ok transactions =>
      let '(stats, totalAmount) :=
        fold_left (tally userID) transactions
          (Build_TransactionStats 0 0 0 0 F64.zero F64.zero F64.zero,
           F64.zero) in
      if 0 <? TotalTransactions stats
      then
        ret (Ok (Build_TransactionStats (TotalTransactions stats)
                   (SuccessCount stats) (FailedCount stats)
                   (PendingCount stats) (TotalRevenue stats)
                   (TotalProfit stats)
                   (F64.div totalAmount
                      (F64.of_int (TotalTransactions stats)))))
      else ret (Ok stats)
  end.

Record RetryStatistics : Type := Build_RetryStatistics {
  TotalFailedTransactions : Z;
  RetriedTransactions : Z;
  SuccessfulRetries : Z;
  AverageRetryAttempts : F64.t;
  TotalRefundAmount : F64.t;
  RetrySuccessRate : F64.t
}.

(** GetRetryStatistics: one round of the loop; the state is the struct
    and the local [totalRetryAttempts]. *)
Definition count_retry (acc : RetryStatistics * Z) (trx : Transaction.t)
    : RetryStatistics * Z :=
  let (stats, totalRetryAttempts) := acc in
  if status_eqb (Transaction.Status trx) StatusFailed
     || status_eqb (Transaction.Status trx) StatusTimeout
  then
    let failed := GoInt.add (TotalFailedTransactions stats) 1 in
    if 1 <? Transaction.RoutingAttempts trx
    then
      let retried := GoInt.add (RetriedTransactions stats) 1 in
      let totalRetryAttempts :=
        GoInt.add totalRetryAttempts (Transaction.RoutingAttempts trx) in
      if status_eqb (Transaction.Status trx) StatusSuccess
      then
        (Build_RetryStatistics failed retried
           (GoInt.add (SuccessfulRetries stats) 1)
           (AverageRetryAttempts stats) (TotalRefundAmount stats)
           (RetrySuccessRate stats), totalRetryAttempts)
      else if status_eqb (Transaction.Status trx) StatusRefund
      then
        (Build_RetryStatistics failed retried (SuccessfulRetries stats)
           (AverageRetryAttempts stats)
           (F64.add (TotalRefundAmount stats)
                    (Transaction.SellingPrice trx))
           (RetrySuccessRate stats), totalRetryAttempts)
      else
        (Build_RetryStatistics failed retried (SuccessfulRetries stats)
           (AverageRetryAttempts stats) (TotalRefundAmount stats)
           (RetrySuccessRate stats), totalRetryAttempts)
    else
      (Build_RetryStatistics failed (RetriedTransactions stats)
         (SuccessfulRetries stats) (AverageRetryAttempts stats)
         (TotalRefundAmount stats) (RetrySuccessRate stats),
       totalRetryAttempts)
  else acc.

(** GetRetryStatistics *)
Definition GetRetryStatistics (startDate endDate : Z)
    : M (result RetryStatistics) :=
  r <- GetTransactionsByDateRange startDate endDate ;;
  match r with
  | Err e => ret (Err ("failed to get transactions: " ++ e)%string)
  | Ok failedTransactions =>
      let '(stats, totalRetryAttempts) :=
        fold_left count_retry failedTransactions
          (Build_RetryStatistics 0 0 0 F64.zero F64.zero F64.zero, 0) in
      if 0 <? RetriedTransactions stats
      then
        ret (Ok (Build_RetryStatistics (TotalFailedTransactions stats)
                   (RetriedTransactions stats) (SuccessfulRetries stats)
                   (F64.div (F64.of_int totalRetryAttempts)
                      (F64.of_int (RetriedTransactions stats)))
                   (TotalRefundAmount stats)
                   (F64.mul
                      (F64.div (F64.of_int (SuccessfulRetries stats))
                         (F64.of_int (RetriedTransactions stats)))
                      (F64.of_int 100))))
      else ret (Ok stats)
  end.

End statistics.

(** ** internal/worker: the transaction worker *)

Module worker.

(** The worker holds a queue and a transaction use case, either of which
    may be nil. *)
Record TransactionWorker : Type := Build_TransactionWorker {
  queueRepo : bool;
  trxUC : option Wiring
}.

(** processNext *)
Definition processNext (o : Oracle) (worker : TransactionWorker) : M unit :=
  match trxUC worker with
  | None => ret tt
  | Some uc =>
      if negb (queueRepo worker) then ret tt
      else
        r <- redis.DequeueTransaction ;;
        match r with
        | Err _ => ret tt
        | Ok trxID =>
            if String.eqb trxID "" then ret tt
            else
              start <- time_Now ;;
              transaction_uc.ProcessTransaction o uc trxID ;;;
              ret tt
        end
  end.

End worker.

(** ** What the operations keep *)

Module invariant.
Import domain.

(** The columns of a row that identify the transaction and hold its price
    snapshot. *)
Definition same_snapshot (r r' : Transaction.t) : Prop :=
  Transaction.ID r' = Transaction.ID r
  /\ Transaction.TrxCode r' = Transaction.TrxCode r
  /\ Transaction.UserID r' = Transaction.UserID r
  /\ Transaction.ProductID r' = Transaction.ProductID r
  /\ Transaction.DestinationNumber r' = Transaction.DestinationNumber r
  /\ Transaction.ProductCode r' = Transaction.ProductCode r
  /\ Transaction.HPP r' = Transaction.HPP r
  /\ Transaction.SellingPrice r' = Transaction.SellingPrice r
  /\ Transaction.AdminFee r' = Transaction.AdminFee r
  /\ Transaction.Profit r' = Transaction.Profit r
  /\ Transaction.CreatedAt r' = Transaction.CreatedAt r.

(** Every transaction that can be read before can be read after, with
    the same snapshot. *)
Definition keeps_snapshots (w w' : World) : Prop :=
  forall id r,
    system.row_of w id = Some r ->
    exists r', system.row_of w' id = Some r' /\ same_snapshot r r'.

(** The catalogue: products and product mappings. *)
Definition keeps_catalogue (w w' : World) : Prop :=
  products w' = products w /\ product_mappings w' = product_mappings w.

(** The queue. *)
Definition keeps_queue (w w' : World) : Prop :=
  transaction_queue w' = transaction_queue w.

End invariant.

(** ** Further cases *)

Module cases.
Import domain.

(** An adapter that accepts every request after one second. *)
Definition accepting_adapter : SupplierAdapter :=
  fun _ =>
    (TopUpReply (Build_SupplierResponse true "ok" "SUP-1" "SN-1" 200 0),
     1000 * Millisecond).

(** Everything wired, every supplier code with the accepting adapter. *)
Definition wiring_accepting : Wiring :=
  Build_Wiring true true true true (Some (fun _ => Some accepting_adapter)).

(** A queue and a mutation repository, nothing else. *)
Definition wiring_bare : Wiring :=
  Build_Wiring true true false false None.

(** A pending transaction whose user is not on file. *)
Definition orphan_world : World :=
  Build_World [] [scenario.product 1000000] [] []
    [scenario.transaction "T1" StatusPending 0] [] [] [] 0 O.

(** A transaction that has been refunded already. *)
Definition refunded_world : World :=
  scenario.world (scenario.user 50000) (scenario.product 1000000) [] []
    [scenario.transaction "T1" StatusRefund 1].

End cases.

(* ================================================================== *)
(** * Properties *)

(** Unfolding of the state monad. *)
Ltac run_monad :=
  repeat (progress (unfold bind, ret, get, modify, time_Now, time_Sleep,
                      draw, logger;
                    cbv beta iota zeta)).

(** ** binary64 comparisons *)

Lemma SFcompare_antisym (x y : spec_float) :
  SFcompare y x = option_map CompOpp (SFcompare x y).
Proof.
  destruct x as [sx|sx| |sx mx ex], y as [sy|sy| |sy my ey]; simpl;
    try reflexivity;
    try (destruct sx; reflexivity); try (destruct sy; reflexivity);
    try (destruct sx, sy; reflexivity).
  destruct sx, sy; simpl; try reflexivity;
    rewrite (Z.compare_antisym ey ex);
    destruct (ey ?= ex)%Z; simpl; try reflexivity;
    rewrite (Pos.compare_cont_antisym mx my Eq); reflexivity.
Qed.

Lemma F64_ltb_not_geb (a b : F64.t) :
  F64.ltb a b = true -> F64.geb a b = false.
Proof.
  unfold F64.ltb, F64.geb, SFltb, SFleb. rewrite (SFcompare_antisym a b).
  destruct (SFcompare a b) as [[]|]; simpl; congruence.
Qed.


(* ================================================================== *)
(** ** Phone numbers *)

Section Phone.
Import utils.

Lemma keep_digits_only (s : string) : text.digits_only (keep is_digit s) = true.
Proof.
  induction s as [|c r IH]; simpl; [reflexivity|].
  destruct (is_digit c) eqn:E; simpl; [rewrite E|]; exact IH.
Qed.

Lemma drop_digits_only (n : nat) (s : string) :
  text.digits_only s = true -> text.digits_only (drop n s) = true.
Proof.
  revert s; induction n as [|n IH]; intros [|c r] H; simpl; auto.
  simpl in H. apply andb_true_iff in H. apply IH, H.
Qed.

Lemma Parse_digits_only (phone : string) :
  text.digits_only (ParsePhoneNumber phone) = true.
Proof.
  unfold ParsePhoneNumber.
  destruct (HasPrefix (keep is_digit phone) "0").
  - change (text.digits_only (drop 1 (keep is_digit phone)) = true).
    apply drop_digits_only, keep_digits_only.
  - apply keep_digits_only.
Qed.

Lemma HasPrefix_62 (s : string) :
  HasPrefix s "62" = true <-> exists rest, s = String "6" (String "2" rest).
Proof.
  split.
  - destruct s as [|a [|b r]]; cbn [HasPrefix]; try discriminate.
    + destruct (Ascii.eqb "6" a); discriminate.
    + intros H. apply andb_true_iff in H as [Ha H].
      apply andb_true_iff in H as [Hb _].
      apply Ascii.eqb_eq in Ha, Hb. subst. now exists r.
  - intros [rest ->]. reflexivity.
Qed.

Lemma Validate_iff (phone : string) :
  ValidatePhoneNumber phone = true <->
  exists rest,
    ParsePhoneNumber phone = ("62" ++ rest)%string
    /\ (9 <= String.length rest <= 13)%nat.
Proof.
  unfold ValidatePhoneNumber. split.
  - destruct (HasPrefix (ParsePhoneNumber phone) "62") eqn:E;
      cbn [negb]; [|discriminate].
    apply HasPrefix_62 in E as [rest E]. rewrite E. cbn [drop].
    intros H. apply andb_true_iff in H as [H1 H2].
    apply Nat.leb_le in H1, H2. exists rest. split; [reflexivity|lia].
  - intros [rest [E [H1 H2]]]. rewrite E.
    assert (P : HasPrefix ("62" ++ rest)%string "62" = true)
      by (apply HasPrefix_62; now exists rest).
    rewrite P. cbn [negb]. change (drop 2 ("62" ++ rest)%string) with rest.
    apply andb_true_iff. split; apply Nat.leb_le; lia.
Qed.

End Phone.

(** C8. Phone normalisation removes every non-digit character and rewrites a
    leading 0 to 62: the result consists of digits only and is the digit
    sequence of the input, or "62" followed by that sequence without its
    leading "0"; "0812-3456-789" becomes "628123456789" and "+628123456789"
    keeps its digits. Validation accepts an input exactly when its normalised
    form is "62" followed by 9 to 13 further characters (all digits, 11 to
    15 in total); with fewer than 9 digits after the prefix the input is
    rejected. *)
Theorem C8_phone_normalisation_and_validation :
  (forall phone,
     text.digits_only (utils.ParsePhoneNumber phone) = true
     /\ (forall rest,
           utils.keep utils.is_digit phone = String "0" rest ->
           utils.ParsePhoneNumber phone = ("62" ++ rest)%string)
     /\ (utils.HasPrefix (utils.keep utils.is_digit phone) "0" = false ->
         utils.ParsePhoneNumber phone = utils.keep utils.is_digit phone))
  /\ utils.ParsePhoneNumber "0812-3456-789" = "628123456789"
  /\ utils.ParsePhoneNumber "+628123456789" = "628123456789"
  /\ (forall phone,
        utils.ValidatePhoneNumber phone = true <->
        exists rest,
          utils.ParsePhoneNumber phone = ("62" ++ rest)%string
          /\ text.digits_only rest = true
          /\ (9 <= String.length rest <= 13)%nat
          /\ (11 <= String.length (utils.ParsePhoneNumber phone) <= 15)%nat)
  /\ (forall phone rest,
        utils.ParsePhoneNumber phone = ("62" ++ rest)%string ->
        (String.length rest < 9)%nat ->
        utils.ValidatePhoneNumber phone = false)
  /\ utils.ValidatePhoneNumber "0812-3456-789" = true
  /\ utils.ValidatePhoneNumber "0812-345" = false.
Proof.
  split; [intros phone; split; [|split]|].
  { apply Parse_digits_only. }
  { intros rest E. unfold utils.ParsePhoneNumber. rewrite E. reflexivity. }
  { intros E. unfold utils.ParsePhoneNumber. now rewrite E. }
  split; [reflexivity|]. split; [reflexivity|].
  split; [intros phone; split|].
  { intros H. apply Validate_iff in H as [rest [E Hl]].
    exists rest. split; [exact E|]. split.
    - pose proof (Parse_digits_only phone) as D. rewrite E in D.
      apply andb_true_iff in D as [_ D]. apply andb_true_iff in D as [_ D].
      exact D.
    - split; [exact Hl|]. rewrite E.
      change (String.length ("62" ++ rest)%string)
        with (S (S (String.length rest))). lia. }
  { intros [rest [E [_ [Hl _]]]]. apply Validate_iff. now exists rest. }
  split; [|split; reflexivity].
  intros phone rest E Hl.
  destruct (utils.ValidatePhoneNumber phone) eqn:V; [|reflexivity].
  apply Validate_iff in V as [rest' [E' Hl']].
  rewrite E in E'. injection E' as <-. lia.
Qed.

(* ================================================================== *)
(** ** Machine integers *)


(* ================================================================== *)
(** ** The retry gate of the transaction use case *)

Section Gate.
Import domain postgres.

Lemma status_eqb_eq (a b : status) : status_eqb a b = true <-> a = b.
Proof. destruct a, b; simpl; split; congruence. Qed.

Lemma CanRetry_iff (t : Transaction.t) :
  Transaction.CanRetry t = true <->
  Transaction.Status t = StatusFailed /\ Transaction.RoutingAttempts t < 3.
Proof.
  unfold Transaction.CanRetry. rewrite andb_true_iff, status_eqb_eq, Z.ltb_lt.
  reflexivity.
Qed.

End Gate.

(** C10. CanRetry is true exactly when the status is FAILED and
    routing_attempts is below the constant 3; no configuration enters it: a
    FAILED transaction with 4 attempts is retryable for the retry controller
    configured with maxAttempts = 10 and not for CanRetry. Hence
    RetryFailedTransaction returns an error and leaves the world as it is
    whenever the transaction's status is not FAILED (TIMEOUT and REFUND
    included) or its routing_attempts is 3 or more. *)
Theorem C10_CanRetry_gate :
  forall (o : Oracle) (uc : Wiring) (transactionID : string) (w : World),
    (forall t,
       domain.Transaction.CanRetry t = true <->
       domain.Transaction.Status t = domain.StatusFailed
       /\ domain.Transaction.RoutingAttempts t < 3)
    /\ (let t := scenario.transaction "T1" domain.StatusFailed 4 in
        domain.Transaction.CanRetry t = false
        /\ fst (retry.canRetryTransaction t
                  (retry.Build_RetryConfig 10 0 0 F64.zero 0 false)
                  (set_clock 0 w)) = true)
    /\ ((forall t,
           system.row_of w transactionID = Some t ->
           domain.Transaction.Status t <> domain.StatusFailed
           \/ 3 <= domain.Transaction.RoutingAttempts t) ->
        exists msg,
          transaction_uc.RetryFailedTransaction o uc transactionID w
          = (Err msg, w)).
Proof.
  intros o uc transactionID w. split; [exact CanRetry_iff|]. split.
  - split; reflexivity.
  - intros H. unfold transaction_uc.RetryFailedTransaction, bind.
    unfold postgres.transactionRepository.GetByID, bind, get, ret.
    fold (system.row_of w transactionID).
    destruct (system.row_of w transactionID) as [t|] eqn:E.
    + destruct (domain.Transaction.CanRetry t) eqn:C.
      * apply CanRetry_iff in C. destruct (H t eq_refl); [tauto|lia].
      * cbn. eauto.
    + cbn. eauto.
Qed.

(* ================================================================== *)
(** ** Supplier metrics *)

Section Metrics.
Import domain postgres.








End Metrics.


(* ================================================================== *)
(** ** CreateTransaction and the balance check *)

Section Create.
Import domain postgres.

Lemma insufficient_spending_power (u : User.t) (amount : F64.t) :
  F64.ltb (system.spending_power u) amount = true ->
  User.HasSufficientBalance u amount = false.
Proof.
  unfold system.spending_power, User.HasSufficientBalance.
  destruct (User.AllowDebt u); apply F64_ltb_not_geb.
Qed.

End Create.

(** C7, as the code has it. When the spending power of the user (balance
    plus credit_limit when allow_debt, balance alone otherwise) is less than
    the selling price computed for the product, CreateTransaction returns an
    error and writes nothing: the world after the call is the world before
    it (no transaction row, nothing enqueued, no mutation). The error is
    "insufficient balance" when the request passes the checks that come
    first (required fields, phone number, active user, active product, price
    within the range of the product). *)
Theorem C7_insufficient_balance_rejected_without_writes :
  forall (o : Oracle) (uc : Wiring)
         (userID productCode destinationNumber : string) (w : World)
         (user : domain.User.t) (product : domain.Product.t),
    find (fun u => String.eqb (domain.User.ID u) userID) (users w)
    = Some user ->
    find (fun p => String.eqb (domain.Product.Code p) productCode)
         (products w)
    = Some product ->
    F64.ltb (system.spending_power user)
            (domain.User.GetEffectivePrice user
               (domain.Product.BasePrice product)) = true ->
    (exists msg,
       transaction_uc.CreateTransaction o uc userID productCode
         destinationNumber w = (Err msg, w))
    /\ (system.passes_validation userID productCode destinationNumber user
          product = true ->
        transaction_uc.CreateTransaction o uc userID productCode
          destinationNumber w = (Err "insufficient balance", w)).
Proof.
  intros o uc userID productCode destinationNumber w user product Hu Hp Hlt.
  apply insufficient_spending_power in Hlt.
  unfold system.passes_validation, transaction_uc.CreateTransaction.
  unfold postgres.userRepository.GetByID, postgres.productRepository.GetByCode.
  unfold bind, get, ret.
  destruct (String.eqb userID ""); [cbn; split; [eauto|discriminate]|].
  destruct (String.eqb productCode ""); [cbn; split; [eauto|discriminate]|].
  destruct (String.eqb destinationNumber "");
    [cbn; split; [eauto|discriminate]|].
  destruct (utils.ValidatePhoneNumber destinationNumber);
    [|cbn; split; [eauto|discriminate]].
  cbn [orb negb andb]. rewrite Hu.
  destruct (domain.User.IsActive user); [|cbn; split; [eauto|discriminate]].
  cbn [negb andb]. rewrite Hp.
  destruct (domain.Product.IsActive product);
    [|cbn; split; [eauto|discriminate]].
  cbn [negb andb].
  destruct (F64.ltb _ (domain.Product.MinPrice product));
    [cbn; split; [eauto|discriminate]|].
  destruct (F64.gtb _ (domain.Product.MaxTransactionAmount product));
    [cbn; split; [eauto|discriminate]|].
  cbn [orb negb andb]. rewrite Hlt. cbn [negb]. split; [eauto|reflexivity].
Qed.

(** C7 as stated fails: a user with balance 5 000 and no credit asks for a
    product whose price, 10 000, exceeds the maximum amount 9 500 of the
    product; the spending power is less than the price and the error is the
    one of the price range, not the one of the balance. *)
Lemma C7_error_is_the_price_range :
  let u := scenario.user 5000 in
  let p := scenario.product 9500 in
  let w := scenario.world u p [] [] [] in
  F64.ltb (system.spending_power u)
          (domain.User.GetEffectivePrice u (domain.Product.BasePrice p)) = true
  /\ fst (transaction_uc.CreateTransaction scenario.oracle0 scenario.wiring
            "U1" "T10" "0812-3456-789" w)
     = Err "price out of allowed range"
  /\ fst (transaction_uc.CreateTransaction scenario.oracle0 scenario.wiring
            "U1" "T10" "0812-3456-789" w)
     <> Err "insufficient balance".
Proof.
  split; [reflexivity|]. split; [reflexivity|].
  vm_compute. discriminate.
Qed.

(** C7 at a request that passes every earlier check: balance 5 000, price
    10 000 within the range of the product. *)
Lemma C7_insufficient_balance_witness :
  let w :=
    scenario.world (scenario.user 5000) (scenario.product 1000000) [] [] [] in
  transaction_uc.CreateTransaction scenario.oracle0 scenario.wiring
    "U1" "T10" "0812-3456-789" w
  = (Err "insufficient balance", w).
Proof.
  apply (C7_insufficient_balance_rejected_without_writes
           scenario.oracle0 scenario.wiring "U1" "T10" "0812-3456-789"
           (scenario.world (scenario.user 5000) (scenario.product 1000000)
              [] [] [])
           (scenario.user 5000) (scenario.product 1000000));
    reflexivity.
Defined.


(** C10 at a transaction in TIMEOUT. *)
Lemma C10_CanRetry_gate_witness :
  let w :=
    scenario.world (scenario.user 50000) (scenario.product 1000000) [] []
      [scenario.transaction "T1" domain.StatusTimeout 0] in
  exists msg,
    transaction_uc.RetryFailedTransaction scenario.oracle0 scenario.wiring
      "T1" w = (Err msg, w).
Proof.
  apply (proj2 (proj2
           (C10_CanRetry_gate scenario.oracle0 scenario.wiring "T1"
              (scenario.world (scenario.user 50000)
                 (scenario.product 1000000) [] []
                 [scenario.transaction "T1" domain.StatusTimeout 0])))).
  intros t H. vm_compute in H. injection H as <-. left. discriminate.
Defined.

(* ================================================================== *)
(** ** sort.Slice on short slices *)

Section Sorting.
Context {A : Type}.
Variable less : A -> A -> bool.
Hypothesis less_asym : forall a b, less a b = true -> less b a = false.

Import order.










Lemma before_In (x y : A) (l : list A) : before x y l -> In x l /\ In y l.
Proof.
  induction 1 as [l H|a l _ [IHx IHy]]; simpl; auto.
Qed.






End Sorting.

(* ================================================================== *)
(** ** Smart routing *)

Section Routing.
Import domain postgres smart_routing.

Lemma set_cursor_same (w : World) : set_cursor (cursor w) w = w.
Proof. now destruct w. Qed.

Lemma set_cursor_twice (a b : nat) (w : World) :
  set_cursor a (set_cursor b w) = set_cursor a w.
Proof. reflexivity. Qed.

Lemma healthy_suppliers_reads (mappings : list ProductMapping.t) (w : World) :
  snd (healthy_suppliers mappings w) = w.
Proof.
  induction mappings as [|m ms IH]; [reflexivity|].
  cbn [healthy_suppliers]. unfold supplierRepository.GetByID. run_monad.
  destruct (find _ (suppliers w)) as [s|]; run_monad; [|exact IH].
  destruct (Supplier.IsHealthy s); cbn [negb]; [|exact IH].
  destruct (healthy_suppliers ms w) as [l w1]. exact IH.
Qed.

Lemma calculateSupplierScore_Supplier (draws : list nat) (s : Supplier.t)
    (mappings : list ProductMapping.t) (criteria : RoutingCriteria) :
  Supplier (calculateSupplierScore draws s mappings criteria) = s.
Proof.
  unfold calculateSupplierScore. now destruct (find _ mappings).
Qed.


Lemma score_all_spec (o : Oracle) (sups : list Supplier.t)
    (mappings : list ProductMapping.t) (criteria : RoutingCriteria)
    (w : World) :
  map Supplier (fst (score_all o sups mappings criteria w)) = sups
  /\ snd (score_all o sups mappings criteria w)
     = set_cursor (cursor w + List.length sups)%nat w.
Proof.
  revert w; induction sups as [|s sups IH]; intros w.
  - cbn. rewrite Nat.add_0_r. now rewrite set_cursor_same.
  - cbn [score_all]. run_monad.
    destruct (IH (set_cursor (S (cursor w)) w)) as [IH1 IH2].
    destruct (score_all o sups mappings criteria (set_cursor (S (cursor w)) w))
      as [scores w1].
    cbn [fst snd] in *. split.
    + cbn [map]. now rewrite calculateSupplierScore_Supplier, IH1.
    + rewrite IH2. cbn [cursor set_cursor List.length].
      rewrite set_cursor_twice. f_equal. lia.
Qed.

End Routing.



(** The same database read under two iteration orders of the factor maps:
    the sums differ in their last bit and so does the selected supplier. *)
Lemma selection_depends_on_map_order :
  exists r0 w0 r1 w1,
    smart_routing.GetBestSupplier scenario.oracle0 "P1" None
      scenario.tie_world = (Ok r0, w0)
    /\ smart_routing.GetBestSupplier scenario.oracle1 "P1" None
         scenario.tie_world = (Ok r1, w1)
    /\ domain.Supplier.ID (smart_routing.SelectedSupplier r0) = "B"
    /\ domain.Supplier.ID (smart_routing.SelectedSupplier r1) = "A".
Proof.
  do 4 eexists.
  split; [vm_compute; reflexivity|].
  split; [vm_compute; reflexivity|].
  split; reflexivity.
Qed.


(* ================================================================== *)
(** ** Runs of the system *)

(** C3 at its failing input. A pending transaction of a user without balance
    is processed (FAILED), retried twice through RetryFailedTransaction
    (routing_attempts 1, then 2, FAILED each time) and then handed to the
    retry controller, whose first attempt succeeds and writes
    routing_attempts = 1. *)
Theorem C3_retry_controller_resets_the_counter :
  let w2 :=
    system.run_all scenario.oracle0 scenario.wiring
      [system.ProcessTransaction "T1"; system.RetryFailedTransaction "T1";
       system.RetryFailedTransaction "T1"] scenario.broke_world in
  let w3 :=
    system.run scenario.oracle0 scenario.wiring
      (system.RetryTransaction "T1" None) w2 in
  system.status_of w2 "T1" = Some domain.StatusFailed
  /\ system.routing_attempts_of w2 "T1" = Some 2
  /\ system.status_of w3 "T1" = Some domain.StatusSuccess
  /\ system.routing_attempts_of w3 "T1" = Some 1.
Proof.
  vm_compute. repeat split; reflexivity.
Qed.

(** C6 at its failing input. Smart routing selects S1, whose adapter refuses
    the top-up; the retry controller then walks S1 again before S2. *)
Theorem C6_retry_walks_the_tried_supplier :
  let w := scenario.slow_world in
  let t := scenario.transaction "T1" domain.StatusPending 0 in
  let w' :=
    snd (transaction_uc.ProcessTransaction scenario.oracle0 scenario.wiring
           "T1" w) in
  (exists m w1,
     transaction_uc.selectSupplier scenario.oracle0 scenario.wiring t w
     = (Ok (scenario.supplier "S1" 1 30000, m), w1))
  /\ system.attempted (log w') = ["S1"; "S2"]
  /\ In "S1" (system.attempted (log w')).
Proof.
  split; [eexists; eexists; vm_compute; reflexivity|].
  split; [vm_compute; reflexivity|].
  vm_compute. left. reflexivity.
Qed.

(** C2 as stated fails: the retry controller takes a transaction in TIMEOUT
    and brings it to SUCCESS. *)
Lemma C2_timeout_is_retried :
  let w := scenario.timeout_world in
  let w' :=
    system.run scenario.oracle0 scenario.wiring
      (system.RetryTransaction "T1" None) w in
  system.status_of w "T1" = Some domain.StatusTimeout
  /\ system.status_of w' "T1" = Some domain.StatusSuccess.
Proof.
  vm_compute. split; reflexivity.
Qed.


(* ================================================================== *)
(** ** Footprints *)

Section Footprint.
Import domain postgres footprint.

(** A relation between worlds that every write outside the transactions,
    the mutations and the users preserves. *)
Variable R : World -> World -> Prop.
Hypothesis R_refl : forall w, R w w.
Hypothesis R_trans : forall w1 w2 w3, R w1 w2 -> R w2 w3 -> R w1 w3.
Hypothesis R_cursor : forall n w, R w (set_cursor n w).
Hypothesis R_clock : forall c w, R w (set_clock c w).
Hypothesis R_log : forall l w, R w (set_log l w).
Hypothesis R_suppliers : forall l w, R w (set_suppliers l w).
Hypothesis R_users : forall l w, R w (set_users l w).
Hypothesis R_mutations : forall l w, R w (set_mutations l w).
Hypothesis R_queue : forall l w, R w (set_transaction_queue l w).

(** The transactions a computation may write: those whose id is [writable]. *)
Variable writable : string -> Prop.
Hypothesis R_Update :
  forall t w, writable (Transaction.ID t) ->
              R w (snd (transactionRepository.Update t w)).
Hypothesis R_UpdateStatus :
  forall id s w, writable id ->
                 R w (snd (transactionRepository.UpdateStatus id s w)).
Hypothesis R_Create :
  forall t w, R w (snd (transactionRepository.Create t w)).

Lemma respects_ret {A : Type} (a : A) (Q : A -> Prop) :
  Q a -> respects R (ret a) Q.
Proof. intros H w. split; [apply R_refl|exact H]. Qed.

Lemma respects_bind {A B : Type} (m : M A) (k : A -> M B)
    (P : A -> Prop) (Q : B -> Prop) :
  respects R m P -> (forall a, P a -> respects R (k a) Q) ->
  respects R (bind m k) Q.
Proof.
  intros Hm Hk w. unfold bind. destruct (Hm w) as [H1 H2].
  destruct (m w) as [a w1]. cbn [fst snd] in *.
  destruct (Hk a H2 w1) as [H3 H4]. split; [|exact H4].
  exact (R_trans _ _ _ H1 H3).
Qed.

Lemma respects_weaken {A : Type} (m : M A) (P Q : A -> Prop) :
  respects R m P -> (forall a, P a -> Q a) -> respects R m Q.
Proof. intros H HPQ w. destruct (H w). auto. Qed.

Lemma respects_time_Now : respects R time_Now (fun _ => True).
Proof. intros w. split; [apply R_refl|exact I]. Qed.

Lemma respects_time_Sleep (d : Z) : respects R (time_Sleep d) (fun _ => True).
Proof. intros w. split; [apply R_clock|exact I]. Qed.

Lemma respects_draw {A : Type} (f : nat -> A) :
  respects R (draw f) (fun _ => True).
Proof. intros w. split; [apply R_cursor|exact I]. Qed.

Lemma respects_logger (l : LogLine) : respects R (logger l) (fun _ => True).
Proof. intros w. split; [apply R_log|exact I]. Qed.

Lemma respects_Update (t : Transaction.t) :
  writable (Transaction.ID t) ->
  respects R (transactionRepository.Update t) (fun _ => True).
Proof. intros H w. split; [now apply R_Update|exact I]. Qed.

Lemma respects_GetByID (id : string) :
  respects R (transactionRepository.GetByID id)
    (fun r => match r with
              | Ok t => Transaction.ID t = id
              | Err _ => True
              end).
Proof.
  intros w. unfold transactionRepository.GetByID. run_monad.
  destruct (find _ (transactions w)) as [t|] eqn:E; cbn [fst snd].
  - split; [apply R_refl|]. apply find_some in E as [_ E].
    now apply String.eqb_eq in E.
  - split; [apply R_refl|exact I].
Qed.

Lemma respects_UpdateMetrics (id : string) (success : bool) (rt : Z) :
  respects R (supplierRepository.UpdateMetrics id success rt)
    (fun _ => True).
Proof.
  intros w. unfold supplierRepository.UpdateMetrics. run_monad.
  destruct (forallb _ _); run_monad; cbn [fst snd].
  - split; [|exact I].
    destruct (_ =? _)%nat; cbn [snd]; apply R_suppliers.
  - split; [apply R_refl|exact I].
Qed.

Lemma respects_GetBestSupplier (o : Oracle) (productID : string)
    (criteria : option smart_routing.RoutingCriteria) :
  respects R (smart_routing.GetBestSupplier o productID criteria)
    (fun _ => True).
Proof.
  intros w. split; [|exact I].
  unfold smart_routing.GetBestSupplier.
  unfold productMappingRepository.GetActiveMappings. run_monad.
  destruct (_ =? 0)%nat; [apply R_refl|].
  pose proof (healthy_suppliers_reads
                (productMappingRepository.order_by
                   (filter (fun m =>
                              String.eqb (ProductMapping.ProductID m) productID
                              && ProductMapping.IsActive m)
                           (product_mappings w))) w) as Hw.
  destruct (smart_routing.healthy_suppliers _ w) as [sups w1].
  cbn [snd] in Hw. subst w1.
  destruct (_ =? 0)%nat; [apply R_refl|].
  match goal with
  | |- context [smart_routing.score_all o sups ?ms ?c w] =>
      destruct (score_all_spec o sups ms c w) as [_ S2];
      destruct (smart_routing.score_all o sups ms c w) as [scores w2]
  end.
  cbn [snd] in S2. subst w2.
  destruct (sort.Slice _ scores); cbn [snd]; apply R_cursor.
Qed.

Ltac foot_prim :=
  first [ apply respects_time_Now | apply respects_time_Sleep
        | apply respects_draw | apply respects_logger
        | apply respects_UpdateMetrics | apply respects_GetByID
        | apply respects_GetBestSupplier
        | apply respects_Update; cbn; congruence ].

Ltac foot_with call :=
  match goal with
  | |- respects _ (ret _) _ => apply respects_ret
  | |- respects _ (bind _ _) _ =>
      first [ eapply respects_bind;
              [first [foot_prim|call]|cbv beta; intros ? ?]
            | eapply respects_bind with (P := fun _ => True);
              [|cbv beta; intros ? ?] ]
  | |- respects _ (if ?b then _ else _) _ => destruct b eqn:?
  | |- respects _ (match ?x with _ => _ end) _ => destruct x eqn:?
  | |- respects _ _ _ => first [foot_prim|call]
  end.

Ltac foot_step := foot_with fail.

Lemma respects_canRetryTransaction (t : Transaction.t)
    (c : retry.RetryConfig) :
  respects R (retry.canRetryTransaction t c) (fun _ => True).
Proof.
  unfold retry.canRetryTransaction. cbv zeta. repeat foot_step; exact I.
Qed.

Lemma respects_calculateRetryDelay (o : Oracle) (attempt : Z)
    (c : retry.RetryConfig) :
  respects R (retry.calculateRetryDelay o attempt c) (fun _ => True).
Proof.
  unfold retry.calculateRetryDelay. cbv zeta. repeat foot_step; exact I.
Qed.

Lemma respects_simulateSupplierCall (o : Oracle) (s : Supplier.t)
    (t : Transaction.t) (timeout : Z) :
  respects R (retry.simulateSupplierCall o s t timeout) (fun _ => True).
Proof.
  unfold retry.simulateSupplierCall. cbv zeta. repeat foot_step; exact I.
Qed.

Lemma respects_getFailoverSuppliers (o : Oracle) (productID : string)
    (maxCount : Z) :
  respects R (retry.getFailoverSuppliers o productID maxCount)
    (fun _ => True).
Proof.
  unfold retry.getFailoverSuppliers. repeat foot_step; exact I.
Qed.

Ltac foot_retry :=
  first [ apply respects_canRetryTransaction
        | apply respects_calculateRetryDelay
        | apply respects_simulateSupplierCall
        | apply respects_getFailoverSuppliers ].

Lemma respects_executeRetryAttempt (o : Oracle) (t : Transaction.t)
    (s : Supplier.t) (attemptNumber : Z) (c : retry.RetryConfig) :
  writable (Transaction.ID t) ->
  respects R (retry.executeRetryAttempt o t s attemptNumber c)
    (fun r => Transaction.ID (snd r) = Transaction.ID t).
Proof.
  intros Hw. unfold retry.executeRetryAttempt, smart_routing.UpdateSupplierMetrics.
  cbv zeta. repeat (foot_with foot_retry); reflexivity.
Qed.


Lemma respects_issueRefund (t : Transaction.t) :
  writable (Transaction.ID t) ->
  respects R (retry.issueRefund t) (fun _ => True).
Proof.
  intros Hw. unfold retry.issueRefund. cbv zeta.
  repeat (foot_with foot_retry); exact I.
Qed.

Lemma respects_attempt_loop (o : Oracle) (c : retry.RetryConfig)
    (startTime : Z) (remaining : list Supplier.t) :
  forall (attempt : Z) (t : Transaction.t) (result : retry.RetryResult.t),
    writable (Transaction.ID t) ->
    respects R (retry.attempt_loop o c startTime remaining attempt t result)
      (fun e => match e with
                | retry.Exhausted t' _ => Transaction.ID t' = Transaction.ID t
                | retry.Returned _ => True
                end).
Proof.
  induction remaining as [|s remaining IH]; intros attempt t result Hw;
    cbn [retry.attempt_loop].
  - destruct (attempt <=? retry.MaxAttempts c); apply respects_ret; reflexivity.
  - destruct (attempt <=? retry.MaxAttempts c);
      [|apply respects_ret; reflexivity].
    eapply respects_bind; [apply (respects_executeRetryAttempt o t s attempt c Hw)|].
    intros [attemptResult t'] Ht'. cbn [snd] in Ht'. cbv zeta.
    eapply respects_bind; [apply respects_Update; cbn; congruence|].
    intros _ _.
    destruct (retry.RetryAttempt.Success attemptResult).
    + repeat foot_step. exact I.
    + unfold smart_routing.UpdateSupplierMetrics.
      eapply respects_bind; [apply respects_UpdateMetrics|]. intros _ _.
      eapply respects_bind with (P := fun _ => True).
      * destruct (attempt <? retry.MaxAttempts c);
          repeat (foot_with foot_retry); try exact I.
      * intros _ _. eapply respects_weaken; [apply IH; cbn; congruence|].
        intros [|t'' r'']; cbn; [trivial|congruence].
Qed.

Lemma respects_RetryTransaction (o : Oracle) (id : string)
    (config : option retry.RetryConfig) :
  writable id ->
  respects R (retry.RetryTransaction o id config) (fun _ => True).
Proof.
  intros Hw. unfold retry.RetryTransaction. cbv zeta.
  eapply respects_bind; [apply respects_GetByID|].
  intros [t|e] Ht; [|apply respects_ret; exact I].
  subst id.
  eapply respects_bind; [apply respects_canRetryTransaction|]. intros can _.
  destruct can; cbn [negb]; [|apply respects_ret; exact I].
  eapply respects_bind; [apply respects_time_Now|]. intros startTime _.
  eapply respects_bind; [apply respects_getFailoverSuppliers|].
  intros [suppliers|e] _; [|apply respects_ret; exact I].
  destruct (List.length suppliers =? 0)%nat; [apply respects_ret; exact I|].
  eapply respects_bind; [apply (respects_attempt_loop o _ _ _ _ t _ Hw)|].
  intros [result|t' result] Ht'; [apply respects_ret; exact I|].
  eapply respects_bind; [apply respects_time_Now|]. intros now _.
  eapply respects_bind;
    [apply respects_issueRefund; cbn; congruence|].
  intros [refundErr t''] _. apply respects_ret. exact I.
Qed.

Lemma respects_user_GetByID (id : string) :
  respects R (userRepository.GetByID id) (fun _ => True).
Proof.
  intros w. unfold userRepository.GetByID. run_monad.
  destruct (find _ (users w)); split; try apply R_refl; exact I.
Qed.

Lemma respects_UpdateBalance (id : string) (b : F64.t) :
  respects R (userRepository.UpdateBalance id b) (fun _ => True).
Proof.
  intros w. unfold userRepository.UpdateBalance. run_monad.
  split; [|exact I]. destruct (_ =? _)%nat; apply R_users.
Qed.

Lemma respects_GetByCode (code : string) :
  respects R (productRepository.GetByCode code) (fun _ => True).
Proof.
  intros w. unfold productRepository.GetByCode. run_monad.
  destruct (find _ (products w)); split; try apply R_refl; exact I.
Qed.

Lemma respects_mutation_Create (m : Mutation.t) :
  respects R (mutationRepository.Create m) (fun _ => True).
Proof.
  intros w. unfold mutationRepository.Create. run_monad.
  destruct (existsb _ _); split; try exact I; [apply R_refl|apply R_mutations].
Qed.

Lemma respects_Enqueue (id : string) :
  respects R (redis.EnqueueTransaction id) (fun _ => True).
Proof.
  intros w. unfold redis.EnqueueTransaction. run_monad.
  split; [apply R_queue|exact I].
Qed.

Lemma respects_Create (t : Transaction.t) :
  respects R (transactionRepository.Create t) (fun _ => True).
Proof. intros w. split; [apply R_Create|exact I]. Qed.

Lemma respects_UpdateStatus (id : string) (s : status) :
  writable id ->
  respects R (transactionRepository.UpdateStatus id s) (fun _ => True).
Proof. intros H w. split; [now apply R_UpdateStatus|exact I]. Qed.

Ltac foot_uc :=
  first [ foot_retry
        | apply respects_user_GetByID | apply respects_UpdateBalance
        | apply respects_GetByCode | apply respects_mutation_Create
        | apply respects_Enqueue | apply respects_Create
        | apply respects_UpdateStatus; cbn; congruence
        | apply respects_RetryTransaction; cbn; congruence ].

Variable o : Oracle.
Variable uc : Wiring.

Lemma respects_CreateTransaction (userID productCode destination : string) :
  respects R (transaction_uc.CreateTransaction o uc userID productCode
                destination) (fun _ => True).
Proof.
  unfold transaction_uc.CreateTransaction. cbv zeta.
  repeat (foot_with foot_uc); exact I.
Qed.

Lemma respects_createBalanceMutation (userID : string) (k : mutation_type)
    (amount before after : F64.t) (description : string)
    (referenceType referenceID : option string) :
  respects R (transaction_uc.createBalanceMutation o uc userID k amount before
                after description referenceType referenceID)
    (fun _ => True).
Proof.
  unfold transaction_uc.createBalanceMutation. cbv zeta.
  repeat (foot_with foot_uc); exact I.
Qed.

Lemma respects_refundTransaction (t : Transaction.t) :
  writable (Transaction.ID t) ->
  respects R (transaction_uc.refundTransaction o uc t) (fun _ => True).
Proof.
  intros Hw. unfold transaction_uc.refundTransaction. cbv zeta.
  repeat (foot_with ltac:(first [foot_uc|apply respects_createBalanceMutation]));
    exact I.
Qed.

Lemma respects_handleSupplierFailure (t : Transaction.t) (reason : string) :
  writable (Transaction.ID t) ->
  respects R (transaction_uc.handleSupplierFailure o uc t reason)
    (fun _ => True).
Proof.
  intros Hw. unfold transaction_uc.handleSupplierFailure. cbv zeta.
  repeat (foot_with ltac:(first [foot_uc
                                |apply respects_refundTransaction;
                                 cbn; congruence]));
    exact I.
Qed.

Lemma respects_selectSupplier (t : Transaction.t) :
  respects R (transaction_uc.selectSupplier o uc t) (fun _ => True).
Proof.
  unfold transaction_uc.selectSupplier.
  repeat (foot_with foot_uc); exact I.
Qed.

Lemma respects_executeSupplierTransaction (t : Transaction.t)
    (s : Supplier.t) (m : ProductMapping.t) :
  writable (Transaction.ID t) ->
  respects R (transaction_uc.executeSupplierTransaction o uc t s m)
    (fun _ => True).
Proof.
  intros Hw.
  unfold transaction_uc.executeSupplierTransaction,
    smart_routing.UpdateSupplierMetrics.
  cbv zeta.
  repeat (foot_with ltac:(first [foot_uc
                                |apply respects_handleSupplierFailure;
                                 cbn; congruence]));
    try exact I.
  apply respects_Update.
  repeat match goal with
         | |- context [if ?b then _ else _] => destruct b
         end;
    cbn; congruence.
Qed.

Lemma respects_ProcessTransaction (id : string) :
  writable id ->
  respects R (transaction_uc.ProcessTransaction o uc id) (fun _ => True).
Proof.
  intros Hw. unfold transaction_uc.ProcessTransaction. cbv zeta.
  eapply respects_bind; [apply respects_GetByID|].
  intros [t|e] Ht; [|apply respects_ret; exact I]. subst id.
  repeat (foot_with ltac:(first [foot_uc
                                |apply respects_selectSupplier
                                |apply respects_createBalanceMutation
                                |apply respects_handleSupplierFailure;
                                 cbn; congruence
                                |apply respects_executeSupplierTransaction;
                                 cbn; congruence]));
    try exact I.
Qed.

Lemma respects_RetryFailedTransaction (id : string) :
  writable id ->
  respects R (transaction_uc.RetryFailedTransaction o uc id) (fun _ => True).
Proof.
  intros Hw. unfold transaction_uc.RetryFailedTransaction. cbv zeta.
  eapply respects_bind; [apply respects_GetByID|].
  intros [t|e] Ht; [|apply respects_ret; exact I].
  repeat (foot_with ltac:(first [foot_uc
                                |apply respects_ProcessTransaction;
                                 assumption]));
    try exact I.
Qed.

Lemma respects_CancelTransaction (id : string) :
  writable id ->
  respects R (transaction_uc.CancelTransaction o uc id) (fun _ => True).
Proof.
  intros Hw. unfold transaction_uc.CancelTransaction. cbv zeta.
  eapply respects_bind; [apply respects_GetByID|].
  intros [t|e] Ht; [|apply respects_ret; exact I]. subst id.
  repeat (foot_with ltac:(first [foot_uc
                                |apply respects_refundTransaction;
                                 cbn; congruence]));
    try exact I.
Qed.

Lemma respects_RefundTransaction (id : string) :
  writable id ->
  respects R (transaction_uc.RefundTransaction o uc id) (fun _ => True).
Proof.
  intros Hw. unfold transaction_uc.RefundTransaction.
  eapply respects_bind; [apply respects_GetByID|].
  intros [t|e] Ht; [|apply respects_ret; exact I]. subst id.
  now apply respects_refundTransaction.
Qed.

End Footprint.

(* ================================================================== *)
(** ** The row of a transaction under the operations *)

Section Rows.
Import domain postgres footprint.

Variable id : string.

Lemma keeps_row_refl (w : World) : keeps_row id w w.
Proof. intros t H. exact H. Qed.

Lemma keeps_row_trans (w1 w2 w3 : World) :
  keeps_row id w1 w2 -> keeps_row id w2 w3 -> keeps_row id w1 w3.
Proof. intros H1 H2 t H. apply H2, H1, H. Qed.

Lemma keeps_row_same_transactions (w w' : World) :
  transactions w' = transactions w -> keeps_row id w w'.
Proof. intros E t. unfold system.row_of. now rewrite E. Qed.

Lemma find_update_where_other (p : Transaction.t -> bool)
    (f : Transaction.t -> Transaction.t) (rows : list Transaction.t) :
  (forall r, p r = true -> transactionRepository.has_id id r = false) ->
  (forall r, Transaction.ID (f r) = Transaction.ID r) ->
  find (transactionRepository.has_id id) (update_where p f rows)
  = find (transactionRepository.has_id id) rows.
Proof.
  intros Hp Hf. unfold update_where.
  induction rows as [|r rows IH]; [reflexivity|]. cbn [map find].
  destruct (p r) eqn:E.
  - unfold transactionRepository.has_id at 1 3. rewrite Hf.
    fold (transactionRepository.has_id id r). rewrite (Hp r E). exact IH.
  - destruct (transactionRepository.has_id id r); [reflexivity|exact IH].
Qed.

Lemma has_id_other (id' : string) (r : Transaction.t) :
  id' <> id ->
  transactionRepository.has_id id' r = true ->
  transactionRepository.has_id id r = false.
Proof.
  unfold transactionRepository.has_id. intros Hne H.
  apply String.eqb_eq in H. apply String.eqb_neq. congruence.
Qed.

Lemma keeps_row_eq (w w' : World) :
  system.row_of w' id = system.row_of w id -> keeps_row id w w'.
Proof. intros E t H. now rewrite E. Qed.

Lemma keeps_row_Update (t : Transaction.t) (w : World) :
  Transaction.ID t <> id ->
  keeps_row id w (snd (transactionRepository.Update t w)).
Proof.
  intros Hne. apply keeps_row_eq.
  unfold transactionRepository.Update. run_monad.
  assert (E : find (transactionRepository.has_id id)
                (update_where (transactionRepository.has_id (Transaction.ID t))
                   (transactionRepository.write_columns (clock w) t)
                   (transactions w))
              = find (transactionRepository.has_id id) (transactions w)).
  { apply find_update_where_other.
    - intros r. now apply has_id_other.
    - reflexivity. }
  destruct (_ =? _)%nat; exact E.
Qed.

Lemma keeps_row_UpdateStatus (id' : string) (s : status) (w : World) :
  id' <> id ->
  keeps_row id w (snd (transactionRepository.UpdateStatus id' s w)).
Proof.
  intros Hne. apply keeps_row_eq.
  unfold transactionRepository.UpdateStatus. run_monad.
  assert (E : find (transactionRepository.has_id id)
                (update_where (transactionRepository.has_id id')
                   (fun r => Transaction.set_UpdatedAt (clock w)
                               (Transaction.set_Status s r))
                   (transactions w))
              = find (transactionRepository.has_id id) (transactions w)).
  { apply find_update_where_other.
    - intros r. now apply has_id_other.
    - reflexivity. }
  destruct (_ =? _)%nat; exact E.
Qed.

Lemma find_app_some {A : Type} (p : A -> bool) (l l' : list A) (a : A) :
  find p l = Some a -> find p (l ++ l')%list = Some a.
Proof.
  induction l as [|x l IH]; simpl; [discriminate|].
  destruct (p x); [trivial|exact IH].
Qed.

Lemma keeps_row_Create (t : Transaction.t) (w : World) :
  keeps_row id w (snd (transactionRepository.Create t w)).
Proof.
  unfold transactionRepository.Create. run_monad.
  destruct (existsb _ _); [apply keeps_row_refl|].
  intros r H. cbn [snd]. unfold system.row_of in *.
  cbn [transactions set_transactions]. now apply find_app_some.
Qed.

(** What a terminal row answers to the operations aimed at it. *)
Variable o : Oracle.
Variable uc : Wiring.
Variable w : World.
Variable t : Transaction.t.
Hypothesis row : system.row_of w id = Some t.

Lemma GetByID_row :
  transactionRepository.GetByID id w = (Ok t, w).
Proof.
  unfold transactionRepository.GetByID. run_monad.
  unfold system.row_of in row. now rewrite row.
Qed.

Lemma ProcessTransaction_not_pending :
  Transaction.Status t <> StatusPending ->
  snd (transaction_uc.ProcessTransaction o uc id w) = w.
Proof.
  intros H. unfold transaction_uc.ProcessTransaction, bind.
  rewrite GetByID_row.
  destruct (Transaction.Status t); try reflexivity. congruence.
Qed.

Lemma RetryFailedTransaction_not_failed :
  Transaction.Status t <> StatusFailed ->
  snd (transaction_uc.RetryFailedTransaction o uc id w) = w.
Proof.
  intros H. unfold transaction_uc.RetryFailedTransaction, bind.
  rewrite GetByID_row. unfold Transaction.CanRetry.
  destruct (Transaction.Status t); try reflexivity. congruence.
Qed.

Lemma CancelTransaction_not_pending :
  Transaction.Status t <> StatusPending ->
  snd (transaction_uc.CancelTransaction o uc id w) = w.
Proof.
  intros H. unfold transaction_uc.CancelTransaction, bind.
  rewrite GetByID_row.
  destruct (Transaction.Status t); try reflexivity. congruence.
Qed.

Lemma RetryTransaction_not_retryable (config : option retry.RetryConfig) :
  Transaction.Status t <> StatusFailed ->
  Transaction.Status t <> StatusTimeout ->
  snd (retry.RetryTransaction o id config w) = w.
Proof.
  intros H1 H2. unfold retry.RetryTransaction, bind.
  rewrite GetByID_row. unfold retry.canRetryTransaction.
  destruct (Transaction.Status t); try reflexivity; congruence.
Qed.

End Rows.

Section Operations.
Import domain postgres footprint.

Variable o : Oracle.
Variable uc : Wiring.

Ltac row_instance :=
  first [ apply keeps_row_refl | apply keeps_row_trans
        | intros; apply keeps_row_same_transactions; reflexivity
        | intros; apply keeps_row_Update; assumption
        | intros; apply keeps_row_UpdateStatus; assumption
        | intros; apply keeps_row_Create ].

(** An operation aimed at another transaction leaves the row as it is. *)
Lemma run_keeps_other_row (id : string) (op : system.operation) (w : World) :
  match op with
  | system.CreateTransaction _ _ _ => True
  | system.ProcessTransaction id'
  | system.RetryFailedTransaction id'
  | system.CancelTransaction id'
  | system.RefundTransaction id'
  | system.RetryTransaction id' _ => id' <> id
  end ->
  keeps_row id w (system.run o uc op w).
Proof.
  destruct op as [u p d|id'|id'|id'|id'|id' c]; intros H; cbn [system.run].
  - apply (respects_CreateTransaction (keeps_row id)); row_instance.
  - apply (respects_ProcessTransaction (keeps_row id)) with
      (writable := fun i => i <> id); try exact H; row_instance.
  - apply (respects_RetryFailedTransaction (keeps_row id)) with
      (writable := fun i => i <> id); try exact H; row_instance.
  - apply (respects_CancelTransaction (keeps_row id)) with
      (writable := fun i => i <> id); try exact H; row_instance.
  - apply (respects_RefundTransaction (keeps_row id)) with
      (writable := fun i => i <> id); try exact H; row_instance.
  - apply (respects_RetryTransaction (keeps_row id)) with
      (writable := fun i => i <> id); try exact H; row_instance.
Qed.

Lemma run_keeps_terminal_row (id : string) (s : status)
    (op : system.operation) (w : World) (t : Transaction.t) :
  system.row_of w id = Some t ->
  Transaction.Status t = s ->
  system.terminal s = true ->
  system.spares id s op = true ->
  system.row_of (system.run o uc op w) id = Some t.
Proof.
  intros Hrow Hs Ht Hop.
  assert (Np : Transaction.Status t <> StatusPending)
    by (rewrite Hs; destruct s; discriminate).
  assert (Nf : Transaction.Status t <> StatusFailed)
    by (rewrite Hs; destruct s; discriminate).
  destruct op as [u p d|id'|id'|id'|id'|id' c]; cbn [system.spares] in Hop.
  - apply (run_keeps_other_row id (system.CreateTransaction u p d) w I), Hrow.
  - destruct (String.eqb id' id) eqn:E.
    + apply String.eqb_eq in E. subst id'. cbn [system.run].
      now rewrite (ProcessTransaction_not_pending id o uc w t Hrow Np).
    + apply String.eqb_neq in E.
      apply (run_keeps_other_row id (system.ProcessTransaction id') w E), Hrow.
  - destruct (String.eqb id' id) eqn:E.
    + apply String.eqb_eq in E. subst id'. cbn [system.run].
      now rewrite (RetryFailedTransaction_not_failed id o uc w t Hrow Nf).
    + apply String.eqb_neq in E.
      apply (run_keeps_other_row id (system.RetryFailedTransaction id') w E),
        Hrow.
  - destruct (String.eqb id' id) eqn:E.
    + apply String.eqb_eq in E. subst id'. cbn [system.run].
      now rewrite (CancelTransaction_not_pending id o uc w t Hrow Np).
    + apply String.eqb_neq in E.
      apply (run_keeps_other_row id (system.CancelTransaction id') w E), Hrow.
  - apply negb_true_iff, String.eqb_neq in Hop.
    apply (run_keeps_other_row id (system.RefundTransaction id') w Hop), Hrow.
  - destruct (String.eqb id' id) eqn:E.
    + apply String.eqb_eq in E. subst id'. cbn [negb orb] in Hop.
      cbn [system.run].
      rewrite (RetryTransaction_not_retryable id o w t Hrow c Nf);
        [exact Hrow|].
      rewrite Hs. intros ->. discriminate.
    + apply String.eqb_neq in E.
      apply (run_keeps_other_row id (system.RetryTransaction id' c) w E), Hrow.
Qed.

End Operations.

(** C2, as the code has it. Once the status of a transaction is SUCCESS,
    REFUND or TIMEOUT, no sequence of CreateTransaction, ProcessTransaction,
    RetryFailedTransaction, CancelTransaction, RefundTransaction and
    RetryTransaction changes it (nor anything else in its row), provided
    that no RefundTransaction is aimed at it and that, while it is in
    TIMEOUT, no RetryTransaction is: the retry controller takes FAILED and
    TIMEOUT transactions alike. *)
Theorem C2_terminal_status_is_kept :
  forall (o : Oracle) (uc : Wiring) (ops : list system.operation)
         (id : string) (s : domain.status) (w : World),
    system.status_of w id = Some s ->
    system.terminal s = true ->
    forallb (system.spares id s) ops = true ->
    system.status_of (system.run_all o uc ops w) id = Some s
    /\ system.row_of (system.run_all o uc ops w) id = system.row_of w id.
Proof.
  intros o uc ops id s. induction ops as [|op ops IH]; intros w Hs Ht Hops.
  - split; [exact Hs|reflexivity].
  - cbn [forallb] in Hops. apply andb_true_iff in Hops as [Hop Hops].
    unfold system.status_of in Hs.
    destruct (system.row_of w id) as [t|] eqn:Hrow; [|discriminate].
    cbn [option_map] in Hs. injection Hs as Hs.
    pose proof (run_keeps_terminal_row o uc id s op w t Hrow Hs Ht Hop) as K.
    cbn [system.run_all fold_left].
    fold (system.run_all o uc ops (system.run o uc op w)).
    destruct (IH (system.run o uc op w)) as [I1 I2]; [|exact Ht|exact Hops|].
    + unfold system.status_of. rewrite K. cbn. now rewrite Hs.
    + split; [exact I1|]. now rewrite I2, K.
Qed.

(** C2 at the transaction of the TIMEOUT world, under every operation but
    the two the statement leaves out. *)
Lemma C2_terminal_status_witness :
  system.status_of
    (system.run_all scenario.oracle0 scenario.wiring
       [system.ProcessTransaction "T1"; system.RetryFailedTransaction "T1";
        system.CancelTransaction "T1"; system.RetryTransaction "T2" None;
        system.CreateTransaction "U1" "T10" "0812-3456-789"]
       scenario.timeout_world) "T1"
  = Some domain.StatusTimeout.
Proof.
  apply (C2_terminal_status_is_kept scenario.oracle0 scenario.wiring
           [system.ProcessTransaction "T1"; system.RetryFailedTransaction "T1";
            system.CancelTransaction "T1"; system.RetryTransaction "T2" None;
            system.CreateTransaction "U1" "T10" "0812-3456-789"]
           "T1" domain.StatusTimeout scenario.timeout_world);
    reflexivity.
Defined.

(* ================================================================== *)
(** ** The ledger under the retry controller *)

Section Ledger.
Import domain postgres footprint.

Lemma keeps_ledger_Update (t : Transaction.t) (w : World) :
  keeps_ledger w (snd (transactionRepository.Update t w)).
Proof.
  unfold transactionRepository.Update. run_monad.
  destruct (_ =? _)%nat; split; reflexivity.
Qed.

(** The retry controller never writes a mutation nor a balance. *)
Lemma RetryTransaction_keeps_ledger (o : Oracle) (id : string)
    (config : option retry.RetryConfig) (w : World) :
  keeps_ledger w (snd (retry.RetryTransaction o id config w)).
Proof.
  apply (respects_RetryTransaction keeps_ledger) with
    (writable := fun _ => True); try exact I.
  - intros w0. split; reflexivity.
  - intros w1 w2 w3 [A1 A2] [B1 B2]. split; congruence.
  - intros n w0. split; reflexivity.
  - intros c w0. split; reflexivity.
  - intros l w0. split; reflexivity.
  - intros l w0. split; reflexivity.
  - intros t w0 _. apply keeps_ledger_Update.
Qed.

End Ledger.

(** C1 on the code. Whatever the world, the retry controller writes no
    mutation and no balance: its refund only marks the row. At the failing
    input, user U1 has 50 000 and both suppliers refuse or time out:
    ProcessTransaction debits 10 000, the retry controller exhausts its
    attempts, and the transaction ends in REFUND with one credit mutation
    of 10 000, no debit mutation, and a balance of 40 000. *)
Theorem C1_refund_leaves_no_ledger_entry :
  (forall (o : Oracle) (id : string) (config : option retry.RetryConfig)
          (w : World),
     mutations (snd (retry.RetryTransaction o id config w)) = mutations w
     /\ users (snd (retry.RetryTransaction o id config w)) = users w)
  /\
  let w := scenario.slow_world in
  let run :=
    transaction_uc.ProcessTransaction scenario.oracle0 scenario.wiring "T1" w in
  let w' := snd run in
  fst run = Ok tt
  /\ system.status_of w' "T1" = Some domain.StatusRefund
  /\ system.attempted (log w') = ["S1"; "S2"]
  /\ map (fun m => F64.to_int (domain.Mutation.Amount m))
       (system.mutations_of w' domain.MutationTypeCredit "T1") = [10000]
  /\ system.mutations_of w' domain.MutationTypeDebit "T1" = []
  /\ map (fun u => F64.to_int (domain.User.Balance u)) (users w') = [40000].
Proof.
  split; [intros o id config w; apply RetryTransaction_keeps_ledger|].
  vm_compute. repeat split; reflexivity.
Qed.


(* ================================================================== *)
(** ** The backoff of the retry controller *)

Section Backoff.
Import domain postgres footprint.















End Backoff.






(* ================================================================== *)
(** * Further properties *)

(** ** pkg/utils *)

Section Slices.
Import utils_go.

Lemma remove_loop_result (l : list string) :
  forall keys result,
    remove_loop keys result l = (result ++ remove_loop keys [] l)%list.
Proof.
  induction l as [|x l IH]; intros keys result; cbn [remove_loop].
  - now rewrite app_nil_r.
  - destruct (negb (keys_get keys x)).
    + rewrite (IH _ (result ++ [x])%list), (IH _ ([] ++ [x])%list).
      now rewrite <- app_assoc.
    + apply IH.
Qed.

Lemma remove_loop_filter (l : list string) :
  forall k1 k2 kk,
    (forall y, keys_get kk y = keys_get k1 y || keys_get k2 y) ->
    remove_loop k1 [] (filter (fun y => negb (keys_get k2 y)) l)
    = remove_loop kk [] l.
Proof.
  induction l as [|x l IH]; intros k1 k2 kk H; [reflexivity|].
  cbn [filter remove_loop]. rewrite (H x).
  destruct (keys_get k2 x) eqn:E2; cbn [negb].
  - rewrite orb_true_r. cbn [negb]. now apply IH.
  - rewrite orb_false_r. cbn [remove_loop].
    destruct (keys_get k1 x) eqn:E1; cbn [negb]; [now apply IH|].
    rewrite (remove_loop_result _ _ ([] ++ [x])%list).
    rewrite (remove_loop_result l _ ([] ++ [x])%list).
    f_equal. apply IH. intros y. cbn [keys_get]. rewrite H.
    now destruct (String.eqb x y).
Qed.

Lemma RemoveDuplicate_cons (x : string) (l : list string) :
  RemoveDuplicate (x :: l)
  = x :: RemoveDuplicate (filter (fun y => negb (String.eqb x y)) l).
Proof.
  unfold RemoveDuplicate. cbn [remove_loop keys_get negb].
  rewrite remove_loop_result. cbn [app]. f_equal.
  symmetry.
  rewrite <- (remove_loop_filter l [] [(x, true)] [(x, true)]).
  - f_equal. apply filter_ext. intros y. cbn [keys_get].
    now destruct (String.eqb x y).
  - intros y. reflexivity.
Qed.

Lemma filter_length_le {A : Type} (p : A -> bool) (l : list A) :
  (List.length (filter p l) <= List.length l)%nat.
Proof.
  induction l as [|a l IH]; cbn; [lia|]. destruct (p a); cbn; lia.
Qed.

Lemma RemoveDuplicate_In (n : nat) :
  forall l x, (List.length l <= n)%nat ->
    In x (RemoveDuplicate l) <-> In x l.
Proof.
  induction n as [|n IH]; intros [|a l] x Hl; cbn in Hl; try lia;
    try (unfold RemoveDuplicate; cbn; tauto).
  rewrite RemoveDuplicate_cons. cbn [In].
  rewrite IH by (pose proof (filter_length_le
                               (fun y => negb (String.eqb a y)) l); lia).
  rewrite filter_In, negb_true_iff, String.eqb_neq.
  destruct (String.eqb_spec a x); intuition congruence.
Qed.

Lemma RemoveDuplicate_NoDup (n : nat) :
  forall l, (List.length l <= n)%nat -> NoDup (RemoveDuplicate l).
Proof.
  induction n as [|n IH]; intros [|a l] Hl; cbn in Hl; try lia;
    try (unfold RemoveDuplicate; cbn; constructor).
  rewrite RemoveDuplicate_cons.
  pose proof (filter_length_le (fun y => negb (String.eqb a y)) l) as F.
  constructor; [|apply IH; lia].
  rewrite (RemoveDuplicate_In n) by lia.
  rewrite filter_In, negb_true_iff, String.eqb_neq. tauto.
Qed.

Lemma RemoveDuplicate_fixed (l : list string) :
  NoDup l -> RemoveDuplicate l = l.
Proof.
  induction 1 as [|a l Ha Hl IH]; [reflexivity|].
  rewrite RemoveDuplicate_cons. f_equal.
  rewrite <- IH at 2. f_equal.
  rewrite forallb_filter_id; [reflexivity|].
  apply forallb_forall. intros y Hy.
  apply negb_true_iff, String.eqb_neq. congruence.
Qed.

Lemma Contains_In (l : list string) (x : string) :
  Contains l x = true <-> In x l.
Proof.
  induction l as [|a l IH]; cbn; [intuition discriminate|].
  destruct (String.eqb_spec a x); [tauto|].
  rewrite IH. intuition congruence.
Qed.

End Slices.

(** X1. RemoveDuplicate keeps the first occurrence of every string, in the
    order of the slice: its result starts with the head of the slice and
    goes on with the result for the rest of the slice without that head.
    The result has no duplicates, holds exactly the strings of the slice
    (so Contains answers the same on both), and is the slice itself exactly
    when the slice has no duplicates; applying the function twice changes
    nothing more. *)
Theorem X1_RemoveDuplicate_keeps_first_occurrences :
  forall l : list string,
    NoDup (utils_go.RemoveDuplicate l)
    /\ (forall x, In x (utils_go.RemoveDuplicate l) <-> In x l)
    /\ (forall x, utils_go.Contains (utils_go.RemoveDuplicate l) x
                  = utils_go.Contains l x)
    /\ (forall x, utils_go.RemoveDuplicate (x :: l)
                  = x :: utils_go.RemoveDuplicate
                           (filter (fun y => negb (String.eqb x y)) l))
    /\ (utils_go.RemoveDuplicate l = l <-> NoDup l)
    /\ utils_go.RemoveDuplicate (utils_go.RemoveDuplicate l)
       = utils_go.RemoveDuplicate l.
Proof.
  intros l.
  assert (N : NoDup (utils_go.RemoveDuplicate l))
    by (apply (RemoveDuplicate_NoDup (List.length l)); lia).
  assert (I : forall x, In x (utils_go.RemoveDuplicate l) <-> In x l)
    by (intros x; apply (RemoveDuplicate_In (List.length l)); lia).
  split; [exact N|]. split; [exact I|]. split.
  { intros x.
    destruct (utils_go.Contains l x) eqn:E.
    - apply Contains_In. apply I. now apply Contains_In.
    - destruct (utils_go.Contains (utils_go.RemoveDuplicate l) x) eqn:E';
        [|reflexivity].
      apply Contains_In, I, Contains_In in E'. congruence. }
  split; [intros x; apply RemoveDuplicate_cons|].
  split; [|now apply RemoveDuplicate_fixed].
  split; [intros E; now rewrite <- E|apply RemoveDuplicate_fixed].
Qed.

Section Strings.
Import utils_go.

Lemma length_append (a b : string) :
  String.length (a ++ b) = (String.length a + String.length b)%nat.
Proof.
  induction a as [|c a IH]; cbn; [reflexivity|]. now rewrite IH.
Qed.

Lemma length_substring (n : nat) :
  forall s, (n <= String.length s)%nat ->
    String.length (substring 0 n s) = n.
Proof.
  induction n as [|n IH]; intros [|c s] H; cbn in *; try reflexivity;
    try lia.
  rewrite IH; [reflexivity|lia].
Qed.

Lemma string_app_assoc (a b c : string) :
  ((a ++ b) ++ c)%string = (a ++ b ++ c)%string.
Proof.
  induction a as [|x a IH]; [reflexivity|]. cbn [append]. now rewrite IH.
Qed.

Lemma substring_drop (n : nat) :
  forall s, (substring 0 n s ++ utils.drop n s)%string = s.
Proof.
  induction n as [|n IH]; intros [|c s]; cbn; try reflexivity.
  now rewrite IH.
Qed.

End Strings.

(** X2. TruncateString returns the string itself when it has at most
    [length] bytes. Otherwise it panics when [length] is negative (which is
    then always the case), and for 0 <= length < len(s) it returns the first
    [length] bytes followed by three dots: the result has length + 3 bytes,
    which is more than the input had when fewer than three bytes were cut. *)
Theorem X2_TruncateString_length :
  forall (s : string) (length : Z),
    (utils_go.TruncateString s length = None <-> length < 0)
    /\ (Z.of_nat (String.length s) <= length ->
        utils_go.TruncateString s length = Some s)
    /\ (0 <= length < Z.of_nat (String.length s) ->
        exists head,
          utils_go.TruncateString s length = Some (head ++ "...")%string
          /\ Z.of_nat (String.length head) = length
          /\ (head ++ utils.drop (Z.to_nat length) s)%string = s
          /\ Z.of_nat (String.length (head ++ "...")) = length + 3
          /\ (Z.of_nat (String.length s) < length + 3 ->
              (String.length s < String.length (head ++ "..."))%nat)).
Proof.
  intros s n. unfold utils_go.TruncateString.
  split; [|split].
  - destruct (Z.of_nat (String.length s) <=? n) eqn:E.
    + apply Z.leb_le in E. split; [discriminate|lia].
    + destruct (n <? 0) eqn:F.
      * apply Z.ltb_lt in F. tauto.
      * apply Z.ltb_ge in F. split; [discriminate|lia].
  - intros H. apply Z.leb_le in H. now rewrite H.
  - intros [H0 H1].
    replace (Z.of_nat (String.length s) <=? n) with false
      by (symmetry; apply Z.leb_gt; lia).
    replace (n <? 0) with false by (symmetry; apply Z.ltb_ge; lia).
    exists (substring 0 (Z.to_nat n) s).
    assert (L : String.length (substring 0 (Z.to_nat n) s) = Z.to_nat n)
      by (apply length_substring; lia).
    split; [reflexivity|]. split; [rewrite L; lia|].
    split; [apply substring_drop|].
    rewrite length_append, L. cbn [String.length]. split; lia.
Qed.

Lemma X2_TruncateString_witness :
  exists head,
    utils_go.TruncateString "abcd" 3 = Some (head ++ "...")%string
    /\ Z.of_nat (String.length head) = 3
    /\ (String.length "abcd" < String.length (head ++ "..."))%nat.
Proof.
  destruct (proj2 (proj2 (X2_TruncateString_length "abcd" 3)))
    as [head [E [L [_ [_ G]]]]]; [cbn; lia|].
  exists head. split; [exact E|]. split; [exact L|].
  apply G. cbn. lia.
Defined.

(** X3. HashPassword only prefixes the password: VerifyPassword accepts a
    hash exactly when it is the hash of that password, two passwords have
    the same hash only when they are equal, and the password is read back
    from its hash by dropping the first seven bytes. *)
Theorem X3_password_hash_round_trip :
  forall password other hash : string,
    (utils_go.VerifyPassword password hash = true
     <-> hash = utils_go.HashPassword password)
    /\ (utils_go.VerifyPassword password (utils_go.HashPassword other) = true
        <-> password = other)
    /\ utils.drop 7 (utils_go.HashPassword password) = password.
Proof.
  intros p q h. unfold utils_go.VerifyPassword, utils_go.HashPassword.
  split; [apply String.eqb_eq|]. split; [|reflexivity].
  rewrite String.eqb_eq. cbn. split; [intros E; now injection E|now intros ->].
Qed.

Section Random.
Import utils_go.

Lemma charset_alphanumeric :
  forallb (fun n => is_alphanumeric (charset_at n)) (seq 0 62) = true.
Proof.
  vm_compute. reflexivity.
Qed.

Lemma charset_at_alphanumeric (n : nat) :
  is_alphanumeric (charset_at n) = true.
Proof.
  assert (E : charset_at n = charset_at (n mod 62)).
  { unfold charset_at. change (String.length utils.charset) with 62%nat.
    now rewrite Nat.Div0.mod_mod. }
  rewrite E.
  pose proof charset_alphanumeric as F. rewrite forallb_forall in F.
  apply F, in_seq. pose proof (Nat.mod_upper_bound n 62). lia.
Qed.

Lemma fill_spec (o : Oracle) (n : nat) :
  forall w,
    String.length (fst (fill o n w)) = n
    /\ every is_alphanumeric (fst (fill o n w)) = true
    /\ snd (fill o n w) = set_cursor (cursor w + n)%nat w.
Proof.
  induction n as [|n IH]; intros w; cbn [fill].
  - unfold ret. cbn [fst snd String.length every].
    split; [reflexivity|]. split; [reflexivity|].
    rewrite Nat.add_0_r. now destruct w.
  - run_monad.
    destruct (IH (set_cursor (S (cursor w)) w)) as [L [A C]].
    destruct (fill o n (set_cursor (S (cursor w)) w)) as [rest w1].
    cbn [fst snd] in *. subst w1. cbn [String.length every].
    rewrite L, A, charset_at_alphanumeric.
    split; [reflexivity|]. split; [reflexivity|].
    destruct w; unfold set_cursor; cbn. f_equal. lia.
Qed.

End Random.

(** X4. GenerateRandomString panics on a negative length and otherwise
    returns a string of exactly [length] bytes, all of them letters or
    digits, consuming [length] random draws and nothing else; an API key is
    such a string of 32 bytes. *)
Theorem X4_GenerateRandomString_alphabet :
  forall (o : Oracle) (length : Z) (w : World),
    (length < 0 ->
     utils_go.GenerateRandomString o length w = (None, w))
    /\ (0 <= length ->
        exists s,
          utils_go.GenerateRandomString o length w
          = (Some s, set_cursor (cursor w + Z.to_nat length)%nat w)
          /\ Z.of_nat (String.length s) = length
          /\ utils_go.every utils_go.is_alphanumeric s = true)
    /\ (exists key,
          fst (utils_go.GenerateAPIKey o w) = Some key
          /\ String.length key = 32%nat
          /\ utils_go.every utils_go.is_alphanumeric key = true).
Proof.
  intros o n w.
  assert (G : forall m, 0 <= m ->
            exists s,
              utils_go.GenerateRandomString o m w
              = (Some s, set_cursor (cursor w + Z.to_nat m)%nat w)
              /\ Z.of_nat (String.length s) = m
              /\ utils_go.every utils_go.is_alphanumeric s = true).
  { intros m H. unfold utils_go.GenerateRandomString.
    replace (m <? 0) with false by (symmetry; apply Z.ltb_ge; lia).
    run_monad.
    destruct (fill_spec o (Z.to_nat m) w) as [L [A C]].
    destruct (utils_go.fill o (Z.to_nat m) w) as [s w1]. cbn [fst snd] in *.
    exists s. subst w1. repeat split; [lia|exact A]. }
  split; [|split].
  - intros H. unfold utils_go.GenerateRandomString.
    apply Z.ltb_lt in H. now rewrite H.
  - apply G.
  - destruct (G 32 ltac:(lia)) as [s [E [L A]]].
    exists s. unfold utils_go.GenerateAPIKey. rewrite E.
    repeat split; [lia|exact A].
Qed.

Lemma X4_GenerateRandomString_witness :
  exists s,
    utils_go.GenerateRandomString scenario.oracle0 5 scenario.slow_world
    = (Some s,
       set_cursor (cursor scenario.slow_world + 5)%nat scenario.slow_world)
    /\ Z.of_nat (String.length s) = 5
    /\ utils_go.every utils_go.is_alphanumeric s = true.
Proof.
  apply (proj1 (proj2 (X4_GenerateRandomString_alphabet scenario.oracle0 5
                         scenario.slow_world))).
  lia.
Defined.

Section Sanitize.
Import utils_go.

Lemma Contains_char (c a : ascii) (r : string) :
  strings.Contains (String a r) (String c EmptyString)
  = Ascii.eqb c a || strings.Contains r (String c EmptyString).
Proof.
  cbn [strings.Contains utils.HasPrefix]. now rewrite andb_true_r.
Qed.

Lemma Contains_char_append (c : ascii) (a b : string) :
  strings.Contains (a ++ b) (String c EmptyString)
  = strings.Contains a (String c EmptyString)
    || strings.Contains b (String c EmptyString).
Proof.
  induction a as [|x a IH].
  - cbn [append]. cbn [strings.Contains utils.HasPrefix]. reflexivity.
  - cbn [append]. rewrite !Contains_char, IH. now rewrite orb_assoc.
Qed.

Lemma replace_char_removed (c : ascii) (s : string) :
  strings.Contains (strings.ReplaceAll s (String c EmptyString) "")
    (String c EmptyString) = false.
Proof.
  unfold strings.ReplaceAll.
  induction s as [|a r IH]; [reflexivity|].
  cbn [strings.replace_from utils.HasPrefix String.length Nat.sub].
  rewrite andb_true_r.
  destruct (Ascii.eqb c a) eqn:E; [exact IH|].
  now rewrite Contains_char, E, IH.
Qed.

Lemma replace_keeps_absent (c : ascii) (old : string) (s : string) :
  forall k,
    strings.Contains s (String c EmptyString) = false ->
    strings.Contains (strings.replace_from k old "" s) (String c EmptyString)
    = false.
Proof.
  induction s as [|a r IH]; intros k H; [reflexivity|].
  rewrite Contains_char in H. apply orb_false_iff in H as [H1 H2].
  cbn [strings.replace_from]. destruct k as [|k]; [|now apply IH].
  destruct (utils.HasPrefix (String a r) old).
  - cbn [append]. now apply IH.
  - rewrite Contains_char, H1. now apply IH.
Qed.

Lemma dashes_step (c : ascii) (r : string) :
  strings.replace_from 0 "--" "" (String c r)
  = if Ascii.eqb "-" c && utils.HasPrefix r "-"
    then match r with
         | EmptyString => EmptyString
         | String _ r' => strings.replace_from 0 "--" "" r'
         end
    else String c (strings.replace_from 0 "--" "" r).
Proof.
  cbn [strings.replace_from utils.HasPrefix String.length Nat.sub].
  destruct (Ascii.eqb "-" c); cbn [andb]; [|reflexivity].
  destruct r as [|b r']; [reflexivity|].
  cbn [utils.HasPrefix]. rewrite andb_true_r.
  destruct (Ascii.eqb "-" b); reflexivity.
Qed.

Lemma dashes_removed (n : nat) :
  forall s, (String.length s <= n)%nat ->
    strings.Contains (strings.replace_from 0 "--" "" s) "--" = false
    /\ (utils.HasPrefix (strings.replace_from 0 "--" "" s) "-" = true ->
        utils.HasPrefix s "-" = true).
Proof.
  induction n as [|n IH]; intros [|c r] Hl; cbn [String.length] in Hl;
    try lia; try (split; [reflexivity|intros H; exact H]).
  rewrite dashes_step.
  destruct (Ascii.eqb "-" c) eqn:Ec; cbn [andb].
  - destruct (utils.HasPrefix r "-") eqn:Er.
    + destruct r as [|b r']; [discriminate|].
      cbn [String.length] in Hl.
      destruct (IH r' ltac:(lia)) as [I1 _].
      split; [exact I1|]. intros _. cbn [utils.HasPrefix]. now rewrite Ec.
    + destruct (IH r ltac:(lia)) as [I1 I2].
      split.
      * cbn [strings.Contains]. rewrite I1, orb_false_r.
        cbn [utils.HasPrefix]. rewrite Ec. cbn [andb].
        destruct (utils.HasPrefix (strings.replace_from 0 "--" "" r) "-")
          eqn:P; [|exact P].
        rewrite (I2 eq_refl) in Er. discriminate.
      * intros _. cbn [utils.HasPrefix]. now rewrite Ec.
  - destruct (IH r ltac:(lia)) as [I1 I2].
    split.
    + cbn [strings.Contains]. rewrite I1, orb_false_r.
      cbn [utils.HasPrefix]. now rewrite Ec.
    + cbn [utils.HasPrefix]. now rewrite Ec.
Qed.

Lemma replace_char_append (c : ascii) (new a b : string) :
  strings.ReplaceAll (a ++ b) (String c EmptyString) new
  = (strings.ReplaceAll a (String c EmptyString) new
     ++ strings.ReplaceAll b (String c EmptyString) new)%string.
Proof.
  unfold strings.ReplaceAll.
  induction a as [|x a IH]; [reflexivity|].
  cbn [append strings.replace_from utils.HasPrefix String.length Nat.sub].
  rewrite andb_true_r. destruct (Ascii.eqb c x).
  - rewrite IH. now rewrite string_app_assoc.
  - cbn [append]. now rewrite IH.
Qed.

Lemma replace_absent (c : ascii) (rest new s : string) :
  strings.Contains s (String c EmptyString) = false ->
  strings.ReplaceAll s (String c rest) new = s.
Proof.
  unfold strings.ReplaceAll.
  induction s as [|a r IH]; intros H; [reflexivity|].
  rewrite Contains_char in H. apply orb_false_iff in H as [H1 H2].
  cbn [strings.replace_from utils.HasPrefix]. rewrite H1. cbn [andb].
  now rewrite IH.
Qed.

Lemma replace_char_sandwich (c : ascii) (new a m b : string) :
  strings.Contains a (String c EmptyString) = false ->
  strings.Contains b (String c EmptyString) = false ->
  strings.ReplaceAll (a ++ m ++ b) (String c EmptyString) new
  = (a ++ strings.ReplaceAll m (String c EmptyString) new ++ b)%string.
Proof.
  intros Ha Hb. rewrite !replace_char_append.
  now rewrite (replace_absent c "" new a Ha), (replace_absent c "" new b Hb).
Qed.

Lemma plain_spec (s : string) :
  plain s = true ->
  strings.Contains s "'" = false /\ strings.Contains s dquote = false
  /\ strings.Contains s backslash = false /\ strings.Contains s ";" = false
  /\ strings.Contains s "-" = false.
Proof.
  unfold plain. rewrite !andb_true_iff, !negb_true_iff. tauto.
Qed.

End Sanitize.

(** X5. Whatever the input, the result of SanitizeString holds no semicolon
    and no two dashes in a row. *)
Theorem X5_SanitizeString_removes_separators :
  forall s : string,
    strings.Contains (utils_go.SanitizeString s) ";" = false
    /\ strings.Contains (utils_go.SanitizeString s) "--" = false.
Proof.
  intros s. unfold utils_go.SanitizeString. cbv zeta. split.
  - apply replace_keeps_absent, replace_char_removed.
  - unfold strings.ReplaceAll at 1.
    apply (dashes_removed
             (String.length
                (strings.ReplaceAll
                   (strings.ReplaceAll
                      (strings.ReplaceAll
                         (strings.ReplaceAll s "'" "''") utils_go.dquote
                         (utils_go.backslash ++ utils_go.dquote))
                      utils_go.backslash
                      (utils_go.backslash ++ utils_go.backslash)) ";" ""))).
    lia.
Qed.

(** X6. SanitizeString replaces the double quote by backslash-quote and then
    doubles every backslash, the one it has just written included: a double
    quote between two strings without special characters comes out preceded
    by two backslashes. *)
Theorem X6_SanitizeString_double_quote :
  forall a b : string,
    utils_go.plain a = true ->
    utils_go.plain b = true ->
    utils_go.SanitizeString (a ++ utils_go.dquote ++ b)
    = (a ++ utils_go.backslash ++ utils_go.backslash ++ utils_go.dquote
       ++ b)%string.
Proof.
  intros a b Ha Hb.
  apply plain_spec in Ha as [A1 [A2 [A3 [A4 A5]]]].
  apply plain_spec in Hb as [B1 [B2 [B3 [B4 B5]]]].
  unfold utils_go.SanitizeString. cbv zeta.
  unfold utils_go.dquote, utils_go.backslash in *.
  rewrite replace_char_sandwich by assumption.
  rewrite (replace_char_sandwich (ascii_of_nat 34)) by assumption.
  rewrite replace_char_sandwich by assumption.
  rewrite replace_char_sandwich by assumption.
  rewrite (replace_absent "-" "-" ""); [reflexivity|].
  rewrite !Contains_char_append, A5, B5. reflexivity.
Qed.

Lemma X6_SanitizeString_double_quote_witness :
  utils_go.SanitizeString ("say " ++ utils_go.dquote ++ "hi")
  = ("say " ++ utils_go.backslash ++ utils_go.backslash ++ utils_go.dquote
     ++ "hi")%string.
Proof.
  apply (X6_SanitizeString_double_quote "say " "hi"); reflexivity.
Defined.

Lemma keep_digits_fixed (s : string) :
  text.digits_only s = true -> utils.keep utils.is_digit s = s.
Proof.
  induction s as [|c r IH]; [reflexivity|]. cbn [text.digits_only utils.keep].
  intros H. apply andb_true_iff in H as [H1 H2]. now rewrite H1, IH.
Qed.

(** X7. Phone normalisation is idempotent: normalising a normalised number
    changes nothing, so validation gives the same answer on a number and on
    its normalised form (the form CreateTransaction stores). *)
Theorem X7_ParsePhoneNumber_idempotent :
  forall phone : string,
    utils.ParsePhoneNumber (utils.ParsePhoneNumber phone)
    = utils.ParsePhoneNumber phone
    /\ utils.ValidatePhoneNumber (utils.ParsePhoneNumber phone)
       = utils.ValidatePhoneNumber phone.
Proof.
  intros phone.
  assert (E : utils.ParsePhoneNumber (utils.ParsePhoneNumber phone)
              = utils.ParsePhoneNumber phone).
  { pose proof (Parse_digits_only phone) as D.
    unfold utils.ParsePhoneNumber at 1.
    rewrite (keep_digits_fixed _ D).
    unfold utils.ParsePhoneNumber.
    destruct (utils.HasPrefix (utils.keep utils.is_digit phone) "0") eqn:P.
    - reflexivity.
    - now rewrite P. }
  split; [exact E|].
  unfold utils.ValidatePhoneNumber. now rewrite E.
Qed.

(* ================================================================== *)
(** ** The repositories *)

Section Tables.
Import domain postgres.

Lemma update_where_none {A : Type} (p : A -> bool) (f : A -> A)
    (rows : list A) :
  rows_affected p rows = O -> update_where p f rows = rows.
Proof.
  unfold rows_affected, update_where.
  induction rows as [|r rows IH]; [reflexivity|]. cbn [filter map].
  destruct (p r); cbn [List.length]; [discriminate|].
  intros H. now rewrite IH.
Qed.

Lemma rows_affected_find {A : Type} (p : A -> bool) (rows : list A) :
  rows_affected p rows = O <-> find p rows = None.
Proof.
  unfold rows_affected.
  induction rows as [|r rows IH]; [tauto|]. cbn [filter find].
  destruct (p r); cbn [List.length]; [split; discriminate|exact IH].
Qed.

Lemma find_update_where_same (id : string)
    (f : Transaction.t -> Transaction.t) (rows : list Transaction.t) :
  (forall r, Transaction.ID (f r) = Transaction.ID r) ->
  find (transactionRepository.has_id id)
    (update_where (transactionRepository.has_id id) f rows)
  = option_map f (find (transactionRepository.has_id id) rows).
Proof.
  intros Hf. unfold update_where.
  assert (K : forall r, transactionRepository.has_id id (f r)
                        = transactionRepository.has_id id r)
    by (intros r; unfold transactionRepository.has_id; now rewrite Hf).
  induction rows as [|r rows IH]; [reflexivity|]. cbn [map find].
  destruct (transactionRepository.has_id id r) eqn:E.
  - now rewrite K, E.
  - rewrite E. exact IH.
Qed.

Lemma find_update_where_else (id id' : string)
    (f : Transaction.t -> Transaction.t) (rows : list Transaction.t) :
  id' <> id ->
  (forall r, Transaction.ID (f r) = Transaction.ID r) ->
  find (transactionRepository.has_id id)
    (update_where (transactionRepository.has_id id') f rows)
  = find (transactionRepository.has_id id) rows.
Proof.
  intros Hne Hf. unfold update_where.
  assert (K : forall r, transactionRepository.has_id id (f r)
                        = transactionRepository.has_id id r)
    by (intros r; unfold transactionRepository.has_id; now rewrite Hf).
  induction rows as [|r rows IH]; [reflexivity|]. cbn [map find].
  destruct (transactionRepository.has_id id' r) eqn:E.
  - rewrite K.
    assert (N : transactionRepository.has_id id r = false).
    { unfold transactionRepository.has_id in *. apply String.eqb_eq in E.
      apply String.eqb_neq. congruence. }
    rewrite N. exact IH.
  - destruct (transactionRepository.has_id id r); [reflexivity|exact IH].
Qed.

Lemma find_app_none {A : Type} (p : A -> bool) (l l' : list A) :
  find p l = None -> find p (l ++ l') = find p l'.
Proof.
  induction l as [|x l IH]; [reflexivity|]. cbn [find app].
  destruct (p x); [discriminate|exact IH].
Qed.

Lemma find_app_found {A : Type} (p : A -> bool) (l l' : list A) (a : A) :
  find p l = Some a -> find p (l ++ l') = Some a.
Proof.
  induction l as [|x l IH]; [discriminate|]. cbn [find app].
  destruct (p x); [tauto|exact IH].
Qed.

Lemma existsb_find_none {A : Type} (p q : A -> bool) (l : list A) :
  (forall x, q x = true -> p x = true) ->
  existsb p l = false -> find q l = None.
Proof.
  intros H. induction l as [|x l IH]; [reflexivity|]. cbn [existsb find].
  intros E. apply orb_false_iff in E as [E1 E2].
  destruct (q x) eqn:Q; [rewrite (H x Q) in E1; discriminate|now apply IH].
Qed.

Lemma Update_eq (t : Transaction.t) (w : World) :
  transactionRepository.Update t w
  = (if (rows_affected (transactionRepository.has_id (Transaction.ID t))
           (transactions w) =? 0)%nat
     then Err "transaction not found" else Ok tt,
     set_transactions
       (update_where (transactionRepository.has_id (Transaction.ID t))
          (transactionRepository.write_columns (clock w) t)
          (transactions w)) w).
Proof.
  unfold transactionRepository.Update. run_monad.
  now destruct (_ =? _)%nat.
Qed.

Lemma UpdateStatus_eq (id : string) (s : status) (w : World) :
  transactionRepository.UpdateStatus id s w
  = (if (rows_affected (transactionRepository.has_id id)
           (transactions w) =? 0)%nat
     then Err "transaction not found" else Ok tt,
     set_transactions
       (update_where (transactionRepository.has_id id)
          (fun r => Transaction.set_UpdatedAt (clock w)
                      (Transaction.set_Status s r))
          (transactions w)) w).
Proof.
  unfold transactionRepository.UpdateStatus. run_monad.
  now destruct (_ =? _)%nat.
Qed.

Lemma UpdateBalance_eq (id : string) (b : F64.t) (w : World) :
  userRepository.UpdateBalance id b w
  = (if (rows_affected (fun u => String.eqb (User.ID u) id) (users w)
         =? 0)%nat
     then Err "user not found" else Ok tt,
     set_users
       (update_where (fun u => String.eqb (User.ID u) id)
          (User.set_Balance b) (users w)) w).
Proof.
  unfold userRepository.UpdateBalance. run_monad.
  now destruct (_ =? _)%nat.
Qed.

Lemma affected_of_row (id : string) (w : World) (r : Transaction.t) :
  system.row_of w id = Some r ->
  (rows_affected (transactionRepository.has_id id) (transactions w)
   =? 0)%nat = false.
Proof.
  intros H. apply Nat.eqb_neq. intros Z.
  apply rows_affected_find in Z. unfold system.row_of in H. congruence.
Qed.

End Tables.

(** X8. The transaction table, Create then GetByID. Create refuses a
    transaction whose id or trx_code is already in the table and then
    changes nothing. Otherwise the new id can be read back, and what is read
    is the row as the INSERT builds it, not the struct that was passed: the
    identity, the destination and the status come from the struct, the
    attempt counter is 0, both timestamps are the time of the insert, and
    serial number, supplier message, supplier transaction id, final
    supplier, processed_at and completed_at are empty whatever the struct
    held. The rows already there are read back as before. *)
Theorem X8_transaction_create_then_read :
  forall (t : domain.Transaction.t) (w : World),
    let taken :=
      existsb (fun r =>
                 String.eqb (domain.Transaction.ID r) (domain.Transaction.ID t)
                 || String.eqb (domain.Transaction.TrxCode r)
                               (domain.Transaction.TrxCode t))
              (transactions w) in
    let w' := snd (postgres.transactionRepository.Create t w) in
    (taken = true ->
     postgres.transactionRepository.Create t w
     = (Err "failed to create transaction", w))
    /\ (taken = false ->
        fst (postgres.transactionRepository.Create t w) = Ok tt
        /\ (exists row,
              postgres.transactionRepository.GetByID
                (domain.Transaction.ID t) w' = (Ok row, w')
              /\ domain.Transaction.ID row = domain.Transaction.ID t
              /\ domain.Transaction.TrxCode row = domain.Transaction.TrxCode t
              /\ domain.Transaction.UserID row = domain.Transaction.UserID t
              /\ domain.Transaction.ProductID row
                 = domain.Transaction.ProductID t
              /\ domain.Transaction.SupplierID row
                 = domain.Transaction.SupplierID t
              /\ domain.Transaction.DestinationNumber row
                 = domain.Transaction.DestinationNumber t
              /\ domain.Transaction.ProductCode row
                 = domain.Transaction.ProductCode t
              /\ domain.Transaction.Status row = domain.Transaction.Status t
              /\ domain.Transaction.RoutingAttempts row = 0
              /\ domain.Transaction.SerialNumber row = None
              /\ domain.Transaction.SupplierMessage row = None
              /\ domain.Transaction.SupplierTrxID row = None
              /\ domain.Transaction.FinalSupplierID row = None
              /\ domain.Transaction.ProcessedAt row = None
              /\ domain.Transaction.CompletedAt row = None
              /\ domain.Transaction.CreatedAt row = clock w
              /\ domain.Transaction.UpdatedAt row = clock w)
        /\ forall id r,
             system.row_of w id = Some r -> system.row_of w' id = Some r).
Proof.
  intros t w taken w'. subst taken w'.
  unfold postgres.transactionRepository.Create. run_monad.
  split; intros E; rewrite E; [reflexivity|].
  cbn [fst snd]. split; [reflexivity|]. split.
  - eexists. split.
    + unfold postgres.transactionRepository.GetByID. run_monad.
      cbn [transactions set_transactions].
      rewrite find_app_none.
      * cbn [find]. unfold postgres.transactionRepository.has_id at 1.
        cbn [domain.Transaction.ID]. rewrite String.eqb_refl. reflexivity.
      * refine (existsb_find_none _ _ _ _ E).
        intros x H. unfold postgres.transactionRepository.has_id in H.
        now rewrite H.
    + cbn. repeat split.
  - intros id r H. unfold system.row_of in *.
    cbn [transactions set_transactions]. now apply find_app_found.
Qed.

Lemma X8_transaction_create_witness :
  fst (postgres.transactionRepository.Create
         (scenario.transaction "T9" domain.StatusPending 5)
         scenario.slow_world) = Ok tt
  /\ system.routing_attempts_of
       (snd (postgres.transactionRepository.Create
               (scenario.transaction "T9" domain.StatusPending 5)
               scenario.slow_world)) "T9" = Some 0.
Proof.
  destruct (X8_transaction_create_then_read
              (scenario.transaction "T9" domain.StatusPending 5)
              scenario.slow_world) as [_ H].
  destruct (H ltac:(vm_compute; reflexivity)) as [H1 _].
  split; [exact H1|]. vm_compute. reflexivity.
Defined.

(** X9. The UPDATE of transactionRepository.Update writes the mutable
    columns only. For a transaction that is not in the table it returns
    "transaction not found" and changes nothing. For every row of the
    table, the identity, the user, the product, the destination, the prices,
    the profit and created_at are the same after the call, whatever the
    struct passed holds; a row with another id is untouched, and the row
    with the id of the struct takes its supplier, status, serial number,
    supplier message, supplier transaction id, attempt counter, final
    supplier, processed_at and completed_at from the struct. *)
Theorem X9_transaction_update_keeps_identity :
  forall (t : domain.Transaction.t) (w : World),
    let w' := snd (postgres.transactionRepository.Update t w) in
    (system.row_of w (domain.Transaction.ID t) = None ->
     postgres.transactionRepository.Update t w
     = (Err "transaction not found", w))
    /\ (forall id r,
          system.row_of w id = Some r ->
          exists r',
            system.row_of w' id = Some r'
            /\ domain.Transaction.ID r' = domain.Transaction.ID r
            /\ domain.Transaction.TrxCode r' = domain.Transaction.TrxCode r
            /\ domain.Transaction.UserID r' = domain.Transaction.UserID r
            /\ domain.Transaction.ProductID r'
               = domain.Transaction.ProductID r
            /\ domain.Transaction.DestinationNumber r'
               = domain.Transaction.DestinationNumber r
            /\ domain.Transaction.ProductCode r'
               = domain.Transaction.ProductCode r
            /\ domain.Transaction.HPP r' = domain.Transaction.HPP r
            /\ domain.Transaction.SellingPrice r'
               = domain.Transaction.SellingPrice r
            /\ domain.Transaction.AdminFee r' = domain.Transaction.AdminFee r
            /\ domain.Transaction.Profit r' = domain.Transaction.Profit r
            /\ domain.Transaction.CreatedAt r'
               = domain.Transaction.CreatedAt r
            /\ (domain.Transaction.ID t <> id -> r' = r)
            /\ (domain.Transaction.ID t = id ->
                fst (postgres.transactionRepository.Update t w) = Ok tt
                /\ domain.Transaction.SupplierID r'
                   = domain.Transaction.SupplierID t
                /\ domain.Transaction.Status r' = domain.Transaction.Status t
                /\ domain.Transaction.SerialNumber r'
                   = domain.Transaction.SerialNumber t
                /\ domain.Transaction.SupplierMessage r'
                   = domain.Transaction.SupplierMessage t
                /\ domain.Transaction.SupplierTrxID r'
                   = domain.Transaction.SupplierTrxID t
                /\ domain.Transaction.RoutingAttempts r'
                   = domain.Transaction.RoutingAttempts t
                /\ domain.Transaction.FinalSupplierID r'
                   = domain.Transaction.FinalSupplierID t
                /\ domain.Transaction.ProcessedAt r'
                   = domain.Transaction.ProcessedAt t
                /\ domain.Transaction.CompletedAt r'
                   = domain.Transaction.CompletedAt t)).
Proof.
  intros t w w'. subst w'. rewrite Update_eq. cbn [fst snd].
  split.
  - intros N. unfold system.row_of in N.
    apply rows_affected_find in N. rewrite N. cbn [Nat.eqb].
    rewrite update_where_none by exact N. now destruct w.
  - intros id r H.
    destruct (String.eqb_spec (domain.Transaction.ID t) id) as [E|E].
    + exists (postgres.transactionRepository.write_columns (clock w) t r).
      split.
      * unfold system.row_of in *. cbn [transactions set_transactions].
        rewrite E. rewrite find_update_where_same by reflexivity.
        now rewrite H.
      * cbn. repeat split; try tauto.
        rewrite E. now rewrite (affected_of_row id w r H).
    + exists r. split.
      * unfold system.row_of in *. cbn [transactions set_transactions].
        now rewrite (find_update_where_else id _ _ _ E) by reflexivity.
      * repeat split; try tauto; try (intros; contradiction).
Qed.

Lemma X9_transaction_update_witness :
  postgres.transactionRepository.Update
    (scenario.transaction "T404" domain.StatusSuccess 0) scenario.slow_world
  = (Err "transaction not found", scenario.slow_world).
Proof.
  apply (proj1 (X9_transaction_update_keeps_identity
                  (scenario.transaction "T404" domain.StatusSuccess 0)
                  scenario.slow_world)).
  reflexivity.
Defined.

Section Queue.

Lemma enqueue_each_spec (ids : list string) :
  forall w,
    queue.enqueue_each ids w
    = (tt, set_transaction_queue (rev ids ++ transaction_queue w) w).
Proof.
  induction ids as [|id ids IH]; intros w.
  - cbn. now destruct w.
  - cbn [queue.enqueue_each]. unfold redis.EnqueueTransaction. run_monad.
    rewrite IH. cbn [transaction_queue set_transaction_queue rev].
    rewrite <- app_assoc. reflexivity.
Qed.

Lemma dequeue_times_spec (pending : list string) :
  forall w,
    transaction_queue w = rev pending ->
    queue.dequeue_times (List.length pending) w
    = (map Ok pending, set_transaction_queue [] w).
Proof.
  induction pending as [|id pending IH]; intros w H.
  - cbn. cbn in H. rewrite <- H. now destruct w.
  - cbn [List.length queue.dequeue_times].
    unfold redis.DequeueTransaction. run_monad.
    rewrite H, rev_involutive.
    rewrite (IH (set_transaction_queue (rev pending) w)) by reflexivity.
    reflexivity.
Qed.

End Queue.

(** X10. The transaction queue is first in, first out. On an empty queue
    DequeueTransaction returns the empty id without error and changes
    nothing. After any ids are enqueued behind a queue, dequeuing as many
    times as there are entries returns the entries that were waiting,
    oldest first, followed by the new ids in the order they were enqueued,
    each exactly once, and leaves the queue empty. *)
Theorem X10_queue_is_fifo :
  forall (ids : list string) (w : World),
    (transaction_queue w = [] -> redis.DequeueTransaction w = (Ok "", w))
    /\ (let w1 := snd (queue.enqueue_each ids w) in
        let n := (List.length (transaction_queue w) + List.length ids)%nat in
        fst (queue.dequeue_times n w1)
        = map Ok (rev (transaction_queue w) ++ ids)
        /\ transaction_queue (snd (queue.dequeue_times n w1)) = []).
Proof.
  intros ids w. split.
  - intros E. unfold redis.DequeueTransaction. run_monad. now rewrite E.
  - cbv zeta. rewrite enqueue_each_spec. cbn [snd].
    pose proof (dequeue_times_spec (rev (transaction_queue w) ++ ids)
                  (set_transaction_queue
                     (rev ids ++ transaction_queue w) w)) as D.
    rewrite length_app, length_rev in D.
    rewrite D; [split; reflexivity|].
    cbn [transaction_queue set_transaction_queue].
    now rewrite rev_app_distr, rev_involutive.
Qed.

Lemma X10_queue_witness :
  redis.DequeueTransaction scenario.slow_world = (Ok "", scenario.slow_world).
Proof.
  apply (proj1 (X10_queue_is_fifo [] scenario.slow_world)). reflexivity.
Defined.

(* ================================================================== *)
(** ** What every operation keeps *)

Section Closure.
Import domain postgres footprint.

Variable R : World -> World -> Prop.
Hypothesis R_refl : forall w, R w w.
Hypothesis R_trans : forall w1 w2 w3, R w1 w2 -> R w2 w3 -> R w1 w3.
Hypothesis R_cursor : forall n w, R w (set_cursor n w).
Hypothesis R_clock : forall c w, R w (set_clock c w).
Hypothesis R_log : forall l w, R w (set_log l w).
Hypothesis R_suppliers : forall l w, R w (set_suppliers l w).
Hypothesis R_users : forall l w, R w (set_users l w).
Hypothesis R_mutations : forall l w, R w (set_mutations l w).
Hypothesis R_Update :
  forall t w, R w (snd (transactionRepository.Update t w)).
Hypothesis R_UpdateStatus :
  forall id s w, R w (snd (transactionRepository.UpdateStatus id s w)).

Lemma closure_ProcessTransaction (o : Oracle) (uc : Wiring) (id : string)
    (w : World) :
  R w (snd (transaction_uc.ProcessTransaction o uc id w)).
Proof.
  apply (respects_ProcessTransaction R) with (writable := fun _ => True);
    auto.
Qed.

Lemma closure_RetryFailedTransaction (o : Oracle) (uc : Wiring)
    (id : string) (w : World) :
  R w (snd (transaction_uc.RetryFailedTransaction o uc id w)).
Proof.
  apply (respects_RetryFailedTransaction R) with (writable := fun _ => True);
    auto.
Qed.

Lemma closure_CancelTransaction (o : Oracle) (uc : Wiring) (id : string)
    (w : World) :
  R w (snd (transaction_uc.CancelTransaction o uc id w)).
Proof.
  apply (respects_CancelTransaction R) with (writable := fun _ => True);
    auto.
Qed.

Lemma closure_RefundTransaction (o : Oracle) (uc : Wiring) (id : string)
    (w : World) :
  R w (snd (transaction_uc.RefundTransaction o uc id w)).
Proof.
  apply (respects_RefundTransaction R) with (writable := fun _ => True);
    auto.
Qed.

Lemma closure_RetryTransaction (o : Oracle) (id : string)
    (config : option retry.RetryConfig) (w : World) :
  R w (snd (retry.RetryTransaction o id config w)).
Proof.
  apply (respects_RetryTransaction R) with (writable := fun _ => True);
    auto.
Qed.

Hypothesis R_queue : forall l w, R w (set_transaction_queue l w).
Hypothesis R_Create :
  forall t w, R w (snd (transactionRepository.Create t w)).

Lemma closure_run (o : Oracle) (uc : Wiring) (op : system.operation)
    (w : World) :
  R w (system.run o uc op w).
Proof.
  destruct op as [u p d|id|id|id|id|id c]; cbn [system.run].
  - apply (respects_CreateTransaction R); auto.
  - apply closure_ProcessTransaction.
  - apply closure_RetryFailedTransaction.
  - apply closure_CancelTransaction.
  - apply closure_RefundTransaction.
  - apply closure_RetryTransaction.
Qed.

Lemma closure_run_all (o : Oracle) (uc : Wiring)
    (ops : list system.operation) :
  forall w, R w (system.run_all o uc ops w).
Proof.
  induction ops as [|op ops IH]; intros w; [apply R_refl|].
  cbn [system.run_all fold_left].
  fold (system.run_all o uc ops (system.run o uc op w)).
  eapply R_trans; [apply closure_run|apply IH].
Qed.

End Closure.

Section Snapshots.
Import domain postgres invariant.

Lemma same_snapshot_refl (r : Transaction.t) : same_snapshot r r.
Proof. unfold same_snapshot. repeat split. Qed.

Lemma same_snapshot_trans (a b c : Transaction.t) :
  same_snapshot a b -> same_snapshot b c -> same_snapshot a c.
Proof. unfold same_snapshot. intuition congruence. Qed.

Lemma keeps_snapshots_same (w w' : World) :
  transactions w' = transactions w -> keeps_snapshots w w'.
Proof.
  intros E id r H. exists r. split; [|apply same_snapshot_refl].
  unfold system.row_of in *. now rewrite E.
Qed.

Lemma keeps_snapshots_trans (w1 w2 w3 : World) :
  keeps_snapshots w1 w2 -> keeps_snapshots w2 w3 -> keeps_snapshots w1 w3.
Proof.
  intros A B id r H. destruct (A id r H) as [r2 [H2 S2]].
  destruct (B id r2 H2) as [r3 [H3 S3]].
  exists r3. split; [exact H3|]. eapply same_snapshot_trans; eassumption.
Qed.

Lemma keeps_snapshots_update (id' : string)
    (f : Transaction.t -> Transaction.t) (w : World) :
  (forall r, same_snapshot r (f r)) ->
  keeps_snapshots w
    (set_transactions
       (update_where (transactionRepository.has_id id') f (transactions w))
       w).
Proof.
  intros Hf id r H. unfold system.row_of in *.
  cbn [transactions set_transactions].
  assert (Hid : forall x, Transaction.ID (f x) = Transaction.ID x)
    by (intros x; apply (Hf x)).
  destruct (String.eqb_spec id' id) as [E|E].
  - subst id'. rewrite find_update_where_same by exact Hid.
    rewrite H. exists (f r). split; [reflexivity|apply Hf].
  - rewrite (find_update_where_else id id' f _ E Hid).
    exists r. split; [exact H|apply same_snapshot_refl].
Qed.

Lemma keeps_snapshots_Update (t : Transaction.t) (w : World) :
  keeps_snapshots w (snd (transactionRepository.Update t w)).
Proof.
  rewrite Update_eq. cbn [snd]. apply keeps_snapshots_update.
  intros r. unfold same_snapshot. cbn. repeat split.
Qed.

Lemma keeps_snapshots_UpdateStatus (id : string) (s : status) (w : World) :
  keeps_snapshots w (snd (transactionRepository.UpdateStatus id s w)).
Proof.
  rewrite UpdateStatus_eq. cbn [snd]. apply keeps_snapshots_update.
  intros r. unfold same_snapshot. cbn. repeat split.
Qed.

Lemma keeps_snapshots_Create (t : Transaction.t) (w : World) :
  keeps_snapshots w (snd (transactionRepository.Create t w)).
Proof.
  unfold transactionRepository.Create. run_monad.
  destruct (existsb _ _); cbn [snd];
    [apply keeps_snapshots_same; reflexivity|].
  intros id r H. exists r. split; [|apply same_snapshot_refl].
  unfold system.row_of in *. cbn [transactions set_transactions].
  now apply find_app_found.
Qed.

End Snapshots.

(** X11. No sequence of operations (CreateTransaction, ProcessTransaction,
    RetryFailedTransaction, CancelTransaction, RefundTransaction, the retry
    controller's RetryTransaction), whatever the wiring and the outside
    world, removes a transaction or rewrites its snapshot: a transaction
    that could be read before can be read afterwards, and its id, trx_code,
    user, product, destination, product code, hpp, selling price, admin
    fee, profit and created_at are what they were. *)
Theorem X11_price_snapshot_is_immutable :
  forall (o : Oracle) (uc : Wiring) (ops : list system.operation)
         (w : World),
    invariant.keeps_snapshots w (system.run_all o uc ops w).
Proof.
  intros o uc ops w.
  apply (closure_run_all invariant.keeps_snapshots);
    try (intros; apply keeps_snapshots_same; reflexivity).
  - apply keeps_snapshots_trans.
  - apply keeps_snapshots_Update.
  - apply keeps_snapshots_UpdateStatus.
  - apply keeps_snapshots_Create.
Qed.

(** X12. The operations of the transaction use case and of the retry
    controller never write the catalogue: products and product mappings are
    the same after any sequence of them. Apart from CreateTransaction, none
    of them touches the transaction queue: processing, retrying, cancelling
    or refunding a transaction neither removes its id from the queue nor
    puts it back. *)
Theorem X12_catalogue_and_queue_are_kept :
  forall (o : Oracle) (uc : Wiring),
    (forall (ops : list system.operation) (w : World),
       invariant.keeps_catalogue w (system.run_all o uc ops w))
    /\ (forall (id : string) (config : option retry.RetryConfig) (w : World),
          invariant.keeps_queue w
            (system.run o uc (system.ProcessTransaction id) w)
          /\ invariant.keeps_queue w
               (system.run o uc (system.RetryFailedTransaction id) w)
          /\ invariant.keeps_queue w
               (system.run o uc (system.CancelTransaction id) w)
          /\ invariant.keeps_queue w
               (system.run o uc (system.RefundTransaction id) w)
          /\ invariant.keeps_queue w
               (system.run o uc (system.RetryTransaction id config) w)).
Proof.
  intros o uc. split.
  - intros ops w.
    apply (closure_run_all invariant.keeps_catalogue);
      try (intros; split; reflexivity).
    + intros w1 w2 w3 [A1 A2] [B1 B2]. split; congruence.
    + intros t w0. rewrite Update_eq. split; reflexivity.
    + intros id s w0. rewrite UpdateStatus_eq. split; reflexivity.
    + intros t w0. unfold postgres.transactionRepository.Create. run_monad.
      destruct (existsb _ _); split; reflexivity.
  - intros id config w. cbn [system.run].
    assert (T : forall w1 w2 w3,
              invariant.keeps_queue w1 w2 -> invariant.keeps_queue w2 w3 ->
              invariant.keeps_queue w1 w3)
      by (unfold invariant.keeps_queue; intros; congruence).
    assert (U : forall t w0,
              invariant.keeps_queue w0
                (snd (postgres.transactionRepository.Update t w0)))
      by (intros; rewrite Update_eq; reflexivity).
    assert (S : forall i s w0,
              invariant.keeps_queue w0
                (snd (postgres.transactionRepository.UpdateStatus i s w0)))
      by (intros; rewrite UpdateStatus_eq; reflexivity).
    repeat split.
    + apply (closure_ProcessTransaction invariant.keeps_queue);
        try (intros; reflexivity); assumption.
    + apply (closure_RetryFailedTransaction invariant.keeps_queue);
        try (intros; reflexivity); assumption.
    + apply (closure_CancelTransaction invariant.keeps_queue);
        try (intros; reflexivity); assumption.
    + apply (closure_RefundTransaction invariant.keeps_queue);
        try (intros; reflexivity); assumption.
    + apply (closure_RetryTransaction invariant.keeps_queue);
        try (intros; reflexivity); assumption.
Qed.

(* ================================================================== *)
(** ** The transaction use case *)

Section UseCase.
Import domain postgres.

Lemma GetByID_found (id : string) (w : World) (t : Transaction.t) :
  system.row_of w id = Some t ->
  transactionRepository.GetByID id w = (Ok t, w).
Proof.
  intros H. unfold transactionRepository.GetByID. run_monad.
  unfold system.row_of in H. now rewrite H.
Qed.

Lemma GetByID_missing (id : string) (w : World) :
  system.row_of w id = None ->
  transactionRepository.GetByID id w = (Err "transaction not found", w).
Proof.
  intros H. unfold transactionRepository.GetByID. run_monad.
  unfold system.row_of in H. now rewrite H.
Qed.

Lemma row_of_ID (id : string) (w : World) (t : Transaction.t) :
  system.row_of w id = Some t -> Transaction.ID t = id.
Proof.
  unfold system.row_of. intros H. apply find_some in H as [_ H].
  now apply String.eqb_eq in H.
Qed.

Lemma row_after_Update (t r : Transaction.t) (w : World) :
  system.row_of w (Transaction.ID t) = Some r ->
  transactionRepository.Update t w
  = (Ok tt,
     set_transactions
       (update_where (transactionRepository.has_id (Transaction.ID t))
          (transactionRepository.write_columns (clock w) t)
          (transactions w)) w)
  /\ system.row_of (snd (transactionRepository.Update t w))
       (Transaction.ID t)
     = Some (transactionRepository.write_columns (clock w) t r).
Proof.
  intros H. rewrite Update_eq, (affected_of_row _ _ _ H). cbn [snd].
  split; [reflexivity|].
  unfold system.row_of in *. cbn [transactions set_transactions].
  rewrite find_update_where_same by reflexivity. now rewrite H.
Qed.

Lemma row_after_UpdateStatus (id : string) (s : status) (r : Transaction.t)
    (w : World) :
  system.row_of w id = Some r ->
  transactionRepository.UpdateStatus id s w
  = (Ok tt,
     set_transactions
       (update_where (transactionRepository.has_id id)
          (fun r => Transaction.set_UpdatedAt (clock w)
                      (Transaction.set_Status s r))
          (transactions w)) w)
  /\ system.row_of (snd (transactionRepository.UpdateStatus id s w)) id
     = Some (Transaction.set_UpdatedAt (clock w)
               (Transaction.set_Status s r)).
Proof.
  intros H. rewrite UpdateStatus_eq, (affected_of_row _ _ _ H). cbn [snd].
  split; [reflexivity|].
  unfold system.row_of in *. cbn [transactions set_transactions].
  rewrite find_update_where_same by reflexivity. now rewrite H.
Qed.

Lemma CancelTransaction_eq (o : Oracle) (uc : Wiring) (id : string)
    (w : World) :
  transaction_uc.CancelTransaction o uc id w
  = match system.row_of w id with
    | None => (Err "transaction not found: transaction not found", w)
    | Some t =>
        if negb (status_eqb (Transaction.Status t) StatusPending)
        then (Err "cannot cancel transaction in this status", w)
        else
          (Ok tt,
           snd (transactionRepository.Update
                  (Transaction.set_SupplierMessage
                     (Some "Transaction cancelled by user")
                     (Transaction.set_Status StatusFailed t)) w))
    end.
Proof.
  unfold transaction_uc.CancelTransaction.
  destruct (system.row_of w id) as [t|] eqn:Hrow.
  - unfold bind at 1. rewrite (GetByID_found id w t Hrow).
    destruct (negb (status_eqb (Transaction.Status t) StatusPending));
      [reflexivity|].
    cbv zeta. unfold bind at 1.
    match goal with
    | |- context [transactionRepository.Update ?t1 w] =>
        destruct (row_after_Update t1 t w) as [U1 _];
          [cbn; rewrite (row_of_ID id w t Hrow); exact Hrow|]
    end.
    rewrite U1. reflexivity.
  - unfold bind at 1. rewrite (GetByID_missing id w Hrow). reflexivity.
Qed.

End UseCase.

(** X13. CancelTransaction succeeds exactly on a transaction that exists
    and is PENDING; in every other case it returns an error and changes
    nothing. On success the row is FAILED with the message "Transaction
    cancelled by user" and the attempt counter it had. The refund that
    follows in the source is never executed (the status it tests has just
    been set to FAILED): no balance and no mutation is written. A cancelled
    transaction passes the gate of RetryFailedTransaction as long as its
    counter is below 3, so a cancelled order can be sent again. *)
Theorem X13_CancelTransaction :
  forall (o : Oracle) (uc : Wiring) (id : string) (w : World),
    let run := transaction_uc.CancelTransaction o uc id w in
    users (snd run) = users w
    /\ mutations (snd run) = mutations w
    /\ (is_ok (fst run) = true <->
        exists t, system.row_of w id = Some t
                  /\ domain.Transaction.Status t = domain.StatusPending)
    /\ (is_ok (fst run) = false -> snd run = w)
    /\ (forall t,
          system.row_of w id = Some t ->
          domain.Transaction.Status t = domain.StatusPending ->
          exists t',
            system.row_of (snd run) id = Some t'
            /\ domain.Transaction.Status t' = domain.StatusFailed
            /\ domain.Transaction.SupplierMessage t'
               = Some "Transaction cancelled by user"
            /\ domain.Transaction.RoutingAttempts t'
               = domain.Transaction.RoutingAttempts t
            /\ domain.Transaction.CanRetry t'
               = (domain.Transaction.RoutingAttempts t <? 3)).
Proof.
  intros o uc id w. cbv zeta.
  rewrite CancelTransaction_eq.
  destruct (system.row_of w id) as [t|] eqn:Hrow.
  - pose proof (row_of_ID id w t Hrow) as Hid.
    destruct (domain.Transaction.Status t) eqn:Hs;
      cbn [negb domain.status_eqb fst snd is_ok];
      try (repeat split; try reflexivity; try discriminate;
           try (intros [t0 [E0 S0]]; injection E0 as <-; congruence);
           intros t0 E0 S0; injection E0 as <-; congruence).
    subst id.
    match goal with
    | |- context [postgres.transactionRepository.Update ?t1] =>
        destruct (row_after_Update t1 t w) as [U1 U2];
          [cbn; exact Hrow|]
    end.
    rewrite U1 in *. cbn [snd] in *.
    cbn [fst snd is_ok users mutations set_transactions].
    split; [reflexivity|]. split; [reflexivity|].
    split; [split; [intros _; exists t; split; [reflexivity|exact Hs]
                   |reflexivity]|].
    split; [discriminate|].
    intros t0 E0 _. injection E0 as <-.
    eexists. split; [exact U2|].
    cbn. unfold domain.Transaction.CanRetry. cbn. repeat split.
  - cbn [fst snd is_ok].
    repeat split; try reflexivity; try discriminate;
      try (intros [t0 [E0 _]]; discriminate).
Qed.

Lemma X13_CancelTransaction_witness :
  exists t',
    system.row_of
      (snd (transaction_uc.CancelTransaction scenario.oracle0
              scenario.wiring "T1" scenario.slow_world)) "T1" = Some t'
    /\ domain.Transaction.Status t' = domain.StatusFailed
    /\ domain.Transaction.CanRetry t' = true.
Proof.
  destruct (X13_CancelTransaction scenario.oracle0 scenario.wiring "T1"
              scenario.slow_world) as [_ [_ [_ [_ H]]]].
  destruct (H (scenario.transaction "T1" domain.StatusPending 0)
              eq_refl eq_refl) as [t' [H1 [H2 [_ [_ H3]]]]].
  exists t'. split; [exact H1|]. split; [exact H2|]. exact H3.
Defined.
(** Projections of worlds and rows after writes. *)
Ltac simp_world :=
  cbn [users products suppliers product_mappings transactions mutations
       transaction_queue log clock cursor set_users set_suppliers
       set_transactions set_mutations set_transaction_queue set_log set_clock
       set_cursor fst snd
       domain.Transaction.ID domain.Transaction.TrxCode
       domain.Transaction.UserID domain.Transaction.ProductID
       domain.Transaction.SupplierID domain.Transaction.DestinationNumber
       domain.Transaction.ProductCode domain.Transaction.HPP
       domain.Transaction.SellingPrice domain.Transaction.AdminFee
       domain.Transaction.Profit domain.Transaction.Status
       domain.Transaction.SerialNumber domain.Transaction.SupplierMessage
       domain.Transaction.SupplierTrxID domain.Transaction.RoutingAttempts
       domain.Transaction.FinalSupplierID domain.Transaction.CreatedAt
       domain.Transaction.UpdatedAt domain.Transaction.ProcessedAt
       domain.Transaction.CompletedAt domain.Transaction.Notes
       domain.Transaction.set_SupplierID domain.Transaction.set_Status
       domain.Transaction.set_SerialNumber
       domain.Transaction.set_SupplierMessage
       domain.Transaction.set_SupplierTrxID
       domain.Transaction.set_RoutingAttempts
       domain.Transaction.set_FinalSupplierID
       domain.Transaction.set_UpdatedAt domain.Transaction.set_ProcessedAt
       domain.Transaction.set_CompletedAt domain.Transaction.set_Notes
       postgres.transactionRepository.write_columns] in *.

Section Refund.
Import domain postgres.

Lemma user_GetByID_found (id : string) (w : World) (u : User.t) :
  find (fun u => String.eqb (User.ID u) id) (users w) = Some u ->
  userRepository.GetByID id w = (Ok u, w).
Proof.
  intros H. unfold userRepository.GetByID. run_monad. now rewrite H.
Qed.

Lemma user_GetByID_missing (id : string) (w : World) :
  find (fun u => String.eqb (User.ID u) id) (users w) = None ->
  userRepository.GetByID id w = (Err "user not found", w).
Proof.
  intros H. unfold userRepository.GetByID. run_monad. now rewrite H.
Qed.

Lemma createBalanceMutation_eq (o : Oracle) (uc : Wiring) (userID : string)
    (k : mutation_type) (amount before after : F64.t) (description : string)
    (referenceType referenceID : option string) (w : World) :
  mutationRepo uc = true ->
  existsb (fun r => String.eqb (Mutation.ID r) (uuid_draw o (cursor w)))
    (mutations w) = false ->
  transaction_uc.createBalanceMutation o uc userID k amount before after
    description referenceType referenceID w
  = (Ok tt,
     set_mutations
       (mutations w
        ++ [Mutation.Build (uuid_draw o (cursor w)) userID k amount before
              after referenceType referenceID description None None
              (clock w)])%list
       (set_cursor (S (cursor w)) w)).
Proof.
  intros Hm Hf. unfold transaction_uc.createBalanceMutation.
  rewrite Hm. cbn [negb]. unfold mutationRepository.Create. run_monad.
  cbn [mutations set_cursor clock Mutation.ID]. rewrite Hf. reflexivity.
Qed.

Lemma createBalanceMutation_off (o : Oracle) (uc : Wiring) (userID : string)
    (k : mutation_type) (amount before after : F64.t) (description : string)
    (referenceType referenceID : option string) (w : World) :
  mutationRepo uc = false ->
  transaction_uc.createBalanceMutation o uc userID k amount before after
    description referenceType referenceID w
  = (Err "mutation repository is not configured", w).
Proof.
  intros Hm. unfold transaction_uc.createBalanceMutation.
  now rewrite Hm.
Qed.

(** The world refundTransaction leaves. *)
Lemma refundTransaction_eq (o : Oracle) (uc : Wiring) (t : Transaction.t)
    (u : User.t) (w : World) :
  find (fun u => String.eqb (User.ID u) (Transaction.UserID t)) (users w)
  = Some u ->
  mutationRepo uc = true ->
  existsb (fun r => String.eqb (Mutation.ID r) (uuid_draw o (cursor w)))
    (mutations w) = false ->
  transaction_uc.refundTransaction o uc t w
  = (Ok tt,
     snd (transactionRepository.Update
            (Transaction.set_CompletedAt (Some (clock w))
               (Transaction.set_SupplierMessage
                  (Some "Transaction refunded due to failure")
                  (Transaction.set_Status StatusRefund t)))
            (set_users
               (update_where (fun x => String.eqb (User.ID x) (User.ID u))
                  (User.set_Balance
                     (F64.add (User.Balance u) (Transaction.SellingPrice t)))
                  (users w))
               (set_mutations
                  (mutations w
                   ++ [Mutation.Build (uuid_draw o (cursor w)) (User.ID u)
                         MutationTypeDebit (Transaction.SellingPrice t)
                         (User.Balance u)
                         (F64.add (User.Balance u)
                            (Transaction.SellingPrice t))
                         (Some ReferenceTypeTransaction)
                         (Some (Transaction.ID t))
                         ("Refund transaksi gagal " ++ Transaction.TrxCode t)
                         None None (clock w)])%list
                  (set_cursor (S (cursor w)) w))))).
Proof.
  intros Hu Hm Hf. unfold transaction_uc.refundTransaction.
  unfold bind at 1. rewrite (user_GetByID_found _ _ _ Hu).
  unfold bind at 1. rewrite createBalanceMutation_eq by assumption.
  cbv zeta. unfold bind at 1. rewrite UpdateBalance_eq.
  unfold bind at 1. unfold time_Now at 1. cbv beta iota.
  unfold bind at 1.
  cbn [clock set_users set_mutations set_cursor users].
  match goal with
  | |- (let (_, _) := ?X in _) = _ => destruct X as [r w'] eqn:E
  end.
  reflexivity.
Qed.
End Refund.

(** X14. RefundTransaction looks at no status: for any transaction that
    exists, whatever its status (also SUCCESS, or REFUND already), with the
    user on file and the mutation repository wired, it returns without
    error, having appended exactly one DEBIT mutation of the selling price
    that references the transaction, with balance_before the balance on
    file and balance_after that balance plus the selling price, having set
    the balance of the user to that sum, and having marked the row REFUND.
    Nothing else is written. Called twice, it pays twice. *)
Theorem X14_RefundTransaction_has_no_guard :
  forall (o : Oracle) (uc : Wiring) (id : string) (w : World)
         (t : domain.Transaction.t) (u : domain.User.t),
    system.row_of w id = Some t ->
    find (fun x => String.eqb (domain.User.ID x) (domain.Transaction.UserID t))
      (users w) = Some u ->
    mutationRepo uc = true ->
    existsb (fun r => String.eqb (domain.Mutation.ID r)
                        (uuid_draw o (cursor w))) (mutations w) = false ->
    let run := transaction_uc.RefundTransaction o uc id w in
    let paid :=
      F64.add (domain.User.Balance u) (domain.Transaction.SellingPrice t) in
    fst run = Ok tt
    /\ mutations (snd run)
       = (mutations w
          ++ [domain.Mutation.Build (uuid_draw o (cursor w))
                (domain.User.ID u) domain.MutationTypeDebit
                (domain.Transaction.SellingPrice t) (domain.User.Balance u)
                paid (Some domain.ReferenceTypeTransaction) (Some id)
                ("Refund transaksi gagal " ++ domain.Transaction.TrxCode t)
                None None (clock w)])%list
    /\ users (snd run)
       = postgres.update_where
           (fun x => String.eqb (domain.User.ID x) (domain.User.ID u))
           (domain.User.set_Balance paid) (users w)
    /\ (exists t',
          system.row_of (snd run) id = Some t'
          /\ domain.Transaction.Status t' = domain.StatusRefund
          /\ domain.Transaction.SupplierMessage t'
             = Some "Transaction refunded due to failure"
          /\ domain.Transaction.CompletedAt t' = Some (clock w)
          /\ invariant.same_snapshot t t')
    /\ products (snd run) = products w
    /\ product_mappings (snd run) = product_mappings w
    /\ suppliers (snd run) = suppliers w
    /\ transaction_queue (snd run) = transaction_queue w
    /\ clock (snd run) = clock w.
Proof.
  intros o uc id w t u Hrow Hu Hm Hf. cbv zeta.
  unfold transaction_uc.RefundTransaction. unfold bind.
  rewrite (GetByID_found id w t Hrow).
  rewrite (refundTransaction_eq o uc t u w Hu Hm Hf).
  pose proof (row_of_ID id w t Hrow) as Hid. subst id.
  match goal with
  | |- context [postgres.transactionRepository.Update ?t1 ?w1] =>
      destruct (row_after_Update t1 t w1) as [U1 U2]; [exact Hrow|];
      rewrite U1 in *
  end.
  cbn [fst snd] in *.
  split; [reflexivity|]. split; [reflexivity|]. split; [reflexivity|].
  split; [|repeat split].
  eexists. split; [exact U2|].
  cbn. unfold invariant.same_snapshot. cbn. repeat split.
Qed.


Lemma X14_RefundTransaction_witness :
  fst (transaction_uc.RefundTransaction scenario.oracle0 scenario.wiring "T1"
         cases.refunded_world) = Ok tt
  /\ List.length
       (mutations
          (snd (transaction_uc.RefundTransaction scenario.oracle0
                  scenario.wiring "T1" cases.refunded_world))) = 1%nat.
Proof.
  destruct (X14_RefundTransaction_has_no_guard scenario.oracle0
              scenario.wiring "T1" cases.refunded_world
              (scenario.transaction "T1" domain.StatusRefund 1)
              (scenario.user 50000) eq_refl eq_refl eq_refl eq_refl)
    as [H1 [H2 _]].
  split; [exact H1|]. rewrite H2. reflexivity.
Defined.

Section Frame.
Import domain postgres.

Lemma healthy_suppliers_frame (ms : list ProductMapping.t) (w w' : World) :
  suppliers w' = suppliers w ->
  fst (smart_routing.healthy_suppliers ms w')
  = fst (smart_routing.healthy_suppliers ms w).
Proof.
  intros E. induction ms as [|m ms IH]; [reflexivity|].
  cbn [smart_routing.healthy_suppliers].
  unfold bind at 1 3. unfold supplierRepository.GetByID. run_monad.
  rewrite E.
  destruct (find _ (suppliers w)) as [s|]; [|exact IH].
  destruct (negb (Supplier.IsHealthy s)); [exact IH|].
  pose proof (healthy_suppliers_reads ms w) as R1.
  pose proof (healthy_suppliers_reads ms w') as R2.
  destruct (smart_routing.healthy_suppliers ms w) as [l1 w1].
  destruct (smart_routing.healthy_suppliers ms w') as [l2 w2].
  cbn [fst snd] in *. now rewrite IH.
Qed.

Lemma score_all_frame (o : Oracle) (sups : list Supplier.t)
    (ms : list ProductMapping.t) (c : smart_routing.RoutingCriteria) :
  forall w w',
    cursor w' = cursor w ->
    fst (smart_routing.score_all o sups ms c w')
    = fst (smart_routing.score_all o sups ms c w).
Proof.
  induction sups as [|s sups IH]; intros w w' E; [reflexivity|].
  cbn [smart_routing.score_all]. run_monad. rewrite E.
  specialize (IH (set_cursor (S (cursor w)) w) (set_cursor (S (cursor w)) w')
                 eq_refl).
  destruct (smart_routing.score_all o sups ms c (set_cursor (S (cursor w)) w)).
  destruct (smart_routing.score_all o sups ms c (set_cursor (S (cursor w)) w')).
  cbn [fst] in *. now rewrite IH.
Qed.

(** Routing reads the mappings, the suppliers and the cursor, and moves
    the cursor only. *)
Lemma GetBestSupplier_frame (o : Oracle) (productID : string)
    (criteria : option smart_routing.RoutingCriteria) (w w' : World) :
  product_mappings w' = product_mappings w ->
  suppliers w' = suppliers w ->
  cursor w' = cursor w ->
  smart_routing.GetBestSupplier o productID criteria w'
  = (fst (smart_routing.GetBestSupplier o productID criteria w),
     set_cursor
       (cursor (snd (smart_routing.GetBestSupplier o productID criteria w)))
       w').
Proof.
  intros Em Es Ec. unfold smart_routing.GetBestSupplier.
  unfold productMappingRepository.GetActiveMappings. run_monad.
  rewrite Em.
  set (mappings := productMappingRepository.order_by _).
  assert (Id : forall x : World, set_cursor (cursor x) x = x)
    by (now intros []).
  destruct (List.length mappings =? 0)%nat;
    [cbn [fst snd]; now rewrite <- Ec, Id|].
  pose proof (healthy_suppliers_frame mappings w w' Es) as F.
  pose proof (healthy_suppliers_reads mappings w) as R1.
  pose proof (healthy_suppliers_reads mappings w') as R2.
  destruct (smart_routing.healthy_suppliers mappings w) as [l1 w1].
  destruct (smart_routing.healthy_suppliers mappings w') as [l2 w2].
  cbn [fst snd] in *. subst l2 w1 w2.
  destruct (List.length l1 =? 0)%nat;
    [cbn [fst snd]; now rewrite <- Ec, Id|].
  set (crit := match criteria with Some c => c | None => _ end).
  pose proof (score_all_frame o l1 mappings crit w w' Ec) as G.
  destruct (score_all_spec o l1 mappings crit w) as [_ S1].
  destruct (score_all_spec o l1 mappings crit w') as [_ S2].
  destruct (smart_routing.score_all o l1 mappings crit w) as [sc1 x1].
  destruct (smart_routing.score_all o l1 mappings crit w') as [sc2 x2].
  cbn [fst snd] in *. subst sc2 x1 x2.
  destruct (sort.Slice smart_routing.less sc1);
    cbn [fst snd cursor set_cursor]; now rewrite Ec.
Qed.

Lemma selectSupplier_frame (o : Oracle) (uc : Wiring)
    (t t' : Transaction.t) (w w' : World) :
  Transaction.ProductID t' = Transaction.ProductID t ->
  product_mappings w' = product_mappings w ->
  suppliers w' = suppliers w ->
  cursor w' = cursor w ->
  transaction_uc.selectSupplier o uc t' w'
  = (fst (transaction_uc.selectSupplier o uc t w),
     set_cursor (cursor (snd (transaction_uc.selectSupplier o uc t w))) w').
Proof.
  intros Ep Em Es Ec. unfold transaction_uc.selectSupplier.
  assert (Id : forall x : World, set_cursor (cursor x) x = x)
    by (now intros []).
  destruct (negb (smartRoutingUC uc));
    [unfold ret; cbn [fst snd]; now rewrite <- Ec, Id|].
  unfold bind. rewrite Ep.
  rewrite (GetBestSupplier_frame o _ None w w' Em Es Ec).
  destruct (smart_routing.GetBestSupplier o (Transaction.ProductID t) None w)
    as [[r|e] x]; cbn [fst snd]; [|reflexivity].
  destruct (smart_routing.SelectedMapping r); reflexivity.
Qed.

End Frame.

Section Process.
Import domain postgres.

Variable o : Oracle.
Variable uc : Wiring.
Variable id : string.
Variable w : World.
Variable t : Transaction.t.
Hypothesis Hrow : system.row_of w id = Some t.
Hypothesis Hpending : Transaction.Status t = StatusPending.

(** The world once the row has been marked PROCESSING. *)
Let w1 : World :=
  set_transactions
    (update_where (transactionRepository.has_id id)
       (fun r => Transaction.set_UpdatedAt (clock w)
                   (Transaction.set_Status StatusProcessing r))
       (transactions w)) w.

Lemma processing_row :
  system.row_of w1 id
  = Some (Transaction.set_UpdatedAt (clock w)
            (Transaction.set_Status StatusProcessing t)).
Proof.
  destruct (row_after_UpdateStatus id StatusProcessing t w Hrow) as [E R].
  rewrite E in R. exact R.
Qed.

Lemma ProcessTransaction_user_missing :
  find (fun x => String.eqb (User.ID x) (Transaction.UserID t)) (users w)
  = None ->
  transaction_uc.ProcessTransaction o uc id w
  = (Err "failed to get user: user not found", w1).
Proof.
  intros Hu. unfold transaction_uc.ProcessTransaction.
  unfold bind at 1. rewrite (GetByID_found id w t Hrow).
  rewrite Hpending. cbn [negb status_eqb].
  unfold bind at 1. unfold time_Now at 1. cbv beta iota zeta.
  unfold bind at 1.
  rewrite (proj1 (row_after_UpdateStatus id StatusProcessing t w Hrow)).
  fold w1. unfold bind at 1.
  rewrite user_GetByID_missing by exact Hu. reflexivity.
Qed.

Ltac process_prefix :=
  unfold transaction_uc.ProcessTransaction;
  unfold bind at 1; rewrite (GetByID_found id w t Hrow);
  rewrite Hpending; cbn [negb status_eqb];
  unfold bind at 1; unfold time_Now at 1; cbv beta iota zeta;
  unfold bind at 1;
  rewrite (proj1 (row_after_UpdateStatus id StatusProcessing t w Hrow));
  fold w1; unfold bind at 1.

Variable u : User.t.
Hypothesis Huser :
  find (fun x => String.eqb (User.ID x) (Transaction.UserID t)) (users w)
  = Some u.

Lemma ProcessTransaction_cannot_pay :
  User.HasSufficientBalance u (Transaction.SellingPrice t) = false ->
  transaction_uc.ProcessTransaction o uc id w
  = (Err "insufficient balance",
     snd (transactionRepository.Update
            (Transaction.set_SupplierMessage (Some "Insufficient balance")
               (Transaction.set_Status StatusFailed
                  (Transaction.set_ProcessedAt (Some (clock w)) t))) w1)).
Proof.
  intros Hb. process_prefix.
  rewrite (user_GetByID_found _ w1 u) by exact Huser.
  cbn [Transaction.SellingPrice Transaction.set_ProcessedAt].
  rewrite Hb. cbn [negb]. cbv zeta. unfold bind at 1.
  match goal with
  | |- (let (_, _) := ?X in _) = _ => destruct X as [r x]
  end.
  reflexivity.
Qed.

Hypothesis Hpay :
  User.HasSufficientBalance u (Transaction.SellingPrice t) = true.

(** The world after routing has been asked. *)
Let w2 : World :=
  set_cursor (cursor (snd (transaction_uc.selectSupplier o uc t w))) w1.

Lemma select_at_w1 :
  transaction_uc.selectSupplier o uc
    (Transaction.set_ProcessedAt (Some (clock w)) t) w1
  = (fst (transaction_uc.selectSupplier o uc t w), w2).
Proof.
  apply selectSupplier_frame; reflexivity.
Qed.

Lemma ProcessTransaction_no_route (e : string) :
  fst (transaction_uc.selectSupplier o uc t w) = Err e ->
  transaction_uc.ProcessTransaction o uc id w
  = transaction_uc.handleSupplierFailure o uc
      (Transaction.set_ProcessedAt (Some (clock w)) t)
      ("routing error: " ++ e) w2.
Proof.
  intros Hsel. process_prefix.
  rewrite (user_GetByID_found _ w1 u) by exact Huser.
  cbn [Transaction.SellingPrice Transaction.set_ProcessedAt].
  rewrite Hpay. cbn [negb]. unfold bind at 1.
  rewrite select_at_w1, Hsel. reflexivity.
Qed.

Lemma ProcessTransaction_no_ledger (s : Supplier.t) (m : ProductMapping.t) :
  fst (transaction_uc.selectSupplier o uc t w) = Ok (s, m) ->
  mutationRepo uc = false ->
  transaction_uc.ProcessTransaction o uc id w
  = (Err ("failed to create balance mutation: "
          ++ "mutation repository is not configured"), w2).
Proof.
  intros Hsel Hm. process_prefix.
  rewrite (user_GetByID_found _ w1 u) by exact Huser.
  cbn [Transaction.SellingPrice Transaction.set_ProcessedAt].
  rewrite Hpay. cbn [negb]. unfold bind at 1.
  rewrite select_at_w1, Hsel. cbv zeta. unfold bind at 1.
  rewrite createBalanceMutation_off by exact Hm. reflexivity.
Qed.

End Process.

Section Failure.
Import domain postgres.

Lemma row_of_transactions (w w' : World) (id : string) :
  transactions w' = transactions w ->
  system.row_of w' id = system.row_of w id.
Proof. unfold system.row_of. now intros ->. Qed.

(** handleSupplierFailure without a retry controller: the row is marked
    FAILED, then refunded. *)
Lemma handleSupplierFailure_without_retry (o : Oracle) (uc : Wiring)
    (t r : Transaction.t) (u : User.t) (reason : string) (w : World) :
  retryUC uc = false ->
  mutationRepo uc = true ->
  system.row_of w (Transaction.ID t) = Some r ->
  find (fun x => String.eqb (User.ID x) (Transaction.UserID t)) (users w)
  = Some u ->
  existsb (fun m => String.eqb (Mutation.ID m) (uuid_draw o (cursor w)))
    (mutations w) = false ->
  let paid :=
    F64.add (User.Balance u) (Transaction.SellingPrice t) in
  let run := transaction_uc.handleSupplierFailure o uc t reason w in
  fst run = Err ("supplier failure: " ++ reason)
  /\ mutations (snd run)
     = (mutations w
        ++ [Mutation.Build (uuid_draw o (cursor w)) (User.ID u)
              MutationTypeDebit (Transaction.SellingPrice t)
              (User.Balance u) paid (Some ReferenceTypeTransaction)
              (Some (Transaction.ID t))
              ("Refund transaksi gagal " ++ Transaction.TrxCode t)
              None None (clock w)])%list
  /\ users (snd run)
     = update_where (fun x => String.eqb (User.ID x) (User.ID u))
         (User.set_Balance paid) (users w)
  /\ (exists r',
        system.row_of (snd run) (Transaction.ID t) = Some r'
        /\ Transaction.Status r' = StatusRefund
        /\ invariant.same_snapshot r r').
Proof.
  intros Hr Hm Hrow Hu Hf. cbv zeta.
  remember (transaction_uc.handleSupplierFailure o uc t reason w) as run
    eqn:E.
  unfold transaction_uc.handleSupplierFailure in E. cbv zeta in E.
  unfold bind at 1 in E. unfold time_Now at 1 in E. cbv beta iota in E.
  unfold bind at 1 in E.
  match type of E with
  | context [transactionRepository.Update ?t1 w] =>
      destruct (row_after_Update t1 r w Hrow) as [U1 U2]; rewrite U1 in *
  end.
  cbn [snd] in U2. cbv beta iota in E.
  rewrite Hr in E. unfold bind at 1 in E. unfold ret at 1 in E.
  cbv beta iota in E. unfold bind at 1 in E.
  match type of E with
  | context [transaction_uc.refundTransaction o uc ?t1 ?w1] =>
      rewrite (refundTransaction_eq o uc t1 u w1 Hu Hm Hf) in E
  end.
  match type of E with
  | context [transactionRepository.Update ?t2 ?w2] =>
      destruct (row_after_Update t2 _ w2 U2) as [V1 V2]; rewrite V1 in *
  end.
  cbn [snd] in V2. unfold ret in E. subst run. cbn [fst snd].
  split; [reflexivity|]. split; [reflexivity|]. split; [reflexivity|].
  eexists. split; [exact V2|].
  cbn. unfold invariant.same_snapshot. cbn. repeat split.
Qed.

End Failure.

(** X15. The refund without a debit. When a pending transaction of a user
    who can pay is processed and routing finds no supplier (smart routing
    not wired, no active mapping, no healthy supplier), nothing has been
    debited yet; handleSupplierFailure nevertheless refunds: without a retry
    controller, ProcessTransaction returns "supplier failure: routing
    error: ...", having appended one DEBIT mutation of the selling price and
    no other mutation, raised the balance of the user by the selling price,
    and marked the row REFUND. *)
Theorem X15_refund_without_debit :
  forall (o : Oracle) (uc : Wiring) (id : string) (w : World)
         (t : domain.Transaction.t) (u : domain.User.t) (e : string),
    system.row_of w id = Some t ->
    domain.Transaction.Status t = domain.StatusPending ->
    find (fun x => String.eqb (domain.User.ID x) (domain.Transaction.UserID t))
      (users w) = Some u ->
    domain.User.HasSufficientBalance u (domain.Transaction.SellingPrice t)
    = true ->
    fst (transaction_uc.selectSupplier o uc t w) = Err e ->
    retryUC uc = false ->
    mutationRepo uc = true ->
    existsb (fun m =>
               String.eqb (domain.Mutation.ID m)
                 (uuid_draw o
                    (cursor (snd (transaction_uc.selectSupplier o uc t w)))))
      (mutations w) = false ->
    let run := transaction_uc.ProcessTransaction o uc id w in
    let paid :=
      F64.add (domain.User.Balance u) (domain.Transaction.SellingPrice t) in
    fst run = Err ("supplier failure: routing error: " ++ e)
    /\ mutations (snd run)
       = (mutations w
          ++ [domain.Mutation.Build
                (uuid_draw o
                   (cursor (snd (transaction_uc.selectSupplier o uc t w))))
                (domain.User.ID u) domain.MutationTypeDebit
                (domain.Transaction.SellingPrice t) (domain.User.Balance u)
                paid (Some domain.ReferenceTypeTransaction) (Some id)
                ("Refund transaksi gagal " ++ domain.Transaction.TrxCode t)
                None None (clock w)])%list
    /\ users (snd run)
       = postgres.update_where
           (fun x => String.eqb (domain.User.ID x) (domain.User.ID u))
           (domain.User.set_Balance paid) (users w)
    /\ (exists t',
          system.row_of (snd run) id = Some t'
          /\ domain.Transaction.Status t' = domain.StatusRefund
          /\ invariant.same_snapshot t t').
Proof.
  intros o uc id w t u e Hrow Hp Hu Hpay Hsel Hr Hm Hf. cbv zeta.
  rewrite (ProcessTransaction_no_route o uc id w t Hrow Hp u Hu Hpay e Hsel).
  pose proof (row_of_ID id w t Hrow) as Hid. subst id.
  pose proof (processing_row _ w t Hrow) as P.
  destruct (handleSupplierFailure_without_retry o uc
              (domain.Transaction.set_ProcessedAt (Some (clock w)) t)
              (domain.Transaction.set_UpdatedAt (clock w)
                 (domain.Transaction.set_Status domain.StatusProcessing t))
              u ("routing error: " ++ e)
              (set_cursor
                 (cursor (snd (transaction_uc.selectSupplier o uc t w)))
                 (set_transactions
                    (postgres.update_where
                       (postgres.transactionRepository.has_id
                          (domain.Transaction.ID t))
                       (fun r =>
                          domain.Transaction.set_UpdatedAt (clock w)
                            (domain.Transaction.set_Status
                               domain.StatusProcessing r))
                       (transactions w)) w))
              Hr Hm)
    as [A [B [C [r' [D1 [D2 D3]]]]]].
  - exact P.
  - exact Hu.
  - exact Hf.
  - split; [exact A|]. split; [exact B|]. split; [exact C|].
    exists r'. split; [exact D1|]. split; [exact D2|].
    unfold invariant.same_snapshot in *. cbn in D3. exact D3.
Qed.

(** X16. Two ways in which ProcessTransaction leaves a transaction in
    PROCESSING for good. The row is marked PROCESSING before the user is
    read; if the user cannot be read, or if the user can pay and routing
    finds a supplier but no mutation repository is wired, ProcessTransaction
    returns an error at that point: the row stays PROCESSING, no balance and
    no mutation is written. And a row in PROCESSING is changed by none of
    ProcessTransaction, RetryFailedTransaction, CancelTransaction and the
    retry controller: each of them refuses it. *)
Theorem X16_stuck_in_processing :
  forall (o : Oracle) (uc : Wiring) (id : string) (w : World)
         (t : domain.Transaction.t),
    system.row_of w id = Some t ->
    (domain.Transaction.Status t = domain.StatusPending ->
     find (fun x => String.eqb (domain.User.ID x)
                      (domain.Transaction.UserID t)) (users w) = None
     \/ (exists u,
           find (fun x => String.eqb (domain.User.ID x)
                            (domain.Transaction.UserID t)) (users w) = Some u
           /\ domain.User.HasSufficientBalance u
                (domain.Transaction.SellingPrice t) = true
           /\ is_ok (fst (transaction_uc.selectSupplier o uc t w)) = true
           /\ mutationRepo uc = false) ->
     let run := transaction_uc.ProcessTransaction o uc id w in
     is_ok (fst run) = false
     /\ system.status_of (snd run) id = Some domain.StatusProcessing
     /\ users (snd run) = users w
     /\ mutations (snd run) = mutations w)
    /\ (domain.Transaction.Status t = domain.StatusProcessing ->
        forall config,
          system.run o uc (system.ProcessTransaction id) w = w
          /\ system.run o uc (system.RetryFailedTransaction id) w = w
          /\ system.run o uc (system.CancelTransaction id) w = w
          /\ system.run o uc (system.RetryTransaction id config) w = w).
Proof.
  intros o uc id w t Hrow. split.
  - intros Hp H. cbv zeta.
    pose proof (processing_row id w t Hrow) as P.
    destruct H as [Hu|[u [Hu [Hpay [Hsel Hm]]]]].
    + rewrite (ProcessTransaction_user_missing o uc id w t Hrow Hp Hu).
      cbn [fst snd is_ok]. unfold system.status_of. rewrite P.
      repeat split.
    + destruct (fst (transaction_uc.selectSupplier o uc t w))
        as [[s m]|e] eqn:E; [|discriminate].
      rewrite (ProcessTransaction_no_ledger o uc id w t Hrow Hp u Hu Hpay
                 s m E Hm).
      cbn [fst snd is_ok]. unfold system.status_of, system.row_of in *.
      cbn [transactions set_cursor set_transactions] in *.
      rewrite P. repeat split.
  - intros Hs config. cbn [system.run].
    split; [apply (ProcessTransaction_not_pending id o uc w t Hrow);
            rewrite Hs; discriminate|].
    split; [apply (RetryFailedTransaction_not_failed id o uc w t Hrow);
            rewrite Hs; discriminate|].
    split; [apply (CancelTransaction_not_pending id o uc w t Hrow);
            rewrite Hs; discriminate|].
    apply (RetryTransaction_not_retryable id o w t Hrow);
      rewrite Hs; discriminate.
Qed.

(** X17. The balance is checked again when the transaction is processed.
    If the user on file can no longer pay the selling price,
    ProcessTransaction returns "insufficient balance": the row is FAILED
    with the message "Insufficient balance" and processed_at set, no
    supplier is asked, no balance and no mutation is written. *)
Theorem X17_processing_checks_the_balance_again :
  forall (o : Oracle) (uc : Wiring) (id : string) (w : World)
         (t : domain.Transaction.t) (u : domain.User.t),
    system.row_of w id = Some t ->
    domain.Transaction.Status t = domain.StatusPending ->
    find (fun x => String.eqb (domain.User.ID x) (domain.Transaction.UserID t))
      (users w) = Some u ->
    domain.User.HasSufficientBalance u (domain.Transaction.SellingPrice t)
    = false ->
    let run := transaction_uc.ProcessTransaction o uc id w in
    fst run = Err "insufficient balance"
    /\ users (snd run) = users w
    /\ mutations (snd run) = mutations w
    /\ suppliers (snd run) = suppliers w
    /\ cursor (snd run) = cursor w
    /\ (exists t',
          system.row_of (snd run) id = Some t'
          /\ domain.Transaction.Status t' = domain.StatusFailed
          /\ domain.Transaction.SupplierMessage t'
             = Some "Insufficient balance"
          /\ domain.Transaction.ProcessedAt t' = Some (clock w)
          /\ domain.Transaction.RoutingAttempts t'
             = domain.Transaction.RoutingAttempts t
          /\ invariant.same_snapshot t t').
Proof.
  intros o uc id w t u Hrow Hp Hu Hb. cbv zeta.
  rewrite (ProcessTransaction_cannot_pay o uc id w t Hrow Hp u Hu Hb).
  pose proof (row_of_ID id w t Hrow) as Hid. subst id.
  pose proof (processing_row _ w t Hrow) as P.
  match goal with
  | |- context [postgres.transactionRepository.Update ?t1 ?w1] =>
      destruct (row_after_Update t1 _ w1 P) as [U1 U2]; rewrite U1 in *
  end.
  cbn [fst snd] in *.
  split; [reflexivity|]. repeat (split; [reflexivity|]).
  eexists. split; [exact U2|].
  cbn. unfold invariant.same_snapshot. cbn. repeat split.
Qed.

Section Success.
Import domain postgres.

Lemma UpdateMetrics_keeps (sid : string) (success : bool) (rt : Z)
    (w : World) :
  let w' := snd (supplierRepository.UpdateMetrics sid success rt w) in
  transactions w' = transactions w /\ users w' = users w
  /\ mutations w' = mutations w /\ clock w' = clock w
  /\ cursor w' = cursor w /\ transaction_queue w' = transaction_queue w.
Proof.
  cbv zeta. unfold supplierRepository.UpdateMetrics. run_monad.
  destruct (forallb _ _); run_monad; cbn [fst snd]; [|repeat split].
  destruct (_ =? _)%nat; cbn [snd]; repeat split.
Qed.

Lemma selectSupplier_wired (o : Oracle) (uc : Wiring) (t : Transaction.t)
    (w : World) (x : Supplier.t * ProductMapping.t) :
  fst (transaction_uc.selectSupplier o uc t w) = Ok x ->
  smartRoutingUC uc = true.
Proof.
  unfold transaction_uc.selectSupplier.
  destruct (smartRoutingUC uc); [reflexivity|]. discriminate.
Qed.

End Success.

(** X18. A purchase that goes through. For a pending transaction of a user
    who can pay, when routing selects a supplier whose adapter answers with
    success, ProcessTransaction returns without error, having appended
    exactly one mutation, a CREDIT of the selling price that references the
    transaction, with balance_before the balance on file and balance_after
    that balance minus the selling price; having set the balance of the
    user to that difference; and having marked the row SUCCESS, with the
    selected supplier as supplier and final supplier, processed_at the time
    of the call and completed_at the time the adapter answered. *)
Theorem X18_successful_purchase_debits_once :
  forall (o : Oracle) (uc : Wiring) (id : string) (w : World)
         (t : domain.Transaction.t) (u : domain.User.t)
         (s : domain.Supplier.t) (m : domain.ProductMapping.t)
         (registry : string -> option SupplierAdapter)
         (adapter : SupplierAdapter) (response : domain.SupplierResponse)
         (duration : Z),
    system.row_of w id = Some t ->
    domain.Transaction.Status t = domain.StatusPending ->
    find (fun x => String.eqb (domain.User.ID x) (domain.Transaction.UserID t))
      (users w) = Some u ->
    domain.User.HasSufficientBalance u (domain.Transaction.SellingPrice t)
    = true ->
    fst (transaction_uc.selectSupplier o uc t w) = Ok (s, m) ->
    mutationRepo uc = true ->
    existsb (fun x =>
               String.eqb (domain.Mutation.ID x)
                 (uuid_draw o
                    (cursor (snd (transaction_uc.selectSupplier o uc t w)))))
      (mutations w) = false ->
    adapterFactory uc = Some registry ->
    registry (domain.Supplier.Code s) = Some adapter ->
    adapter (domain.Build_SupplierRequest
               (domain.ProductMapping.SupplierProductCode m)
               (domain.Transaction.DestinationNumber t)
               (domain.Transaction.TrxCode t))
    = (TopUpReply response, duration) ->
    domain.Success response = true ->
    let run := transaction_uc.ProcessTransaction o uc id w in
    let left :=
      F64.sub (domain.User.Balance u) (domain.Transaction.SellingPrice t) in
    fst run = Ok tt
    /\ mutations (snd run)
       = (mutations w
          ++ [domain.Mutation.Build
                (uuid_draw o
                   (cursor (snd (transaction_uc.selectSupplier o uc t w))))
                (domain.User.ID u) domain.MutationTypeCredit
                (domain.Transaction.SellingPrice t) (domain.User.Balance u)
                left (Some domain.ReferenceTypeTransaction) (Some id)
                ("Pembelian " ++ domain.Transaction.ProductCode t ++ " "
                 ++ domain.Transaction.DestinationNumber t)
                None None (clock w)])%list
    /\ users (snd run)
       = postgres.update_where
           (fun x => String.eqb (domain.User.ID x) (domain.User.ID u))
           (domain.User.set_Balance left) (users w)
    /\ (exists t',
          system.row_of (snd run) id = Some t'
          /\ domain.Transaction.Status t' = domain.StatusSuccess
          /\ domain.Transaction.SupplierID t' = Some (domain.Supplier.ID s)
          /\ domain.Transaction.FinalSupplierID t'
             = Some (domain.Supplier.ID s)
          /\ domain.Transaction.ProcessedAt t' = Some (clock w)
          /\ domain.Transaction.CompletedAt t'
             = Some (clock w + Z.max 0 duration)
          /\ domain.Transaction.RoutingAttempts t'
             = domain.Transaction.RoutingAttempts t
          /\ invariant.same_snapshot t t').
Proof.
  intros o uc id w t u s m registry adapter response duration
         Hrow Hp Hu Hpay Hsel Hm Hf Hreg Had Hans Hok. cbv zeta.
  pose proof (selectSupplier_wired o uc t w (s, m) Hsel) as Hw.
  pose proof (row_of_ID id w t Hrow) as Hid. subst id.
  pose proof (processing_row _ w t Hrow) as P.
  remember (transaction_uc.ProcessTransaction o uc (domain.Transaction.ID t) w)
    as run eqn:E.
  unfold transaction_uc.ProcessTransaction in E.
  unfold bind at 1 in E. rewrite (GetByID_found _ w t Hrow) in E.
  rewrite Hp in E. cbn [negb domain.status_eqb] in E.
  unfold bind at 1 in E. unfold time_Now at 1 in E. cbv beta iota zeta in E.
  unfold bind at 1 in E.
  rewrite (proj1 (row_after_UpdateStatus _ domain.StatusProcessing t w Hrow))
    in E.
  unfold bind at 1 in E.
  erewrite (user_GetByID_found _ _ u) in E by exact Hu.
  cbn [domain.Transaction.SellingPrice domain.Transaction.set_ProcessedAt]
    in E.
  rewrite Hpay in E. cbn [negb] in E. unfold bind at 1 in E.
  rewrite (select_at_w1 o uc _ w t), Hsel in E.
  cbv zeta in E. unfold bind at 1 in E.
  rewrite createBalanceMutation_eq in E by assumption.
  unfold bind at 1 in E. rewrite UpdateBalance_eq in E.
  unfold transaction_uc.executeSupplierTransaction in E.
  rewrite Hreg, Had in E.
  cbn [domain.Transaction.DestinationNumber domain.Transaction.TrxCode
       domain.Transaction.set_SupplierID domain.Transaction.set_ProcessedAt]
    in E.
  rewrite Hans in E. cbv zeta in E.
  unfold bind at 1 in E. unfold time_Sleep at 1 in E.
  unfold modify at 1 in E. cbv beta iota in E.
  rewrite Hw, Hok in E. cbn [negb] in E.
  unfold bind at 1 in E. unfold bind at 1 in E.
  unfold smart_routing.UpdateSupplierMetrics in E.
  match type of E with
  | context [postgres.supplierRepository.UpdateMetrics ?a ?b ?c ?x] =>
      destruct (UpdateMetrics_keeps a b c x) as [K1 [K2 [K3 [K4 [K5 K6]]]]];
      destruct (postgres.supplierRepository.UpdateMetrics a b c x)
        as [r6 w6]
  end.
  simp_world.
  unfold ret at 1 in E. cbv beta iota in E.
  unfold bind at 1 in E. unfold time_Now at 1 in E. cbv beta iota in E.
  unfold bind at 1 in E.
  assert (P6 : system.row_of w6 (domain.Transaction.ID t)
               = Some (domain.Transaction.set_UpdatedAt (clock w)
                         (domain.Transaction.set_Status
                            domain.StatusProcessing t))).
  { unfold system.row_of in *. rewrite K1. exact P. }
  destruct (String.eqb (domain.SerialNumber response) "");
    destruct (String.eqb (domain.TrxID response) "");
    destruct (String.eqb (domain.Message response) "");
    cbn [negb] in E;
    repeat match type of E with
           | context [String.eqb ?a ""] => destruct (String.eqb a "")
           end;
    cbn [negb] in E;
    match type of E with
    | context [postgres.transactionRepository.Update ?t1 w6] =>
        destruct (row_after_Update t1
                    (domain.Transaction.set_UpdatedAt (clock w)
                       (domain.Transaction.set_Status
                          domain.StatusProcessing t)) w6 P6) as [U1 U2]
    end;
    rewrite U1 in E, U2; unfold ret in E; subst run; simp_world;
    rewrite K2, K3;
    (split; [reflexivity|]); (split; [reflexivity|]);
    (split; [reflexivity|]);
    (eexists; split; [exact U2|]);
    rewrite K4; unfold invariant.same_snapshot; simp_world;
    repeat split.
Qed.

Section Creation.
Import domain postgres.

Lemma product_GetByCode_found (code : string) (w : World) (p : Product.t) :
  find (fun x => String.eqb (Product.Code x) code) (products w) = Some p ->
  productRepository.GetByCode code w = (Ok p, w).
Proof.
  intros H. unfold productRepository.GetByCode. run_monad. now rewrite H.
Qed.

End Creation.

(** X19. CreateTransaction, when every check passes. For a request that
    passes the validations, from a user who can pay, with fresh id and
    transaction code, CreateTransaction returns the new transaction and
    appends exactly one row: PENDING, attempt counter 0, the normalised
    destination number, hpp the base price of the product and selling price
    the price for that user. It puts the id on the queue when a queue is
    wired (and does not otherwise), and debits nothing: balances and
    mutations are untouched until the transaction is processed. *)
Theorem X19_CreateTransaction_stores_a_pending_row :
  forall (o : Oracle) (uc : Wiring) (userID productCode destination : string)
         (user : domain.User.t) (product : domain.Product.t) (w : World),
    find (fun x => String.eqb (domain.User.ID x) userID) (users w)
    = Some user ->
    find (fun x => String.eqb (domain.Product.Code x) productCode)
      (products w) = Some product ->
    system.passes_validation userID productCode destination user product
    = true ->
    domain.User.HasSufficientBalance user
      (domain.User.GetEffectivePrice user (domain.Product.BasePrice product))
    = true ->
    existsb (fun r =>
               String.eqb (domain.Transaction.ID r) (uuid_draw o (cursor w))
               || String.eqb (domain.Transaction.TrxCode r)
                    (trx_code_draw o (S (cursor w))))
      (transactions w) = false ->
    let run :=
      transaction_uc.CreateTransaction o uc userID productCode destination w in
    let id := uuid_draw o (cursor w) in
    exists created row,
      fst run = Ok created
      /\ domain.Transaction.ID created = id
      /\ transactions (snd run) = (transactions w ++ [row])%list
      /\ system.row_of (snd run) id = Some row
      /\ domain.Transaction.ID row = id
      /\ domain.Transaction.TrxCode row = trx_code_draw o (S (cursor w))
      /\ domain.Transaction.UserID row = userID
      /\ domain.Transaction.ProductID row = domain.Product.ID product
      /\ domain.Transaction.ProductCode row = productCode
      /\ domain.Transaction.DestinationNumber row
         = utils.ParsePhoneNumber destination
      /\ domain.Transaction.HPP row = domain.Product.BasePrice product
      /\ domain.Transaction.SellingPrice row
         = domain.User.GetEffectivePrice user
             (domain.Product.BasePrice product)
      /\ domain.Transaction.Status row = domain.StatusPending
      /\ domain.Transaction.RoutingAttempts row = 0
      /\ transaction_queue (snd run)
         = (if queueRepo uc then id :: transaction_queue w
            else transaction_queue w)
      /\ users (snd run) = users w
      /\ mutations (snd run) = mutations w.
Proof.
  intros o uc userID productCode destination user product w
         Hu Hp Hv Hb Hfresh. cbv zeta.
  unfold system.passes_validation in Hv.
  apply andb_true_iff in Hv as [Hv V8]. apply andb_true_iff in Hv as [Hv V7].
  apply andb_true_iff in Hv as [Hv V6]. apply andb_true_iff in Hv as [Hv V5].
  apply andb_true_iff in Hv as [Hv V4]. apply andb_true_iff in Hv as [Hv V3].
  apply andb_true_iff in Hv as [V1 V2].
  apply negb_true_iff in V1, V2, V3, V7, V8.
  remember (transaction_uc.CreateTransaction o uc userID productCode
              destination w) as run eqn:E.
  unfold transaction_uc.CreateTransaction in E.
  rewrite V1, V2, V3, V4 in E. cbn [negb orb] in E.
  unfold bind at 1 in E. rewrite (user_GetByID_found _ _ _ Hu) in E.
  rewrite V5 in E. cbn [negb] in E.
  unfold bind at 1 in E. rewrite (product_GetByCode_found _ _ _ Hp) in E.
  rewrite V6 in E. cbn [negb] in E. cbv zeta in E.
  rewrite V7, V8, Hb in E.
  cbn [negb orb] in E. cbv zeta in E.
  unfold bind at 1 in E. unfold draw at 1 in E. cbv beta iota in E.
  unfold bind at 1 in E. unfold draw at 1 in E. cbv beta iota in E.
  unfold bind at 1 in E. unfold time_Now at 1 in E. cbv beta iota in E.
  unfold bind at 1 in E.
  unfold postgres.transactionRepository.Create in E.
  unfold bind at 1 in E. unfold time_Now at 1 in E. cbv beta iota in E.
  unfold bind at 1 in E. unfold get at 1 in E. cbv beta iota in E.
  simp_world. rewrite Hfresh in E.
  unfold bind at 1 in E. unfold modify at 1 in E. cbv beta iota in E.
  unfold ret at 1 in E. cbv beta iota in E.
  unfold bind at 1 in E.
  destruct (queueRepo uc).
  - unfold redis.EnqueueTransaction, bind, ret, get, modify in E.
    cbv beta iota zeta in E. simp_world.
    subst run. do 2 eexists. simp_world.
    split; [reflexivity|]. split; [reflexivity|]. split; [reflexivity|].
    split.
    { unfold system.row_of. simp_world. rewrite find_app_none.
      - cbn [find]. unfold postgres.transactionRepository.has_id at 1.
        cbn [domain.Transaction.ID]. now rewrite String.eqb_refl.
      - refine (existsb_find_none _ _ _ _ Hfresh).
        intros x Hx. unfold postgres.transactionRepository.has_id in Hx.
        now rewrite Hx. }
    repeat split.
  - unfold bind, ret in E. cbv beta iota zeta in E. simp_world.
    subst run. do 2 eexists. simp_world.
    split; [reflexivity|]. split; [reflexivity|]. split; [reflexivity|].
    split.
    { unfold system.row_of. simp_world. rewrite find_app_none.
      - cbn [find]. unfold postgres.transactionRepository.has_id at 1.
        cbn [domain.Transaction.ID]. now rewrite String.eqb_refl.
      - refine (existsb_find_none _ _ _ _ Hfresh).
        intros x Hx. unfold postgres.transactionRepository.has_id in Hx.
        now rewrite Hx. }
    repeat split.
Qed.


Lemma X15_refund_without_debit_witness :
  fst (transaction_uc.ProcessTransaction scenario.oracle0 cases.wiring_bare
         "T1" scenario.slow_world)
  = Err ("supplier failure: routing error: "
         ++ "smart routing is not configured").
Proof.
  apply (X15_refund_without_debit scenario.oracle0 cases.wiring_bare "T1"
           scenario.slow_world
           (scenario.transaction "T1" domain.StatusPending 0)
           (scenario.user 50000) "smart routing is not configured");
    vm_compute; reflexivity.
Defined.

Lemma X16_stuck_in_processing_witness :
  system.status_of
    (snd (transaction_uc.ProcessTransaction scenario.oracle0 scenario.wiring
            "T1" cases.orphan_world)) "T1"
  = Some domain.StatusProcessing.
Proof.
  apply (proj1 (X16_stuck_in_processing scenario.oracle0 scenario.wiring "T1"
                  cases.orphan_world
                  (scenario.transaction "T1" domain.StatusPending 0)
                  eq_refl) eq_refl).
  left. reflexivity.
Defined.

Lemma X17_processing_checks_the_balance_witness :
  fst (transaction_uc.ProcessTransaction scenario.oracle0 scenario.wiring
         "T1" scenario.broke_world) = Err "insufficient balance".
Proof.
  apply (X17_processing_checks_the_balance_again scenario.oracle0
           scenario.wiring "T1" scenario.broke_world
           (scenario.transaction "T1" domain.StatusPending 0)
           (scenario.user 0));
    vm_compute; reflexivity.
Defined.

Lemma X18_successful_purchase_witness :
  fst (transaction_uc.ProcessTransaction scenario.oracle0
         cases.wiring_accepting "T1" scenario.slow_world) = Ok tt.
Proof.
  apply (X18_successful_purchase_debits_once scenario.oracle0
           cases.wiring_accepting "T1" scenario.slow_world
           (scenario.transaction "T1" domain.StatusPending 0)
           (scenario.user 50000) (scenario.supplier "S1" 1 30000)
           (scenario.mapping "S1" 9800 1) (fun _ => Some cases.accepting_adapter)
           cases.accepting_adapter
           (domain.Build_SupplierResponse true "ok" "SUP-1" "SN-1" 200 0)
           (1000 * domain.Millisecond));
    vm_compute; reflexivity.
Defined.

Lemma X19_CreateTransaction_witness :
  exists created row,
    fst (transaction_uc.CreateTransaction scenario.oracle0 scenario.wiring
           "U1" "T10" "0812-3456-789" scenario.slow_world) = Ok created
    /\ domain.Transaction.Status row = domain.StatusPending
    /\ domain.Transaction.DestinationNumber row = "628123456789".
Proof.
  destruct (X19_CreateTransaction_stores_a_pending_row scenario.oracle0
              scenario.wiring "U1" "T10" "0812-3456-789"
              (scenario.user 50000) (scenario.product 1000000)
              scenario.slow_world)
    as [created [row H]]; try (vm_compute; reflexivity).
  exists created, row.
  destruct H as [H1 [_ [_ [_ [_ [_ [_ [_ [_ [H2 [_ [_ [H3 _]]]]]]]]]]]]].
  split; [exact H1|]. split; [exact H3|]. rewrite H2. reflexivity.
Defined.

Section Worker.
Import domain postgres.

Lemma Dequeue_oldest (rest : list string) (id : string) (w : World) :
  transaction_queue w = (rest ++ [id])%list ->
  redis.DequeueTransaction w = (Ok id, set_transaction_queue rest w).
Proof.
  intros E. unfold redis.DequeueTransaction. run_monad.
  rewrite E, rev_app_distr. cbn [rev app]. now rewrite rev_involutive.
Qed.

End Worker.

(** X20. One round of the transaction worker. Without a use case or without
    a queue, and on an empty queue, processNext changes nothing. Otherwise
    it takes the oldest id off the queue and runs ProcessTransaction on it;
    whatever the outcome, the id is gone from the queue afterwards and is
    not put back, and the ids behind it keep their order. *)
Theorem X20_worker_takes_the_oldest_id :
  forall (o : Oracle) (worker : worker.TransactionWorker) (w : World),
    (worker.trxUC worker = None \/ worker.queueRepo worker = false
     \/ transaction_queue w = [] ->
     worker.processNext o worker w = (tt, w))
    /\ (forall uc rest id,
          worker.trxUC worker = Some uc ->
          worker.queueRepo worker = true ->
          transaction_queue w = (rest ++ [id])%list ->
          id <> "" ->
          snd (worker.processNext o worker w)
          = snd (transaction_uc.ProcessTransaction o uc id
                   (set_transaction_queue rest w))
          /\ transaction_queue (snd (worker.processNext o worker w)) = rest).
Proof.
  intros o wk w. split.
  - intros H. unfold worker.processNext.
    destruct (worker.trxUC wk) as [uc|]; [|reflexivity].
    destruct (worker.queueRepo wk); cbn [negb]; [|reflexivity].
    destruct H as [H|[H|H]]; try discriminate.
    unfold redis.DequeueTransaction. run_monad. rewrite H. reflexivity.
  - intros uc rest id Hu Hq E Hid.
    assert (P : snd (worker.processNext o wk w)
                = snd (transaction_uc.ProcessTransaction o uc id
                         (set_transaction_queue rest w))).
    { unfold worker.processNext. rewrite Hu, Hq. cbn [negb].
      unfold bind at 1. rewrite (Dequeue_oldest rest id w E).
      apply String.eqb_neq in Hid. rewrite Hid.
      unfold bind at 1. unfold time_Now at 1. cbv beta iota.
      unfold bind at 1.
      destruct (transaction_uc.ProcessTransaction o uc id
                  (set_transaction_queue rest w)). reflexivity. }
    split; [exact P|]. rewrite P.
    apply (closure_ProcessTransaction invariant.keeps_queue);
      try (intros; reflexivity).
    + unfold invariant.keeps_queue. intros; congruence.
    + intros; rewrite Update_eq; reflexivity.
    + intros; rewrite UpdateStatus_eq; reflexivity.
Qed.

Lemma X20_worker_witness :
  worker.processNext scenario.oracle0
    (worker.Build_TransactionWorker true (Some scenario.wiring))
    scenario.slow_world
  = (tt, scenario.slow_world).
Proof.
  apply (proj1 (X20_worker_takes_the_oldest_id scenario.oracle0
                  (worker.Build_TransactionWorker true (Some scenario.wiring))
                  scenario.slow_world)).
  right. right. reflexivity.
Defined.

(** X21. When the retry controller refuses. RetryTransaction returns an
    error for an id that is not in the table. For a transaction that is
    neither FAILED nor TIMEOUT, or whose attempt counter has reached the
    maximal number of attempts of the configuration (3 by default), or that
    was created more than 24 hours ago, it returns a result without error
    that says "transaction cannot be retried", reports the counter of the
    row as the attempts made, and reports a refund exactly when the row is
    REFUND already; in all these cases nothing is written. *)
Theorem X21_retry_controller_refuses :
  forall (o : Oracle) (id : string) (config : option retry.RetryConfig)
         (w : World),
    let c := match config with
             | Some c => c
             | None => retry.DefaultRetryConfig
             end in
    (system.row_of w id = None ->
     retry.RetryTransaction o id config w
     = (Err "transaction not found: transaction not found", w))
    /\ (forall t,
          system.row_of w id = Some t ->
          (domain.Transaction.Status t <> domain.StatusFailed
           /\ domain.Transaction.Status t <> domain.StatusTimeout)
          \/ retry.MaxAttempts c <= domain.Transaction.RoutingAttempts t
          \/ 24 * domain.Hour
             < GoInt.sub (clock w) (domain.Transaction.CreatedAt t) ->
          retry.RetryTransaction o id config w
          = (Ok (retry.RetryResult.Build false
                   (domain.Transaction.RoutingAttempts t) 0 ""
                   (Some "transaction cannot be retried") []
                   (domain.status_eqb (domain.Transaction.Status t)
                      domain.StatusRefund)
                   F64.zero), w)).
Proof.
  intros o id config w c. split.
  - intros H. unfold retry.RetryTransaction. cbv zeta. unfold bind at 1.
    now rewrite (GetByID_missing id w H).
  - intros t Hrow H. unfold retry.RetryTransaction. cbv zeta.
    unfold bind at 1. rewrite (GetByID_found id w t Hrow).
    fold c. unfold bind at 1.
    assert (N : retry.canRetryTransaction t c w = (false, w)).
    { unfold retry.canRetryTransaction.
      destruct H as [[H1 H2]|[H|H]].
      - destruct (domain.Transaction.Status t); try reflexivity;
          congruence.
      - destruct (negb _ && negb _); [reflexivity|].
        apply Z.leb_le in H. now rewrite H.
      - destruct (negb _ && negb _); [reflexivity|].
        destruct (retry.MaxAttempts c <=? _); [reflexivity|].
        cbv zeta. unfold bind, time_Now. apply Z.ltb_lt in H.
        now rewrite H. }
    rewrite N. reflexivity.
Qed.

Lemma X21_retry_controller_refuses_witness :
  retry.RetryTransaction scenario.oracle0 "T1" None scenario.slow_world
  = (Ok (retry.RetryResult.Build false 0 0 ""
           (Some "transaction cannot be retried") [] false F64.zero),
     scenario.slow_world).
Proof.
  apply (proj2 (X21_retry_controller_refuses scenario.oracle0 "T1" None
                  scenario.slow_world)
           (scenario.transaction "T1" domain.StatusPending 0) eq_refl).
  left. split; discriminate.
Defined.
